(** * Sales analytics ETL: a shallow embedding of [src/etl/order_info_etl.py]
    and [src/etl/product_info_etl.py], with the properties of the pipeline
    stated and proved over it.

    Layout:
    - [Py]            Python values the helpers receive (str as code points,
                      None, NaN), string formatting and UTF-8 encoding;
    - [MD5]           the digest behind [hashlib.md5];
    - [Identity]      [stable_customer_id];
    - [Regex]         the fragment of [re] the helpers use, as a backtracking
                      matcher;
    - [Normalizer]    [strip_units_to_float] and the quantity clean-up of
                      [main];
    - [Calendar]      proleptic Gregorian dates as pandas computes them;
    - [Timestamps]    [parse_datetime_series];
    - [Sql]           transactions and key constraints;
    - [DateDimension] the frame and the MERGE of [ensure_dim_date];
    - [Warehouse]     the tables and the SQL statements of [main];
    - [PyText]        [str.strip], [str.replace] and [str.split];
    - [Headers]       [normalize_colname] and the choice of the reader;
    - [Frame]         columns made up for missing labels, and selection;
    - [Cleaning]      the state code and the product key;
    - [Staging]       the staging table and the truncation to its widths;
    - [Units], [KeyText]  more on [strip_units_to_float] and on the hashed
                      text;
    - [Pipeline]      steps 4 to 8 of [main] as one run;
    - [ProductInfo]   the product master load of [product_info_etl.py]. *)

From Stdlib Require Import ZArith List Bool Lia String Ascii QArith Qabs.
From Stdlib Require Import Lists.Finite.
Import ListNotations.

Local Open Scope Z_scope.

(* ------------------------------------------------------------------ *)
(** ** Python values *)

Module Py.

(** A Python [str] is a sequence of Unicode code points. *)
Definition str := list Z.

Definition ord (a : ascii) : Z := Z.of_N (N_of_ascii a).

(** ASCII literals of the source, as code points. *)
Definition lit (s : string) : str := List.map ord (list_ascii_of_string s).

(** What a cell of a DataFrame read with [dtype=str] holds: a string, [None]
    (a column synthesised by [df[c] = None]) or the float NaN (a missing
    cell). *)
Inductive value :=
| VStr (s : str)
| VNone
| VNaN.

(** [str(v)] / [format(v, "")], as an f-string field renders it. *)
Definition format (v : value) : str :=
  match v with
  | VStr s => s
  | VNone => lit "None"
  | VNaN => lit "nan"
  end.

(** [pd.isna] on a cell. *)
Definition isna (v : value) : bool :=
  match v with
  | VStr _ => false
  | _ => true
  end.

(** UTF-8 of one code point; a lone surrogate cannot be encoded and
    [errors="ignore"] drops it. *)
Definition utf8_char (c : Z) : list Z :=
  if c <? 0x80 then [c]
  else if c <? 0x800 then
    [Z.lor 0xC0 (Z.shiftr c 6); Z.lor 0x80 (Z.land c 0x3F)]
  else if (0xD800 <=? c) && (c <=? 0xDFFF) then []
  else if c <? 0x10000 then
    [Z.lor 0xE0 (Z.shiftr c 12);
     Z.lor 0x80 (Z.land (Z.shiftr c 6) 0x3F);
     Z.lor 0x80 (Z.land c 0x3F)]
  else
    [Z.lor 0xF0 (Z.shiftr c 18);
     Z.lor 0x80 (Z.land (Z.shiftr c 12) 0x3F);
     Z.lor 0x80 (Z.land (Z.shiftr c 6) 0x3F);
     Z.lor 0x80 (Z.land c 0x3F)].

(** [s.encode("utf-8", errors="ignore")]: bytes as integers in [0, 255]. *)
Definition encode_utf8_ignore (s : str) : list Z := flat_map utf8_char s.

End Py.

(* ------------------------------------------------------------------ *)
(** ** MD5 (RFC 1321), the function behind [hashlib.md5] *)

Module MD5.

Definition w32 (x : Z) : Z := x mod 2 ^ 32.

Definition rotl32 (x : Z) (n : Z) : Z :=
  w32 (Z.lor (Z.shiftl x n) (Z.shiftr (w32 x) (32 - n))).

Definition not32 (x : Z) : Z := Z.lxor (w32 x) 0xFFFFFFFF.

Definition K : list Z :=
  [0xd76aa478; 0xe8c7b756; 0x242070db; 0xc1bdceee;
   0xf57c0faf; 0x4787c62a; 0xa8304613; 0xfd469501;
   0x698098d8; 0x8b44f7af; 0xffff5bb1; 0x895cd7be;
   0x6b901122; 0xfd987193; 0xa679438e; 0x49b40821;
   0xf61e2562; 0xc040b340; 0x265e5a51; 0xe9b6c7aa;
   0xd62f105d; 0x02441453; 0xd8a1e681; 0xe7d3fbc8;
   0x21e1cde6; 0xc33707d6; 0xf4d50d87; 0x455a14ed;
   0xa9e3e905; 0xfcefa3f8; 0x676f02d9; 0x8d2a4c8a;
   0xfffa3942; 0x8771f681; 0x6d9d6122; 0xfde5380c;
   0xa4beea44; 0x4bdecfa9; 0xf6bb4b60; 0xbebfbc70;
   0x289b7ec6; 0xeaa127fa; 0xd4ef3085; 0x04881d05;
   0xd9d4d039; 0xe6db99e5; 0x1fa27cf8; 0xc4ac5665;
   0xf4292244; 0x432aff97; 0xab9423a7; 0xfc93a039;
   0x655b59c3; 0x8f0ccc92; 0xffeff47d; 0x85845dd1;
   0x6fa87e4f; 0xfe2ce6e0; 0xa3014314; 0x4e0811a1;
   0xf7537e82; 0xbd3af235; 0x2ad7d2bb; 0xeb86d391].

Definition shifts : list Z :=
  [7; 12; 17; 22; 7; 12; 17; 22; 7; 12; 17; 22; 7; 12; 17; 22;
   5; 9; 14; 20; 5; 9; 14; 20; 5; 9; 14; 20; 5; 9; 14; 20;
   4; 11; 16; 23; 4; 11; 16; 23; 4; 11; 16; 23; 4; 11; 16; 23;
   6; 10; 15; 21; 6; 10; 15; 21; 6; 10; 15; 21; 6; 10; 15; 21].

Record state := mk_state { sa : Z; sb : Z; sc : Z; sd : Z }.

Definition init : state :=
  mk_state 0x67452301 0xefcdab89 0x98badcfe 0x10325476.

(** Little-endian bytes of a word, and back. *)
Fixpoint le_bytes (n : nat) (x : Z) : list Z :=
  match n with
  | O => []
  | S n' => (x mod 256) :: le_bytes n' (x / 256)
  end.

Fixpoint le_word (bs : list Z) : Z :=
  match bs with
  | [] => 0
  | b :: bs' => b + 256 * le_word bs'
  end.

(** The message followed by 0x80, zeros up to 56 mod 64, and the bit length
    on 8 bytes. *)
Definition pad (msg : list Z) : list Z :=
  let len := Z.of_nat (List.length msg) in
  let zeros := Z.to_nat ((55 - len) mod 64) in
  msg ++ [0x80] ++ repeat 0 zeros ++ le_bytes 8 ((8 * len) mod 2 ^ 64).

(** Cut into blocks of [n] elements; the fuel is the number of blocks. *)
Fixpoint chunks {A} (fuel : nat) (n : nat) (l : list A) : list (list A) :=
  match fuel with
  | O => []
  | S fuel' =>
      match l with
      | [] => []
      | _ => firstn n l :: chunks fuel' n (skipn n l)
      end
  end.

Definition words_of_block (block : list Z) : list Z :=
  List.map le_word (chunks 16 4 block).

(** One of the 64 operations on a block. *)
Definition step (M : list Z) (st : state) (i : nat) : state :=
  let zi := Z.of_nat i in
  let '(mk_state a b c d) := st in
  let '(f, g) :=
    if zi <? 16 then (Z.lor (Z.land b c) (Z.land (not32 b) d), zi)
    else if zi <? 32 then
      (Z.lor (Z.land d b) (Z.land (not32 d) c), (5 * zi + 1) mod 16)
    else if zi <? 48 then (Z.lxor (Z.lxor b c) d, (3 * zi + 5) mod 16)
    else (Z.lxor c (Z.lor b (not32 d)), (7 * zi) mod 16) in
  let f' := w32 (f + a + nth i K 0 + nth (Z.to_nat g) M 0) in
  mk_state d (w32 (b + rotl32 f' (nth i shifts 0))) b c.

Definition process_block (st : state) (block : list Z) : state :=
  let M := words_of_block block in
  let st' := fold_left (step M) (seq 0 64) st in
  mk_state (w32 (sa st + sa st')) (w32 (sb st + sb st'))
           (w32 (sc st + sc st')) (w32 (sd st + sd st')).

(** The 16 bytes of the digest. *)
Definition digest (msg : list Z) : list Z :=
  let p := pad msg in
  let st := fold_left process_block (chunks (List.length p) 64 p) init in
  le_bytes 4 (sa st) ++ le_bytes 4 (sb st) ++
  le_bytes 4 (sc st) ++ le_bytes 4 (sd st).

Definition hex_digit (n : Z) : ascii :=
  nth (Z.to_nat n) (list_ascii_of_string "0123456789abcdef") "0"%char.

(** [hexdigest()]: two lowercase hex digits per byte. *)
Definition hexdigest (msg : list Z) : list ascii :=
  flat_map (fun b => [hex_digit (b / 16); hex_digit (b mod 16)]) (digest msg).

(** Digests of the RFC's test suite and around the block border. *)
Example hexdigest_vectors :
  string_of_list_ascii (hexdigest [])
    = "d41d8cd98f00b204e9800998ecf8427e"%string /\
  string_of_list_ascii (hexdigest [97; 98; 99])
    = "900150983cd24fb0d6963f7d28e17f72"%string /\
  string_of_list_ascii (hexdigest (repeat 97 55))
    = "ef1772b6dff9a122358552954ad0df65"%string /\
  string_of_list_ascii (hexdigest (repeat 97 56))
    = "3b0c8ac703f828b04c6c197006d17218"%string /\
  string_of_list_ascii (hexdigest (repeat 97 64))
    = "014842d480b571495a4a0363793f7367"%string /\
  string_of_list_ascii (hexdigest (repeat 97 120))
    = "5f61c0ccad4cac44c75ff505e1f1e537"%string.
Proof. vm_compute. repeat split; reflexivity. Qed.

End MD5.

(* ------------------------------------------------------------------ *)
(** ** Identity resolver *)

Module Identity.

(** Value of one hexadecimal digit, as [int(_, 16)] reads it. *)
Definition hex_value (c : ascii) : option Z :=
  let n := Py.ord c in
  if (48 <=? n) && (n <=? 57) then Some (n - 48)
  else if (97 <=? n) && (n <=? 102) then Some (n - 87)
  else if (65 <=? n) && (n <=? 70) then Some (n - 55)
  else None.

(** [int(h, 16)] on a string of hex digits, most significant first; [None]
    stands for the [ValueError] of a non-digit. *)
Fixpoint int16_from (acc : Z) (h : list ascii) : option Z :=
  match h with
  | [] => Some acc
  | c :: h' =>
      match hex_value c with
      | Some v => int16_from (16 * acc + v) h'
      | None => None
      end
  end.

Definition int16 (h : list ascii) : option Z :=
  match h with
  | [] => None
  | _ => int16_from 0 h
  end.

Definition signed63_mask : Z := Z.shiftl 1 63 - 1.

(** [raw = f"{name}|{addr}|{postal}".encode("utf-8", errors="ignore")] *)
Definition raw_key (name addr postal : Py.value) : list Z :=
  Py.encode_utf8_ignore
    (Py.format name ++ Py.lit "|" ++ Py.format addr ++ Py.lit "|" ++
     Py.format postal).

(** [stable_customer_id]; [None] stands for the [ValueError] that [int] would
    raise. *)
Definition stable_customer_id (name addr postal : Py.value) : option Z :=
  let raw := raw_key name addr postal in
  let h := firstn 16 (MD5.hexdigest raw) in
  match int16 h with
  | Some v => Some (Z.land v signed63_mask)
  | None => None
  end.

(** Big-endian value of a byte string. *)
Definition be_word (bs : list Z) : Z :=
  fold_left (fun acc b => 256 * acc + b) bs 0.

Definition byte_ok (b : Z) : Prop := 0 <= b < 256.

Lemma le_bytes_length n x : List.length (MD5.le_bytes n x) = n.
Proof. revert x; induction n; simpl; intros; auto. Qed.

Lemma le_bytes_ok n x : Forall byte_ok (MD5.le_bytes n x).
Proof.
  revert x; induction n; simpl; intros; constructor; auto.
  unfold byte_ok; apply Z.mod_pos_bound; lia.
Qed.

Lemma digest_length msg : List.length (MD5.digest msg) = 16%nat.
Proof.
  unfold MD5.digest; cbv zeta.
  rewrite !length_app, !le_bytes_length; reflexivity.
Qed.

Lemma digest_ok msg : Forall byte_ok (MD5.digest msg).
Proof.
  unfold MD5.digest; cbv zeta.
  repeat (apply Forall_app; split); apply le_bytes_ok.
Qed.

Lemma hex_value_digit n :
  0 <= n < 16 -> hex_value (MD5.hex_digit n) = Some n.
Proof.
  intros H.
  assert (Hn : In n [0;1;2;3;4;5;6;7;8;9;10;11;12;13;14;15]) by (simpl; lia).
  simpl in Hn.
  repeat (destruct Hn as [<- | Hn]; [reflexivity |]); contradiction.
Qed.

Definition hex_of_bytes (bs : list Z) : list ascii :=
  flat_map (fun b => [MD5.hex_digit (b / 16); MD5.hex_digit (b mod 16)]) bs.

Lemma hex_of_bytes_firstn k bs :
  firstn (2 * k) (hex_of_bytes bs) = hex_of_bytes (firstn k bs).
Proof.
  revert bs; induction k; intros bs; [reflexivity |].
  destruct bs as [| b bs]; [reflexivity |].
  replace (2 * S k)%nat with (S (S (2 * k))) by lia.
  simpl. f_equal. f_equal. apply IHk.
Qed.

Lemma int16_from_hex bs : forall acc,
  Forall byte_ok bs ->
  int16_from acc (hex_of_bytes bs) =
  Some (fold_left (fun a b => 256 * a + b) bs acc).
Proof.
  induction bs as [| b bs IH]; intros acc Hok; [reflexivity |].
  inversion Hok as [| ? ? Hb Hbs]; subst.
  unfold byte_ok in Hb.
  change (hex_of_bytes (b :: bs))
    with (MD5.hex_digit (b / 16) :: MD5.hex_digit (b mod 16) :: hex_of_bytes bs).
  cbn [int16_from].
  rewrite hex_value_digit
    by (split; [apply Z.div_pos | apply Z.div_lt_upper_bound]; lia).
  rewrite hex_value_digit by (apply Z.mod_pos_bound; lia).
  rewrite IH by assumption. cbn [fold_left].
  do 2 f_equal. pose proof (Z.div_mod b 16). lia.
Qed.

Lemma Forall_firstn_keep {A} (P : A -> Prop) n (l : list A) :
  Forall P l -> Forall P (firstn n l).
Proof.
  revert l; induction n; intros l H; [constructor |].
  destruct H; simpl; constructor; auto.
Qed.

Lemma mask_is_ones : signed63_mask = Z.ones 63.
Proof. reflexivity. Qed.

Lemma raw_key_none addr postal :
  raw_key Py.VNone addr postal = raw_key (Py.VStr (Py.lit "None")) addr postal.
Proof. reflexivity. Qed.

(** The delimiter is not escaped: a bar may move across a field border. *)
Lemma raw_key_bar_shift (a b c : Py.str) postal :
  raw_key (Py.VStr (a ++ Py.lit "|" ++ b)) (Py.VStr c) postal =
  raw_key (Py.VStr a) (Py.VStr (b ++ Py.lit "|" ++ c)) postal.
Proof.
  unfold raw_key; cbn [Py.format]. f_equal.
  rewrite <- !app_assoc. reflexivity.
Qed.

(** [int(h, 16)] never fails on the 16 leading hex digits of a digest, and
    the id is the big-endian value of the first 8 digest bytes, reduced to
    its low 63 bits. *)
Lemma stable_customer_id_value (name addr postal : Py.value) :
  stable_customer_id name addr postal
  = Some (be_word (firstn 8 (MD5.digest (raw_key name addr postal)))
          mod 2 ^ 63).
Proof.
  unfold stable_customer_id; cbv zeta.
  set (d := MD5.digest (raw_key name addr postal)).
  assert (Hh : firstn 16 (MD5.hexdigest (raw_key name addr postal))
               = hex_of_bytes (firstn 8 d))
    by (change 16%nat with (2 * 8)%nat; apply hex_of_bytes_firstn).
  rewrite Hh.
  assert (Hlen : List.length (firstn 8 d) = 8%nat)
    by (rewrite length_firstn; unfold d; rewrite digest_length; reflexivity).
  assert (Hok : Forall byte_ok (firstn 8 d))
    by (apply Forall_firstn_keep; apply digest_ok).
  assert (Hint : int16 (hex_of_bytes (firstn 8 d)) = Some (be_word (firstn 8 d))).
  { unfold int16. destruct (firstn 8 d) as [| b bs] eqn:E; [discriminate |].
    apply (int16_from_hex (b :: bs)); assumption. }
  rewrite Hint. now rewrite mask_is_ones, Z.land_ones by lia.
Qed.

(** C2. [stable_customer_id] is a total, pure function of its three
    arguments: evaluating it twice gives the same result, [int(h, 16)] never
    fails on the digest's hex digits, and the result lies in
    [0, 2^63 - 1]. It is the big-endian value of the first 8 bytes (the 16
    leading hex digits) of the MD5 digest of the UTF-8 bytes of the text
    [name|addr|postal], reduced to its low 63 bits; the digest is MD5 as
    [hashlib] computes it, and the ids of sample triples that differ in one
    field are the ones [hashlib] gives. *)
Theorem stable_customer_id_range (name addr postal : Py.value) :
  let r1 := stable_customer_id name addr postal in
  let r2 := stable_customer_id name addr postal in
  r1 = r2 /\
  (exists v, r1 = Some v /\ 0 <= v <= 2 ^ 63 - 1 /\
     v = be_word
           (firstn 8
              (MD5.digest
                 (Py.encode_utf8_ignore
                    (Py.format name ++ [124] ++ Py.format addr ++ [124]
                     ++ Py.format postal))))
         mod 2 ^ 63) /\
  string_of_list_ascii
    (MD5.hexdigest
       (Py.encode_utf8_ignore (Py.lit "Jane Doe|12 Oak Ave|90210")))
  = "8135b53479c89d1c36b4290fa28b7fea"%string /\
  stable_customer_id (Py.VStr (Py.lit "Jane Doe"))
    (Py.VStr (Py.lit "12 Oak Ave")) (Py.VStr (Py.lit "90210"))
  = Some 87175004789710108 /\
  stable_customer_id (Py.VStr (Py.lit "Jane Doe"))
    (Py.VStr (Py.lit "12 Oak Ave")) (Py.VStr (Py.lit "90211"))
  = Some 4123926226390392554 /\
  stable_customer_id (Py.VStr (Py.lit "Jane Doe"))
    (Py.VStr (Py.lit "12 Oak Av")) (Py.VStr (Py.lit "90210"))
  = Some 8825970836304817442 /\
  stable_customer_id (Py.VStr (Py.lit "Jane Do"))
    (Py.VStr (Py.lit "12 Oak Ave")) (Py.VStr (Py.lit "90210"))
  = Some 434952315190406111 /\
  stable_customer_id (Py.VStr (Py.lit "John Smith")) Py.VNone Py.VNaN
  = Some 5698710181129095563.
Proof.
  cbv zeta. split; [reflexivity |]. split.
  - rewrite stable_customer_id_value. eexists. split; [reflexivity |].
    split; [| reflexivity].
    pose proof (Z.mod_pos_bound
                  (be_word (firstn 8 (MD5.digest (raw_key name addr postal))))
                  (2 ^ 63)); lia.
  - vm_compute. repeat split; reflexivity.
Qed.

(** C9. Distinct triples get the same customer_id with no collision of the
    hash: the byte string that is hashed is already the same, and an id is
    returned for it. [None] is rendered as the text "None", and a bar inside
    a field is not told apart from the delimiter; on the sample triples the
    shared ids are the ones [hashlib] gives. *)
Theorem stable_customer_id_merges_distinct_triples :
  (forall addr postal,
      Py.VNone <> Py.VStr (Py.lit "None") /\
      raw_key Py.VNone addr postal
        = raw_key (Py.VStr (Py.lit "None")) addr postal /\
      exists v,
        stable_customer_id Py.VNone addr postal = Some v /\
        stable_customer_id (Py.VStr (Py.lit "None")) addr postal = Some v) /\
  (forall postal,
      (Py.VStr (Py.lit "a|b"), Py.VStr (Py.lit "c"))
        <> (Py.VStr (Py.lit "a"), Py.VStr (Py.lit "b|c")) /\
      raw_key (Py.VStr (Py.lit "a|b")) (Py.VStr (Py.lit "c")) postal
        = raw_key (Py.VStr (Py.lit "a")) (Py.VStr (Py.lit "b|c")) postal /\
      exists v,
        stable_customer_id (Py.VStr (Py.lit "a|b")) (Py.VStr (Py.lit "c"))
                           postal = Some v /\
        stable_customer_id (Py.VStr (Py.lit "a")) (Py.VStr (Py.lit "b|c"))
                           postal = Some v) /\
  stable_customer_id Py.VNone (Py.VStr (Py.lit "1 Main St"))
                     (Py.VStr (Py.lit "90001"))
  = Some 5248380019462298003 /\
  stable_customer_id (Py.VStr (Py.lit "None")) (Py.VStr (Py.lit "1 Main St"))
                     (Py.VStr (Py.lit "90001"))
  = Some 5248380019462298003 /\
  stable_customer_id (Py.VStr (Py.lit "a|b")) (Py.VStr (Py.lit "c"))
                     (Py.VStr (Py.lit "90001"))
  = Some 8095470754471515672 /\
  stable_customer_id (Py.VStr (Py.lit "a")) (Py.VStr (Py.lit "b|c"))
                     (Py.VStr (Py.lit "90001"))
  = Some 8095470754471515672.
Proof.
  split; [| split].
  - intros addr postal. split; [discriminate |].
    split; [apply raw_key_none |].
    rewrite !stable_customer_id_value, raw_key_none.
    eexists. split; reflexivity.
  - intros postal. split; [discriminate |].
    assert (E : raw_key (Py.VStr (Py.lit "a|b")) (Py.VStr (Py.lit "c")) postal
                = raw_key (Py.VStr (Py.lit "a")) (Py.VStr (Py.lit "b|c")) postal)
      by (apply (raw_key_bar_shift (Py.lit "a") (Py.lit "b") (Py.lit "c"))).
    split; [exact E |].
    rewrite !stable_customer_id_value, E.
    eexists. split; reflexivity.
  - vm_compute. repeat split; reflexivity.
Qed.

(** The run of [main] on a row whose three columns are absent and on a row
    that holds the text "None" in each. *)
Example stable_customer_id_none_value :
  stable_customer_id Py.VNone Py.VNone Py.VNone
  = stable_customer_id (Py.VStr (Py.lit "None")) (Py.VStr (Py.lit "None"))
      (Py.VStr (Py.lit "None")).
Proof. reflexivity. Qed.

Example stable_customer_id_sample :
  stable_customer_id (Py.VStr (Py.lit "John Smith")) Py.VNone Py.VNaN
  = Some 5698710181129095563.
Proof. vm_compute. reflexivity. Qed.

(** A name outside ASCII: two-, three- and four-byte characters, and a lone
    surrogate that the encoder drops. *)
Example stable_customer_id_unicode :
  Py.encode_utf8_ignore [90; 111; 235; 32; 29579; 32; 128512; 55296]
  = [90; 111; 0xc3; 0xab; 32; 0xe7; 0x8e; 0x8b; 32; 0xf0; 0x9f; 0x98; 0x80] /\
  stable_customer_id
    (Py.VStr [90; 111; 235; 32; 29579; 32; 128512; 55296])
    (Py.VStr (Py.lit "1 Main St")) (Py.VStr (Py.lit "90001"))
  = Some 6729535055436181724.
Proof. vm_compute. split; reflexivity. Qed.

End Identity.


(* ------------------------------------------------------------------ *)
(** ** The fragment of Python's [re] used by the helpers *)

Module Regex.

(** Patterns: a character class, concatenation, greedy [?] and greedy [+]. *)
Inductive re :=
| Class (p : Z -> bool)
| Seq (r1 r2 : re)
| Opt (r : re)
| Plus (r : re).

(** Greedy repetition: after one match of the body, try another before
    settling for what is matched; [n] bounds the number of rounds. *)
Fixpoint iter_plus (body : Py.str -> list Py.str) (n : nat) (s : Py.str)
  : list Py.str :=
  match n with
  | O => []
  | S n' => flat_map (fun s' => iter_plus body n' s' ++ [s']) (body s)
  end.

(** All the ways [r] matches a prefix of [s], as the text left after the
    match, in the order a backtracking matcher tries them. *)
Fixpoint matches (r : re) (s : Py.str) : list Py.str :=
  match r with
  | Class p =>
      match s with
      | c :: s' => if p c then [s'] else []
      | [] => []
      end
  | Seq r1 r2 => flat_map (matches r2) (matches r1 s)
  | Opt r' => matches r' s ++ [s]
  | Plus r' => iter_plus (matches r') (S (List.length s)) s
  end.

(** [re.search]: the first match at the leftmost position that has one;
    the matched text is returned (group 0). *)
Fixpoint search (r : re) (s : Py.str) : option Py.str :=
  match hd_error (matches r s) with
  | Some rest => Some (firstn (List.length s - List.length rest) s)
  | None =>
      match s with
      | [] => None
      | _ :: s' => search r s'
      end
  end.

Definition is_digit (c : Z) : bool := (48 <=? c) && (c <=? 57).
Definition is_dot (c : Z) : bool := c =? 46.

End Regex.

(* ------------------------------------------------------------------ *)
(** ** Normalizer *)

Module Normalizer.
Import Regex.

(** *** Unit-suffixed numbers *)

(** [r"([0-9]+(?:\.[0-9]+)?)"] *)
Definition numeral_re : re :=
  Seq (Plus (Class is_digit)) (Opt (Seq (Class is_dot) (Plus (Class is_digit)))).

(** Longest prefix of digits, and what follows it. *)
Fixpoint span_digits (s : Py.str) : Py.str * Py.str :=
  match s with
  | c :: s' =>
      if is_digit c then let '(ds, r) := span_digits s' in (c :: ds, r)
      else ([], s)
  | [] => ([], [])
  end.

Definition digits_value (ds : Py.str) : Z :=
  fold_left (fun acc c => 10 * acc + (c - 48)) ds 0.

(** [float(n)] for a text [n] matched by [numeral_re]. A float is modelled by
    the decimal it is read from: the rational below stands for the double
    nearest to it. *)
Definition to_float (n : Py.str) : Q :=
  let '(i, r) := span_digits n in
  match r with
  | [] => digits_value i # 1
  | _ :: f => digits_value (i ++ f) # Pos.pow 10 (Pos.of_nat (List.length f))
  end.

(** [strip_units_to_float] on one cell:
    [s.astype(str).str.extract(numeral_re)[0].astype(float)]; [None] is NaN. *)
Definition strip_units_to_float (v : Py.value) : option Q :=
  option_map to_float (search numeral_re (Py.format v)).

(** The numeral that starts at the head of [s], if one does, in the spec's
    words: a run of digits, with a fraction when a dot and a digit follow. *)
Definition numeral_at (s : Py.str) : option Py.str :=
  let '(i, r) := span_digits s in
  match i with
  | [] => None
  | _ =>
      match r with
      | c :: r' =>
          if is_dot c then
            match fst (span_digits r') with
            | [] => Some i
            | f => Some (i ++ c :: f)
            end
          else Some i
      | [] => Some i
      end
  end.

(** The leading decimal numeral of a text: the numeral at the first position
    that starts one. *)
Fixpoint leading_numeral (s : Py.str) : option Py.str :=
  match numeral_at s with
  | Some n => Some n
  | None =>
      match s with
      | [] => None
      | _ :: s' => leading_numeral s'
      end
  end.

(** The suffixes left by [[0-9]+], longest match first. *)
Fixpoint digit_suffixes (s : Py.str) : list Py.str :=
  match s with
  | c :: s' => if is_digit c then digit_suffixes s' ++ [s'] else []
  | [] => []
  end.

Lemma iter_plus_digits n : forall s,
  (List.length s < n)%nat ->
  iter_plus (matches (Class is_digit)) n s = digit_suffixes s.
Proof.
  induction n as [| n IH]; intros s Hlen; [lia |].
  destruct s as [| c s']; [reflexivity |].
  cbn [iter_plus matches digit_suffixes].
  destruct (is_digit c); [| reflexivity].
  cbn [flat_map]. rewrite app_nil_r, IH by (simpl in Hlen; lia).
  reflexivity.
Qed.

Lemma matches_plus_digit s :
  matches (Plus (Class is_digit)) s = digit_suffixes s.
Proof. cbn [matches]. apply iter_plus_digits. lia. Qed.

Lemma span_digits_app s : s = fst (span_digits s) ++ snd (span_digits s).
Proof.
  induction s as [| c s IH]; [reflexivity |].
  cbn [span_digits]. destruct (is_digit c); [| reflexivity].
  destruct (span_digits s) as [ds r]. simpl in *. now f_equal.
Qed.

Lemma hd_error_none {A} (l : list A) : hd_error l = None -> l = [].
Proof. destruct l; [reflexivity | discriminate]. Qed.

Lemma hd_error_some {A} (l : list A) x :
  hd_error l = Some x -> exists t, l = x :: t.
Proof. destruct l; [discriminate |]. intros [= ->]. eauto. Qed.

Lemma digit_suffixes_hd s :
  hd_error (digit_suffixes s) =
  match fst (span_digits s) with
  | [] => None
  | _ => Some (snd (span_digits s))
  end.
Proof.
  induction s as [| c s IH]; [reflexivity |].
  cbn [digit_suffixes span_digits].
  destruct (is_digit c); [| reflexivity].
  pose proof (span_digits_app s) as Happ.
  destruct (span_digits s) as [ds r]. cbn [fst snd] in *.
  destruct ds as [| d ds].
  - apply hd_error_none in IH. rewrite IH. simpl in Happ. now subst.
  - apply hd_error_some in IH. destruct IH as [t ->]. reflexivity.
Qed.

(** What the pattern leaves at the head of [s], against the numeral there. *)
Lemma numeral_re_at s :
  match numeral_at s, hd_error (matches numeral_re s) with
  | Some n, Some rest => s = n ++ rest
  | None, None => True
  | _, _ => False
  end.
Proof.
  unfold numeral_at, numeral_re.
  cbn [matches]. fold (matches (Plus (Class is_digit)) s).
  rewrite matches_plus_digit.
  pose proof (digit_suffixes_hd s) as Hhd.
  pose proof (span_digits_app s) as Happ.
  destruct (span_digits s) as [i r]. cbn [fst snd] in *.
  destruct i as [| a i].
  - apply hd_error_none in Hhd. rewrite Hhd. exact I.
  - apply hd_error_some in Hhd. destruct Hhd as [t ->].
    cbn [flat_map]. rewrite <- !app_assoc.
    destruct r as [| c r']; [exact Happ |].
    cbn [matches]. destruct (is_dot c); [| exact Happ].
    cbn [flat_map]. rewrite app_nil_r.
    fold (matches (Plus (Class is_digit)) r').
    rewrite matches_plus_digit.
    pose proof (digit_suffixes_hd r') as Hhd'.
    pose proof (span_digits_app r') as Happ'.
    destruct (span_digits r') as [f r'']. cbn [fst snd] in *.
    destruct f as [| b f].
    + apply hd_error_none in Hhd'. rewrite Hhd'. exact Happ.
    + apply hd_error_some in Hhd'. destruct Hhd' as [t' ->].
      cbn [app hd_error]. rewrite Happ, Happ'.
      rewrite <- app_assoc. reflexivity.
Qed.

Lemma firstn_prefix {A} (a b : list A) :
  firstn (List.length (a ++ b) - List.length b) (a ++ b) = a.
Proof.
  rewrite length_app.
  replace (List.length a + List.length b - List.length b)%nat
    with (List.length a + 0)%nat by lia.
  rewrite firstn_app_2. simpl. apply app_nil_r.
Qed.

(** The pattern search of the code finds the leading numeral of the spec. *)
Lemma search_numeral s : search numeral_re s = leading_numeral s.
Proof.
  induction s as [| c s IH].
  - reflexivity.
  - pose proof (numeral_re_at (c :: s)) as H.
    cbn [search leading_numeral].
    destruct (numeral_at (c :: s)) as [n |];
      destruct (hd_error (matches numeral_re (c :: s))) as [rest |];
      try contradiction.
    + rewrite H. now rewrite firstn_prefix.
    + exact IH.
Qed.

Definition no_digit (s : Py.str) : bool :=
  forallb (fun c => negb (is_digit c)) s.

Lemma leading_numeral_none s : leading_numeral s = None <-> no_digit s = true.
Proof.
  induction s as [| c s IH]; [now split |].
  cbn [leading_numeral no_digit forallb]. fold (no_digit s).
  unfold numeral_at. cbn [span_digits].
  destruct (is_digit c) eqn:Hc.
  - destruct (span_digits s) as [ds r]. cbn [negb andb].
    split; [| discriminate].
    destruct r as [| d r']; [discriminate |].
    destruct (is_dot d); [| discriminate].
    destruct (fst (span_digits r')); discriminate.
  - cbn [negb andb]. exact IH.
Qed.

(** C4. On every cell the extracted value is the leading decimal numeral of
    the cell's text (read as a float): the numeral the text starts with when
    it starts with one, as a unit-suffixed number does, and the first numeral
    further on otherwise. The result is null exactly when the text holds no
    digit; "8.9523ft3" gives 8.9523, "78.2641lb" gives
    78.2641 and "N/A" gives null. *)
Theorem strip_units_to_float_leading_numeral :
  (forall v, strip_units_to_float v
             = option_map to_float (leading_numeral (Py.format v))) /\
  (forall n unit,
      match numeral_at (n ++ unit) with
      | Some n' => strip_units_to_float (Py.VStr (n ++ unit)) = Some (to_float n')
      | None => True
      end) /\
  (forall v, strip_units_to_float v = None <-> no_digit (Py.format v) = true) /\
  strip_units_to_float (Py.VStr (Py.lit "8.9523ft3")) = Some (89523 # 10000) /\
  strip_units_to_float (Py.VStr (Py.lit "78.2641lb")) = Some (782641 # 10000) /\
  strip_units_to_float (Py.VStr (Py.lit "N/A")) = None.
Proof.
  assert (E : forall v, strip_units_to_float v
              = option_map to_float (leading_numeral (Py.format v)))
    by (intros v; unfold strip_units_to_float; now rewrite search_numeral).
  split; [exact E |].
  split.
  { intros n unit. rewrite E. cbn [Py.format].
    destruct (n ++ unit) as [| c s]; [exact I |].
    cbn [leading_numeral]. now destruct (numeral_at (c :: s)). }
  split; [| repeat split; reflexivity].
  intros v. rewrite E, <- leading_numeral_none.
  destruct (leading_numeral (Py.format v)); simpl; split; congruence.
Qed.

(** The pattern is searched, not anchored: a numeral after other text is
    found, and a sign or an exponent is not part of it. *)
Example strip_units_to_float_unanchored :
  strip_units_to_float (Py.VStr (Py.lit "ft3")) = Some (3 # 1) /\
  strip_units_to_float (Py.VStr (Py.lit "-5.25kg")) = Some (525 # 100) /\
  strip_units_to_float (Py.VStr (Py.lit "1.2.3")) = Some (12 # 10) /\
  strip_units_to_float Py.VNaN = None /\
  strip_units_to_float Py.VNone = None.
Proof. repeat split; reflexivity. Qed.

(** *** Quantity *)

(** A float64: a finite value, held at its exact value, an infinity, or
    NaN. *)
Inductive number :=
| Finite (q : Q)
| Infinite
| NaN.

Definition is_space (c : Z) : bool := (c =? 32) || ((9 <=? c) && (c <=? 13)).

Fixpoint lstrip (s : Py.str) : Py.str :=
  match s with
  | c :: s' => if is_space c then lstrip s' else s
  | [] => []
  end.

Definition strip (s : Py.str) : Py.str := rev (lstrip (rev (lstrip s))).

Definition lower (s : Py.str) : Py.str :=
  List.map (fun c => if (65 <=? c) && (c <=? 90) then c + 32 else c) s.

Definition split_sign (s : Py.str) : bool * Py.str :=
  match s with
  | c :: s' =>
      if c =? 45 then (true, s')
      else if c =? 43 then (false, s')
      else (false, s)
  | [] => (false, [])
  end.

(** The exponent part: nothing, or [e] with an optional sign and digits. *)
Definition parse_exponent (s : Py.str) : option Z :=
  match s with
  | [] => Some 0
  | c :: s' =>
      if (c =? 101) || (c =? 69) then
        let '(neg, ds) := split_sign s' in
        match span_digits ds with
        | ([], _) => None
        | (e, []) => Some (if neg then - digits_value e else digits_value e)
        | (_, _ :: _) => None
        end
      else None
  end.

(** [m * 10^e] *)
Definition scale (m e : Z) : Q :=
  if 0 <=? e then (m * 10 ^ e) # 1 else m # Z.to_pos (10 ^ (- e)).

(** A decimal numeral: blanks around it, a sign, digits with an optional
    point, an optional exponent, and nothing else. *)
Definition parse_decimal (s : Py.str) : option Q :=
  let '(neg, body) := split_sign (strip s) in
  let '(i, r) := span_digits body in
  let '(f, r') :=
    match r with
    | c :: t => if is_dot c then span_digits t else ([], r)
    | [] => ([], [])
    end in
  match i ++ f with
  | [] => None
  | ds =>
      match parse_exponent r' with
      | Some e =>
          let m := digits_value ds in
          Some (scale (if neg then - m else m) (e - Z.of_nat (List.length f)))
      | None => None
      end
  end.

Definition str_eqb (a b : Py.str) : bool :=
  if list_eq_dec Z.eq_dec a b then true else false.

Definition is_inf_literal (s : Py.str) : bool :=
  let '(_, body) := split_sign (lower s) in
  str_eqb body (Py.lit "inf") || str_eqb body (Py.lit "infinity").

(** [.fillna(1)] *)
Definition fillna_1 (x : number) : number :=
  match x with
  | NaN => Finite 1
  | _ => x
  end.

(** Truncation toward zero. *)
Definition truncate (q : Q) : Z := Z.quot (Qnum q) (Zpos (Qden q)).

Definition in_int64 (z : Z) : bool := (- 2 ^ 63 <=? z) && (z <? 2 ^ 63).


Section Quantity.

(** The float64 that the reader of [pd.to_numeric] returns for a numeral of
    decimal value [q], NaN where it refuses the numeral; in a column of
    integer numerals only, pandas keeps int64 values and this is [q]
    itself. *)
Variable float64_of : Q -> number.

(** What the cast to int64 returns for a finite value outside the range of
    int64: C leaves it undefined, and the platform and the dtype of the
    column decide. *)
Variable int64_of_large : Q -> Z.

(** [pd.to_numeric(_, errors="coerce")] on one cell of a column of strings. *)
Definition to_numeric_coerce (v : Py.value) : number :=
  match v with
  | Py.VStr s =>
      match parse_decimal s with
      | Some q => float64_of q
      | None => if is_inf_literal s then Infinite else NaN
      end
  | _ => NaN
  end.

(** [.astype(int)] on one value: truncation toward zero; [None] is the error
    raised on a value that is not finite. *)
Definition astype_int (x : number) : option Z :=
  match x with
  | Finite f =>
      let t := truncate f in
      Some (if in_int64 t then t else int64_of_large f)
  | _ => None
  end.

(** The cleaned [goodsNumber] of one cell, lines 218-219 of [main]. *)
Definition clean_goodsNumber (v : Py.value) : option Z :=
  astype_int (fillna_1 (to_numeric_coerce v)).




End Quantity.

(** The float64 nearest to a rational, ties to even, as a correctly rounded
    reader returns it; a value beyond the largest float64 is refused. *)
Definition round_half_even (n d : Z) : Z :=
  let k := n / d in
  let r := 2 * (n mod d) in
  if r <? d then k
  else if d <? r then k + 1
  else if Z.even k then k else k + 1.

Definition nearest_float64 (q : Q) : number :=
  let n := Z.abs (Qnum q) in
  let d := Zpos (Qden q) in
  if n =? 0 then Finite 0
  else
    let e0 := Z.log2 n - Z.log2 d - 53 in
    let above e := 2 ^ 53 * (d * 2 ^ Z.max 0 e) <=? n * 2 ^ Z.max 0 (- e) in
    let e := Z.max (if above e0 then e0 + 1 else e0) (- 1074) in
    let m := round_half_even (n * 2 ^ Z.max 0 (- e)) (d * 2 ^ Z.max 0 e) in
    if 2 ^ 1024 <=? m * 2 ^ Z.max 0 e then NaN
    else Finite (Qred ((Z.sgn (Qnum q) * m * 2 ^ Z.max 0 e)
                       # Z.to_pos (2 ^ Z.max 0 (- e)))).

(** The cast of a float outside int64 as the conversion instruction of
    x86-64 makes it: the least int64. *)
Definition int64_min_cast (_ : Q) : Z := - 2 ^ 63.

Lemma span_digits_all ds :
  forallb is_digit ds = true -> span_digits ds = (ds, []).
Proof.
  induction ds as [| c ds IH]; [reflexivity |].
  cbn [forallb span_digits]. intros H.
  apply andb_prop in H. destruct H as [Hc Hds].
  now rewrite Hc, IH.
Qed.















(** The numerals the reader accepts besides plain integers, as a reader that
    rounds to the nearest float64 returns them; a quantity beyond int64 is
    not kept, and an infinity makes the cast raise. *)
Example to_numeric_coerce_forms :
  to_numeric_coerce nearest_float64 (Py.VStr (Py.lit " 12 ")) = Finite 12 /\
  to_numeric_coerce nearest_float64 (Py.VStr (Py.lit "1e3")) = Finite 1000 /\
  to_numeric_coerce nearest_float64 (Py.VStr (Py.lit "25E-1"))
  = Finite (5 # 2) /\
  to_numeric_coerce nearest_float64 (Py.VStr (Py.lit ".5")) = Finite (1 # 2) /\
  to_numeric_coerce nearest_float64 (Py.VStr (Py.lit "+7.")) = Finite 7 /\
  to_numeric_coerce nearest_float64 (Py.VStr (Py.lit "2 units")) = NaN /\
  to_numeric_coerce nearest_float64 (Py.VStr (Py.lit "1e")) = NaN /\
  to_numeric_coerce nearest_float64 (Py.VStr (Py.lit "-Inf")) = Infinite /\
  clean_goodsNumber nearest_float64 int64_min_cast (Py.VStr (Py.lit "inf"))
  = None /\
  clean_goodsNumber nearest_float64 int64_min_cast
    (Py.VStr (Py.lit "9223372036854775808")) = Some (- 2 ^ 63) /\
  clean_goodsNumber nearest_float64 int64_min_cast
    (Py.VStr (Py.lit "9007199254740993")) = Some 9007199254740992.
Proof. vm_compute. repeat split; reflexivity. Qed.

End Normalizer.

(* ------------------------------------------------------------------ *)
(** ** Calendar *)

Module Calendar.

(** A [datetime.date]: a day of the proleptic Gregorian calendar. *)
Record date := mk_date { year : Z; month : Z; day : Z }.

Definition date_eq_dec (a b : date) : {a = b} + {a <> b}.
Proof. decide equality; apply Z.eq_dec. Defined.

(** A pandas [Timestamp]: nanoseconds since 1970-01-01T00:00:00. *)
Definition timestamp := Z.

Definition ns_per_day : Z := 86400 * 1000000000.

(** The day a timestamp falls on, counted from 1970-01-01. *)
Definition epoch_day (t : timestamp) : Z := t / ns_per_day.

(** Day number to calendar date. Years are cut into eras of 400 years
    (146097 days) that start on 1 March, so that the leap day comes last. *)
Definition civil_from_days (z : Z) : date :=
  let z0 := z + 719468 in
  let era := z0 / 146097 in
  let doe := z0 - era * 146097 in
  let yoe := (doe - doe / 1460 + doe / 36524 - doe / 146096) / 365 in
  let doy := doe - (365 * yoe + yoe / 4 - yoe / 100) in
  let mp := (5 * doy + 2) / 153 in
  let d := doy - (153 * mp + 2) / 5 + 1 in
  let m := if mp <? 10 then mp + 3 else mp - 9 in
  let y := yoe + era * 400 in
  mk_date (if m <=? 2 then y + 1 else y) m d.

(** Calendar date to day number. *)
Definition days_from_civil (dt : date) : Z :=
  let y := if month dt <=? 2 then year dt - 1 else year dt in
  let era := y / 400 in
  let yoe := y - era * 400 in
  let mp := if month dt <=? 2 then month dt + 9 else month dt - 3 in
  let doy := (153 * mp + 2) / 5 + day dt - 1 in
  let doe := yoe * 365 + yoe / 4 - yoe / 100 + doy in
  era * 146097 + doe - 719468.

(** [Timestamp.date()] *)
Definition date_of (t : timestamp) : date := civil_from_days (epoch_day t).

(** [dayofweek]: Monday is 0, Sunday is 6; 1970-01-01 was a Thursday. *)
Definition dayofweek (z : Z) : Z := (z + 3) mod 7.

(** [strftime("%B")] *)
Definition month_name (m : Z) : string :=
  nth (Z.to_nat (m - 1))
      ["January"; "February"; "March"; "April"; "May"; "June"; "July";
       "August"; "September"; "October"; "November"; "December"]%string
      ""%string.

(** Linear arithmetic with the quotients by constants spelled out. *)
Ltac div_lia := Z.div_mod_to_equations; lia.

Lemma days_from_civil_from_days z : days_from_civil (civil_from_days z) = z.
Proof.
  unfold civil_from_days, days_from_civil; cbv zeta; cbn [year month day].
  set (z0 := z + 719468).
  set (era := z0 / 146097).
  set (doe := z0 - era * 146097).
  assert (Hdoe : 0 <= doe <= 146096) by (unfold doe, era; div_lia).
  set (yoe := (doe - doe / 1460 + doe / 36524 - doe / 146096) / 365).
  assert (Hyoe : 0 <= yoe <= 399) by (unfold yoe; div_lia).
  set (doy := doe - (365 * yoe + yoe / 4 - yoe / 100)).
  assert (Hdoy : 0 <= doy <= 365) by (unfold doy, yoe; div_lia).
  set (mp := (5 * doy + 2) / 153).
  assert (Hmp : 0 <= mp <= 11) by (unfold mp; div_lia).
  destruct (mp <? 10) eqn:Hlt.
  - assert (Hm : (mp + 3 <=? 2) = false) by lia. rewrite Hm.
    replace ((yoe + era * 400) / 400) with era by div_lia.
    unfold doy, doe, z0. div_lia.
  - assert (Hm : (mp - 9 <=? 2) = true) by lia. rewrite Hm.
    replace ((yoe + era * 400 + 1 - 1) / 400) with era by div_lia.
    unfold doy, doe, z0. div_lia.
Qed.

Lemma civil_from_days_inj a b : civil_from_days a = civil_from_days b -> a = b.
Proof.
  intros H. rewrite <- (days_from_civil_from_days a), H.
  apply days_from_civil_from_days.
Qed.


Example civil_from_days_samples :
  civil_from_days 0 = mk_date 1970 1 1 /\
  civil_from_days 19752 = mk_date 2024 1 30 /\
  civil_from_days 19782 = mk_date 2024 2 29 /\
  civil_from_days 19783 = mk_date 2024 3 1 /\
  civil_from_days (-1) = mk_date 1969 12 31 /\
  days_from_civil (mk_date 2024 2 2) = 19755 /\
  dayofweek 19756 = 5.
Proof. repeat split; reflexivity. Qed.

End Calendar.

(* ------------------------------------------------------------------ *)
(** ** Timestamp columns *)

Module Timestamps.

(** What a call into pandas ends with. *)
Inductive outcome (A : Type) :=
| Returned (a : A)
| Raised.
Arguments Returned {A} a.
Arguments Raised {A}.

Section ParseDatetimeSeries.

(** The two readers of pandas: one text against the format [fmt], and the
    heuristic reader used when no format is given. *)
Variable strptime : Py.str -> option Calendar.timestamp.
Variable infer : Py.str -> option Calendar.timestamp.

(** [errors="coerce"] on one cell: what cannot be read is NaT ([None]). *)
Definition coerce (read : Py.str -> option Calendar.timestamp)
           (v : Py.value) : option Calendar.timestamp :=
  match v with
  | Py.VStr s => read s
  | _ => None
  end.

(** [pd.to_datetime(s, ..., errors="coerce")]: a cell that cannot be read
    is set to NaT, and the call returns. *)
Definition to_datetime_coerce (read : Py.str -> option Calendar.timestamp)
           (cells : list Py.value)
  : outcome (list (option Calendar.timestamp)) :=
  Returned (List.map (coerce read) cells).

(** [parse_datetime_series]; the argument is [None] or a column. *)
Definition parse_datetime_series (s : option (list Py.value))
  : outcome (option (list (option Calendar.timestamp))) :=
  match s with
  | None => Returned None
  | Some cells =>
      match to_datetime_coerce strptime cells with
      | Returned r => Returned (Some r)
      | Raised =>
          match to_datetime_coerce infer cells with
          | Returned r => Returned (Some r)
          | Raised => Raised
          end
      end
  end.

(** C3. What the code does: the strict reading with [errors="coerce"]
    returns on every column, so the [except] branch with the heuristic
    reader is never entered and the result is the strict reading alone:
    a cell the strict pattern rejects is null, whatever the heuristic
    reader would have made of it. Nothing is raised. *)
Theorem parse_datetime_series_strict_only (s : option (list Py.value)) :
  parse_datetime_series s
  = Returned (option_map (List.map (coerce strptime)) s).
Proof. destruct s; reflexivity. Qed.

End ParseDatetimeSeries.

End Timestamps.

(* ------------------------------------------------------------------ *)
(** ** SQL statements over tables *)

Module Sql.

(** How a transaction block ([with engine.begin() as conn]) ends: committed
    with the new state, or rolled back (an error was raised inside it) with
    the state it started from. *)
Inductive txn (T : Type) :=
| Committed (t : T)
| RolledBack (t : T).
Arguments Committed {T} t.
Arguments RolledBack {T} t.

(** The state a transaction leaves behind. *)
Definition final {T} (x : txn T) : T :=
  match x with
  | Committed t => t
  | RolledBack t => t
  end.

(** The next block runs only if this one raised nothing. *)
Definition and_then {T} (x : txn T) (k : T -> txn T) : txn T :=
  match x with
  | Committed t => k t
  | RolledBack t => RolledBack t
  end.

Section Keys.
Context {K : Type} (dec : forall a b : K, {a = b} + {a <> b}).

Definition mem (k : K) (l : list K) : bool :=
  if in_dec dec k l then true else false.

Fixpoint distinct (l : list K) : bool :=
  match l with
  | [] => true
  | k :: l' => negb (mem k l') && distinct l'
  end.

(** A PRIMARY KEY or UNIQUE constraint at an INSERT: the new keys are
    absent from the table and differ from one another. *)
Definition fresh (existing new : list K) : bool :=
  forallb (fun k => negb (mem k existing)) new && distinct new.

Lemma mem_In k l : mem k l = true <-> In k l.
Proof. unfold mem. destruct (in_dec dec k l); split; auto; discriminate. Qed.

Lemma mem_false k l : mem k l = false <-> ~ In k l.
Proof.
  unfold mem. destruct (in_dec dec k l); split; auto; try discriminate.
  contradiction.
Qed.

Lemma distinct_NoDup l : distinct l = true <-> NoDup l.
Proof.
  induction l as [| k l IH]; cbn [distinct].
  - split; [constructor | reflexivity].
  - rewrite andb_true_iff, negb_true_iff, mem_false, IH.
    split; [intros [? ?]; now constructor | now inversion 1].
Qed.

Lemma fresh_NoDup existing new :
  NoDup existing -> fresh existing new = true -> NoDup (existing ++ new).
Proof.
  unfold fresh. rewrite andb_true_iff, forallb_forall, distinct_NoDup.
  intros He [Hout Hn]. apply NoDup_app; auto.
  intros a Ha Hb. apply Hout in Hb.
  rewrite negb_true_iff, mem_false in Hb. contradiction.
Qed.

Lemma fresh_nil existing : fresh existing [] = true.
Proof. reflexivity. Qed.
End Keys.

(** [INSERT INTO t ...] of the rows [new] into a table with a unique key:
    all rows go in, or the statement raises and none does. *)
Definition insert_checked {R K} (dec : forall a b : K, {a = b} + {a <> b})
           (key : R -> K) (t new : list R) : option (list R) :=
  if fresh dec (List.map key t) (List.map key new) then Some (t ++ new)
  else None.

(** The values of a column that are not NULL. *)
Definition not_null {A} (col : list (option A)) : list A :=
  flat_map (fun v => match v with Some a => [a] | None => [] end) col.

Lemma insert_checked_nil {R K} dec (key : R -> K) t :
  insert_checked dec key t [] = Some t.
Proof. unfold insert_checked. cbn. now rewrite app_nil_r. Qed.

Lemma insert_checked_NoDup {R K} dec (key : R -> K) t new t' :
  NoDup (List.map key t) -> insert_checked dec key t new = Some t' ->
  t' = t ++ new /\ NoDup (List.map key t').
Proof.
  unfold insert_checked. intros Hn.
  destruct (fresh dec (List.map key t) (List.map key new)) eqn:Hf;
    [| discriminate].
  intros [= <-]. split; [reflexivity |].
  rewrite map_app. now apply fresh_NoDup with (dec := dec).
Qed.

End Sql.

(* ------------------------------------------------------------------ *)
(** ** Date dimension *)

Module DateDimension.
Import Sql.

(** One row of [dim_date], with the columns of the frame [df]. *)
Record DatePoint := mk_point {
  date_id : Calendar.date;
  year : Z;
  quarter : Z;
  month : Z;
  month_name : string;
  day : Z;
  day_of_week : Z;
  is_weekend : Z
}.

(** The days from [lo] to [hi], both included. *)
Definition days (lo hi : Z) : list Z :=
  List.map (fun k => lo + Z.of_nat k) (seq 0 (Z.to_nat (hi - lo + 1))).

(** [pd.date_range(min_date, max_date, freq="D")], as day numbers. *)
Definition date_range (min_date max_date : Calendar.date) : list Z :=
  days (Calendar.days_from_civil min_date) (Calendar.days_from_civil max_date).

(** The row of the frame for one day of the range. *)
Definition date_point (z : Z) : DatePoint :=
  let d := Calendar.civil_from_days z in
  {| date_id := d;
     year := Calendar.year d;
     quarter := (Calendar.month d - 1) / 3 + 1;
     month := Calendar.month d;
     month_name := Calendar.month_name (Calendar.month d);
     day := Calendar.day d;
     day_of_week := Calendar.dayofweek z + 1;
     is_weekend := if Calendar.dayofweek z >=? 5 then 1 else 0 |}.

(** The frame [df] that [ensure_dim_date] builds from its two bounds. *)
Definition date_frame (min_date max_date : Calendar.timestamp)
  : list DatePoint :=
  List.map date_point
    (date_range (Calendar.date_of min_date) (Calendar.date_of max_date)).

(** [MERGE INTO dim_date ... WHEN NOT MATCHED THEN INSERT]: the rows of
    [src] whose [date_id] no row of the target has. *)
Definition not_matched (target src : list DatePoint) : list DatePoint :=
  filter
    (fun s => negb (mem Calendar.date_eq_dec (date_id s)
                        (List.map date_id target)))
    src.

Definition merge_dim_date (target src : list DatePoint)
  : txn (list DatePoint) :=
  match insert_checked Calendar.date_eq_dec date_id target
          (not_matched target src) with
  | Some t => Committed t
  | None => RolledBack target
  end.

(** [ensure_dim_date] on the table [dim_date]; a bound is [None] when
    [pd.isna] holds of it. The frame goes through a temporary table that the
    MERGE reads and drops ([product_info_etl.py] writes it on the connection
    of the MERGE); the table is not part of the state. *)
Definition ensure_dim_date (dim_date : list DatePoint)
           (min_date max_date : option Calendar.timestamp)
  : txn (list DatePoint) :=
  match min_date, max_date with
  | Some lo, Some hi => merge_dim_date dim_date (date_frame lo hi)
  | _, _ => Committed dim_date
  end.

Lemma days_In lo hi z : In z (days lo hi) <-> lo <= z <= hi.
Proof.
  unfold days. rewrite in_map_iff. split.
  - intros (k & <- & Hk). apply in_seq in Hk. lia.
  - intros H. exists (Z.to_nat (z - lo)). split; [lia |].
    apply in_seq. lia.
Qed.

Lemma days_NoDup lo hi : NoDup (days lo hi).
Proof.
  unfold days. apply Injective_map_NoDup; [| apply seq_NoDup].
  intros a b H. lia.
Qed.



Lemma date_range_of_days a b :
  date_range (Calendar.civil_from_days a) (Calendar.civil_from_days b)
  = days a b.
Proof.
  unfold date_range. now rewrite !Calendar.days_from_civil_from_days.
Qed.

Lemma date_frame_ids lo hi :
  List.map date_id (date_frame lo hi)
  = List.map Calendar.civil_from_days
      (days (Calendar.epoch_day lo) (Calendar.epoch_day hi)).
Proof.
  unfold date_frame, Calendar.date_of. rewrite date_range_of_days, map_map.
  reflexivity.
Qed.

Lemma date_frame_NoDup lo hi : NoDup (List.map date_id (date_frame lo hi)).
Proof.
  rewrite date_frame_ids. apply Injective_map_NoDup; [| apply days_NoDup].
  intros a b. apply Calendar.civil_from_days_inj.
Qed.






(** 2024-01-30 09:30:00 and 2024-02-02 18:00:00. *)
Definition sample_min : Calendar.timestamp := 1706607000 * 1000000000.
Definition sample_max : Calendar.timestamp := 1706896800 * 1000000000.


Lemma not_matched_spec target src a :
  In a (not_matched target src)
  <-> In a src /\ ~ In (date_id a) (List.map date_id target).
Proof.
  unfold not_matched.
  rewrite filter_In, negb_true_iff, mem_false. reflexivity.
Qed.

Lemma merge_dim_date_final target src :
  exists added,
    final (merge_dim_date target src) = target ++ added /\
    (forall a, In a added ->
               In a src /\ ~ In (date_id a) (List.map date_id target)).
Proof.
  unfold merge_dim_date, insert_checked.
  destruct (fresh _ _ _).
  - exists (not_matched target src). split; [reflexivity |].
    intros a. apply not_matched_spec.
  - exists []. split; [cbn; now rewrite app_nil_r | contradiction].
Qed.

(** C7. [ensure_dim_date] only appends to [dim_date]: the table after the
    call is the table before it followed by the added rows, so every row
    that was there is still there, unchanged and at its place; each added
    row comes from the frame and has a [date_id] that no earlier row had.
    With a null bound nothing is executed and the table is what it was. *)
Theorem ensure_dim_date_append_only (dim_date : list DatePoint)
        (min_date max_date : option Calendar.timestamp) :
  (exists added,
      final (ensure_dim_date dim_date min_date max_date) = dim_date ++ added /\
      (forall a, In a added ->
                 ~ In (date_id a) (List.map date_id dim_date) /\
                 exists lo hi, min_date = Some lo /\ max_date = Some hi /\
                               In a (date_frame lo hi))) /\
  (forall m, ensure_dim_date dim_date None m = Committed dim_date) /\
  (forall m, ensure_dim_date dim_date m None = Committed dim_date).
Proof.
  split; [| split; [reflexivity | intros [m |]; reflexivity]].
  destruct min_date as [lo |], max_date as [hi |]; cbn [ensure_dim_date].
  - destruct (merge_dim_date_final dim_date (date_frame lo hi))
      as (added & Hfin & Hadd).
    exists added. split; [exact Hfin |].
    intros a Ha. destruct (Hadd a Ha) as [Hsrc Hnew].
    split; [exact Hnew |]. exists lo, hi.
    split; [reflexivity | split; [reflexivity | exact Hsrc]].
  - exists []. split; [cbn; now rewrite app_nil_r | contradiction].
  - exists []. split; [cbn; now rewrite app_nil_r | contradiction].
  - exists []. split; [cbn; now rewrite app_nil_r | contradiction].
Qed.

(** On a table whose key is unique the MERGE raises nothing, keeps the key
    unique, and leaves every day of the range in the table. *)
Lemma ensure_dim_date_covers (dim_date : list DatePoint)
      (lo hi : Calendar.timestamp) :
  NoDup (List.map date_id dim_date) ->
  exists t,
    ensure_dim_date dim_date (Some lo) (Some hi) = Committed t /\
    NoDup (List.map date_id t) /\
    forall z, Calendar.epoch_day lo <= z <= Calendar.epoch_day hi ->
              In (Calendar.civil_from_days z) (List.map date_id t).
Proof.
  intros Hnd. cbn [ensure_dim_date]. unfold merge_dim_date.
  assert (Hsrc : NoDup (List.map date_id (not_matched dim_date (date_frame lo hi)))).
  { pose proof (date_frame_NoDup lo hi) as Hn.
    revert Hn. generalize (date_frame lo hi). intros src.
    induction src as [| a src IH]; intros Hn; [constructor |].
    cbn [not_matched filter]. inversion Hn as [| ? ? Hnotin Hn']; subst.
    fold (not_matched dim_date src).
    destruct (negb _); [| now apply IH].
    cbn [List.map]. constructor; [| now apply IH].
    rewrite in_map_iff. intros (b & Hb & Hin).
    apply not_matched_spec in Hin. destruct Hin as [Hin _].
    apply Hnotin. rewrite <- Hb. now apply in_map. }
  assert (Hfresh : fresh Calendar.date_eq_dec (List.map date_id dim_date)
                     (List.map date_id (not_matched dim_date (date_frame lo hi)))
                   = true).
  { unfold fresh. rewrite andb_true_iff, forallb_forall, distinct_NoDup.
    split; [| exact Hsrc].
    intros k Hk. rewrite negb_true_iff, mem_false.
    apply in_map_iff in Hk. destruct Hk as (a & <- & Ha).
    apply not_matched_spec in Ha. exact (proj2 Ha). }
  unfold insert_checked. rewrite Hfresh.
  eexists. split; [reflexivity |]. split.
  - rewrite map_app. now apply fresh_NoDup with (dec := Calendar.date_eq_dec).
  - intros z Hz. rewrite map_app, in_app_iff.
    destruct (in_dec Calendar.date_eq_dec (Calendar.civil_from_days z)
                     (List.map date_id dim_date)) as [Hin | Hout];
      [now left | right].
    assert (Hf : In (Calendar.civil_from_days z)
                    (List.map date_id (date_frame lo hi))).
    { rewrite date_frame_ids. apply in_map. now apply days_In. }
    apply in_map_iff in Hf. destruct Hf as (a & Ha & Hin).
    apply in_map_iff. exists a. split; [exact Ha |].
    apply not_matched_spec. split; [exact Hin |]. rewrite Ha. exact Hout.
Qed.

End DateDimension.

(* ------------------------------------------------------------------ *)
(** ** The warehouse: staging, dimensions, facts *)

Module Warehouse.
Import Sql.

(** A string of a table stands for its class under the comparison of the
    database (its collation, and the padding of trailing blanks): the
    statements below look at strings through [=], [<>], DISTINCT and the
    UNIQUE constraints only, which all compare that way, so two strings of
    the model are equal exactly when the database holds them equal. *)

(** [stg_order_export_raw]: the columns that the statements of [main] read;
    the other columns are loaded and never read again. *)
Module Stg.
Record row := mk {
  orderNo : option string;
  commercePlatform : option string;
  postalCode : option string;
  createTime : option Calendar.timestamp;
  submitTime : option Calendar.timestamp;
  goodsNumber : option Z;
  customer_id : option Z;
  state_code : option string;
  product_key : option string
}.
End Stg.

(** [dim_platform]: [platform_name] is UNIQUE. *)
Module Platform.
Record row := mk { platform_id : Z; platform_name : string }.
End Platform.

(** [dim_product]: [main_sku_code] is UNIQUE. *)
Module Product.
Record row := mk {
  product_id : Z;
  main_sku_code : string;
  english_name : option string;
  chinese_name : option string;
  customer_code : option string;
  category : option string
}.
End Product.

(** [dim_customer]: [customer_id] is the PRIMARY KEY. *)
Module Customer.
Record row := mk {
  customer_id : Z;
  gender : option string;
  state_code : option string;
  postal_code : option string
}.
End Customer.

(** [fact_sales]: the selected columns, and the row with its identity. *)
Module Fact.
Record selected := mk_selected {
  order_id : option string;
  date_id : option Calendar.date;
  product_id : option Z;
  customer_id : option Z;
  platform_id : option Z;
  units : Z;
  revenue : Z;
  state_code : option string
}.
Record row := mk { fact_id : Z; cols : selected }.
End Fact.

Record db := mk_db {
  stg_order_export_raw : list Stg.row;
  dim_platform : list Platform.row;
  platform_identity : Z;
  dim_product : list Product.row;
  product_identity : Z;
  dim_customer : list Customer.row;
  dim_date : list DateDimension.DatePoint;
  fact_sales : list Fact.row;
  fact_identity : Z
}.

Definition set_dim_platform (d : db) (t : list Platform.row) (next : Z) : db :=
  mk_db (stg_order_export_raw d) t next (dim_product d) (product_identity d)
        (dim_customer d) (dim_date d) (fact_sales d) (fact_identity d).

Definition set_dim_product (d : db) (t : list Product.row) (next : Z) : db :=
  mk_db (stg_order_export_raw d) (dim_platform d) (platform_identity d) t next
        (dim_customer d) (dim_date d) (fact_sales d) (fact_identity d).

Definition set_dim_customer (d : db) (t : list Customer.row) : db :=
  mk_db (stg_order_export_raw d) (dim_platform d) (platform_identity d)
        (dim_product d) (product_identity d) t (dim_date d) (fact_sales d)
        (fact_identity d).

Definition set_dim_date (d : db) (t : list DateDimension.DatePoint) : db :=
  mk_db (stg_order_export_raw d) (dim_platform d) (platform_identity d)
        (dim_product d) (product_identity d) (dim_customer d) t (fact_sales d)
        (fact_identity d).

Definition set_fact_sales (d : db) (t : list Fact.row) (next : Z) : db :=
  mk_db (stg_order_export_raw d) (dim_platform d) (platform_identity d)
        (dim_product d) (product_identity d) (dim_customer d) (dim_date d)
        t next.

(** An IDENTITY(1,1) column: the rows get the next values in turn. *)
Fixpoint with_identity {A R} (mk : Z -> A -> R) (next : Z) (l : list A)
  : list R :=
  match l with
  | [] => []
  | a :: l' => mk next a :: with_identity mk (next + 1) l'
  end.

Definition is_null {A} (v : option A) : bool :=
  match v with
  | Some _ => false
  | None => true
  end.

(** *** 4) dim_platform *)

(** [SELECT DISTINCT s.commercePlatform FROM stg_order_export_raw s
     WHERE s.commercePlatform IS NOT NULL AND s.commercePlatform <> ''
       AND NOT EXISTS (SELECT 1 FROM dim_platform dp
                       WHERE dp.platform_name = s.commercePlatform)] *)
Definition new_platforms (stg : list Stg.row) (dp : list Platform.row)
  : list string :=
  nodup string_dec
    (filter
       (fun n => negb (String.eqb n "")
                 && negb (mem string_dec n (List.map Platform.platform_name dp)))
       (not_null (List.map Stg.commercePlatform stg))).

Definition upsert_dim_platform (d : db) : txn db :=
  let names := new_platforms (stg_order_export_raw d) (dim_platform d) in
  let rows := with_identity Platform.mk (platform_identity d) names in
  match insert_checked string_dec Platform.platform_name (dim_platform d) rows
  with
  | Some t =>
      Committed (set_dim_platform d t
                   (platform_identity d + Z.of_nat (List.length names)))
  | None => RolledBack d
  end.

(** *** 5) dim_product *)

(** [SELECT DISTINCT s.product_key, NULL, NULL, NULL, NULL FROM ... WHERE
     s.product_key IS NOT NULL AND s.product_key <> '' AND NOT EXISTS ...] *)
Definition new_products (stg : list Stg.row) (dp : list Product.row)
  : list string :=
  nodup string_dec
    (filter
       (fun k => negb (String.eqb k "")
                 && negb (mem string_dec k (List.map Product.main_sku_code dp)))
       (not_null (List.map Stg.product_key stg))).

Definition upsert_dim_product (d : db) : txn db :=
  let keys := new_products (stg_order_export_raw d) (dim_product d) in
  let rows :=
    with_identity (fun id k => Product.mk id k None None None None)
                  (product_identity d) keys in
  match insert_checked string_dec Product.main_sku_code (dim_product d) rows
  with
  | Some t =>
      Committed (set_dim_product d t
                   (product_identity d + Z.of_nat (List.length keys)))
  | None => RolledBack d
  end.

(** *** 6) dim_customer *)

(** A staged customer: [customer_id, state_code, postalCode]. *)
Definition staged_customer : Type := Z * option string * option string.

Definition staged_customer_dec (a b : staged_customer) : {a = b} + {a <> b}.
Proof.
  repeat decide equality; try apply string_dec; apply Z.eq_dec.
Defined.

Definition customer_columns (stg : list Stg.row) : list staged_customer :=
  flat_map
    (fun s => match Stg.customer_id s with
              | Some c => [(c, Stg.state_code s, Stg.postalCode s)]
              | None => []
              end)
    stg.

(** [SELECT DISTINCT s.customer_id, 'Unknown', s.state_code, s.postalCode
     FROM stg_order_export_raw s WHERE s.customer_id IS NOT NULL
       AND NOT EXISTS (SELECT 1 FROM dim_customer c
                       WHERE c.customer_id = s.customer_id)] *)
Definition new_customers (stg : list Stg.row) (dc : list Customer.row)
  : list Customer.row :=
  List.map
    (fun '(c, st, po) => Customer.mk c (Some "Unknown"%string) st po)
    (nodup staged_customer_dec
       (filter
          (fun x => negb (mem Z.eq_dec (fst (fst x))
                              (List.map Customer.customer_id dc)))
          (customer_columns stg))).

(** [SELECT DISTINCT customer_id, state_code, postalCode
     FROM stg_order_export_raw WHERE customer_id IS NOT NULL] *)
Definition staged_customers (stg : list Stg.row) : list staged_customer :=
  nodup staged_customer_dec (customer_columns stg).

(** When several rows of the source join one row of the target, an UPDATE
    takes one of them, and which one is not specified. A [chooser] is any
    way of taking one. *)
Record chooser (A : Type) := mk_chooser {
  choose : list A -> option A;
  choose_in : forall l a, choose l = Some a -> In a l;
  choose_some : forall l, l <> [] -> choose l <> None
}.
Arguments choose {A} _ _.
Arguments choose_in {A} _ _ _ _.
Arguments choose_some {A} _ _ _.

Lemma hd_error_in {A} (l : list A) a : hd_error l = Some a -> In a l.
Proof. destruct l; [discriminate |]. intros [= ->]. now left. Qed.

Lemma hd_error_nonempty {A} (l : list A) : l <> [] -> hd_error l <> None.
Proof. destruct l; [congruence | discriminate]. Qed.

Definition first_match {A} : chooser A :=
  mk_chooser A (@hd_error A) hd_error_in hd_error_nonempty.

(** [UPDATE c SET c.state_code = s.state_code, c.postal_code = s.postalCode
     FROM dim_customer c INNER JOIN (...) s ON c.customer_id = s.customer_id
     WHERE c.state_code IS NULL OR c.postal_code IS NULL] *)
Definition update_customer (ch : chooser staged_customer)
           (src : list staged_customer) (c : Customer.row) : Customer.row :=
  if is_null (Customer.state_code c) || is_null (Customer.postal_code c) then
    match choose ch
            (filter (fun s => fst (fst s) =? Customer.customer_id c) src) with
    | Some (_, st, po) =>
        Customer.mk (Customer.customer_id c) (Customer.gender c) st po
    | None => c
    end
  else c.

Definition update_dim_customer (ch : chooser staged_customer)
           (stg : list Stg.row) (dc : list Customer.row) : list Customer.row :=
  List.map (update_customer ch (staged_customers stg)) dc.

(** The INSERT and the UPDATE run in one transaction. *)
Definition upsert_dim_customer (ch : chooser staged_customer) (d : db)
  : txn db :=
  let stg := stg_order_export_raw d in
  match insert_checked Z.eq_dec Customer.customer_id (dim_customer d)
          (new_customers stg (dim_customer d)) with
  | Some t => Committed (set_dim_customer d (update_dim_customer ch stg t))
  | None => RolledBack d
  end.

(** Steps 4 to 6 of [main]: each in a transaction of its own, and an error
    ends the run. *)
Definition upsert_dimensions (ch : chooser staged_customer) (d : db) : txn db :=
  and_then (upsert_dim_platform d)
    (fun d1 => and_then (upsert_dim_product d1) (upsert_dim_customer ch)).

(** *** 7) dim_date *)

(** [df[dt_col].min()] and [.max()]: NaT when no row has a date. *)
Definition column_min (col : list (option Calendar.timestamp))
  : option Calendar.timestamp :=
  match not_null col with
  | [] => None
  | t :: ts => Some (fold_left Z.min ts t)
  end.

Definition column_max (col : list (option Calendar.timestamp))
  : option Calendar.timestamp :=
  match not_null col with
  | [] => None
  | t :: ts => Some (fold_left Z.max ts t)
  end.

(** *** 8) fact_sales *)

(** The timestamp that dates a sale. *)
Inductive date_source := submitTime | createTime.

Definition FACT_DATE_SOURCE : date_source := submitTime.

Definition dt_col (src : date_source) (r : Stg.row)
  : option Calendar.timestamp :=
  match src with
  | submitTime => Stg.submitTime r
  | createTime => Stg.createTime r
  end.

(** [LEFT JOIN t ON on]: the matching rows, or one row of NULLs. *)
Definition left_join {B} (on : B -> bool) (t : list B) : list (option B) :=
  match filter on t with
  | [] => [None]
  | ms => List.map Some ms
  end.

(** [pl.platform_name = r.commercePlatform]; a NULL equals nothing. *)
Definition on_platform (r : Stg.row) (pl : Platform.row) : bool :=
  match Stg.commercePlatform r with
  | Some n => String.eqb (Platform.platform_name pl) n
  | None => false
  end.

(** [p.main_sku_code = r.product_key] *)
Definition on_product (r : Stg.row) (p : Product.row) : bool :=
  match Stg.product_key r with
  | Some k => String.eqb (Product.main_sku_code p) k
  | None => false
  end.

Definition coalesce {A} (v : option A) (d : A) : A :=
  match v with
  | Some a => a
  | None => d
  end.

(** The WHERE clause of the fact SELECT on one joined row. *)
Definition fact_where (src : date_source) (r : Stg.row)
           (pl : option Platform.row) (p : option Product.row) : bool :=
  negb (is_null (dt_col src r))
  && negb (is_null (Stg.commercePlatform r))
  && negb (is_null (Stg.product_key r))
  && negb (is_null (option_map Platform.platform_id pl))
  && negb (is_null (option_map Product.product_id p)).

(** The rows that the SELECT of step 8 yields for one staged row. *)
Definition select_facts (src : date_source) (d : db) (r : Stg.row)
  : list Fact.selected :=
  flat_map
    (fun pl =>
       flat_map
         (fun p =>
            if fact_where src r pl p then
              [ Fact.mk_selected
                  (Stg.orderNo r)
                  (option_map Calendar.date_of (dt_col src r))
                  (option_map Product.product_id p)
                  (Stg.customer_id r)
                  (option_map Platform.platform_id pl)
                  (coalesce (Stg.goodsNumber r) 1)
                  0
                  (Stg.state_code r) ]
            else [])
         (left_join (on_product r) (dim_product d)))
    (left_join (on_platform r) (dim_platform d)).

(** [INSERT INTO fact_sales (...) SELECT ...] *)
Definition insert_fact_sales (src : date_source) (d : db) : txn db :=
  let rows := flat_map (select_facts src d) (stg_order_export_raw d) in
  Committed
    (set_fact_sales d
       (fact_sales d ++ with_identity Fact.mk (fact_identity d) rows)
       (fact_identity d + Z.of_nat (List.length rows))).

(** Step 7 on the database: the range of the date column of the batch. *)
Definition ensure_dim_date_step (src : date_source) (d : db) : txn db :=
  let col := List.map (dt_col src) (stg_order_export_raw d) in
  match DateDimension.ensure_dim_date (dim_date d)
          (column_min col) (column_max col) with
  | Committed t => Committed (set_dim_date d t)
  | RolledBack _ => RolledBack d
  end.

(** Steps 4 to 8 of [main] on a loaded staging table. *)
Definition main_steps (ch : chooser staged_customer) (d : db) : txn db :=
  and_then (upsert_dimensions ch d)
    (fun d1 =>
       and_then (ensure_dim_date_step FACT_DATE_SOURCE d1)
                (insert_fact_sales FACT_DATE_SOURCE)).

(** *** Facts about the fact loader *)

Lemma left_join_In {B} (on : B -> bool) t (x : option B) :
  In x (left_join on t)
  <-> (x = None /\ filter on t = [])
      \/ (exists b, x = Some b /\ In b t /\ on b = true).
Proof.
  unfold left_join. destruct (filter on t) as [| m ms] eqn:E.
  - split.
    + intros [<- | []]. now left.
    + intros [[-> _] | (b & _ & Hb & Hon)]; [now left |].
      assert (Hin : In b (filter on t)) by (apply filter_In; now split).
      rewrite E in Hin. contradiction.
  - rewrite <- E. rewrite in_map_iff. split.
    + intros (b & <- & Hb). apply filter_In in Hb. right. now exists b.
    + intros [[_ Hnil] | (b & -> & Hb & Hon)].
      * rewrite Hnil in E. discriminate.
      * exists b. split; [reflexivity |]. apply filter_In. now split.
Qed.

Definition fact_of (src : date_source) (r : Stg.row) (pl : Platform.row)
           (p : Product.row) : Fact.selected :=
  Fact.mk_selected
    (Stg.orderNo r)
    (option_map Calendar.date_of (dt_col src r))
    (Some (Product.product_id p))
    (Stg.customer_id r)
    (Some (Platform.platform_id pl))
    (coalesce (Stg.goodsNumber r) 1)
    0
    (Stg.state_code r).

Lemma on_platform_true r pl :
  on_platform r pl = true
  <-> Stg.commercePlatform r = Some (Platform.platform_name pl).
Proof.
  unfold on_platform. destruct (Stg.commercePlatform r) as [n |].
  - rewrite String.eqb_eq. split; [now intros -> | now intros [= ->]].
  - split; discriminate.
Qed.

Lemma on_product_true r p :
  on_product r p = true
  <-> Stg.product_key r = Some (Product.main_sku_code p).
Proof.
  unfold on_product. destruct (Stg.product_key r) as [k |].
  - rewrite String.eqb_eq. split; [now intros -> | now intros [= ->]].
  - split; discriminate.
Qed.

(** The rows selected for a staged row: one for each pair of a platform
    row and a product row that the staged row joins, if its date is set. *)
Lemma select_facts_In src d r f :
  In f (select_facts src d r)
  <-> exists pl p,
      In pl (dim_platform d) /\ on_platform r pl = true /\
      In p (dim_product d) /\ on_product r p = true /\
      dt_col src r <> None /\ f = fact_of src r pl p.
Proof.
  unfold select_facts. rewrite in_flat_map. split.
  - intros (pl & Hpl & Hf). apply in_flat_map in Hf.
    destruct Hf as (p & Hp & Hf).
    destruct (fact_where src r pl p) eqn:Hw; [| contradiction].
    destruct Hf as [<- | []].
    unfold fact_where in Hw. rewrite !andb_true_iff, !negb_true_iff in Hw.
    destruct Hw as [[[[Hdt _] _] Hpln] Hpn].
    apply left_join_In in Hpl. apply left_join_In in Hp.
    destruct Hpl as [[-> _] | (plr & -> & Hplr & Hon)]; [discriminate |].
    destruct Hp as [[-> _] | (pr & -> & Hpr & Honp)]; [discriminate |].
    exists plr, pr. repeat (split; [assumption |]).
    split; [| reflexivity]. now destruct (dt_col src r).
  - intros (pl & p & Hpl & Hon & Hp & Honp & Hdt & ->).
    exists (Some pl). split.
    { apply left_join_In. right. now exists pl. }
    apply in_flat_map. exists (Some p). split.
    { apply left_join_In. right. now exists p. }
    assert (Hw : fact_where src r (Some pl) (Some p) = true).
    { unfold fact_where. apply on_platform_true in Hon.
      apply on_product_true in Honp. rewrite Hon, Honp.
      now destruct (dt_col src r). }
    rewrite Hw. now left.
Qed.

Lemma with_identity_cols (next : Z) (l : list Fact.selected) :
  List.map Fact.cols (with_identity Fact.mk next l) = l.
Proof.
  revert next; induction l as [| a l IH]; intros next; [reflexivity |].
  cbn. now rewrite IH.
Qed.


Lemma filter_unique_key {R K} (key : R -> K) (on : R -> bool) (t : list R) :
  NoDup (List.map key t) ->
  (forall a b, on a = true -> on b = true -> key a = key b) ->
  (List.length (filter on t) <= 1)%nat.
Proof.
  intros Hnd Hkey. induction t as [| a t IH]; [cbn; lia |].
  cbn [List.map] in Hnd. inversion Hnd as [| ? ? Hnotin Hnd']; subst.
  cbn [filter]. destruct (on a) eqn:Ha; [| now apply IH].
  assert (Hnil : filter on t = []).
  { destruct (filter on t) as [| b bs] eqn:E; [reflexivity |].
    assert (Hb : In b (filter on t)) by (rewrite E; now left).
    apply filter_In in Hb. destruct Hb as [Hb Honb].
    exfalso. apply Hnotin. rewrite (Hkey a b Ha Honb). now apply in_map. }
  rewrite Hnil. cbn. lia.
Qed.

Lemma left_join_length {R K} (key : R -> K) (on : R -> bool) (t : list R) :
  NoDup (List.map key t) ->
  (forall a b, on a = true -> on b = true -> key a = key b) ->
  List.length (left_join on t) = 1%nat.
Proof.
  intros Hnd Hkey. pose proof (filter_unique_key key on t Hnd Hkey) as Hle.
  unfold left_join. destruct (filter on t) as [| m [| m' ms]];
    cbn in *; try reflexivity; lia.
Qed.

(** With the UNIQUE constraints of the two dimensions in force, a staged row
    yields at most one fact row. *)
Lemma select_facts_at_most_one src d r :
  NoDup (List.map Platform.platform_name (dim_platform d)) ->
  NoDup (List.map Product.main_sku_code (dim_product d)) ->
  (List.length (select_facts src d r) <= 1)%nat.
Proof.
  intros Hpl Hp. unfold select_facts.
  assert (H1 : List.length (left_join (on_platform r) (dim_platform d)) = 1%nat).
  { apply (left_join_length Platform.platform_name); [exact Hpl |].
    intros a b Ha Hb. apply on_platform_true in Ha, Hb. congruence. }
  assert (H2 : List.length (left_join (on_product r) (dim_product d)) = 1%nat).
  { apply (left_join_length Product.main_sku_code); [exact Hp |].
    intros a b Ha Hb. apply on_product_true in Ha, Hb. congruence. }
  destruct (left_join (on_platform r) (dim_platform d)) as [| pl [| ? ?]];
    try discriminate H1.
  destruct (left_join (on_product r) (dim_product d)) as [| p [| ? ?]];
    try discriminate H2.
  cbn [flat_map]. rewrite !app_nil_r.
  destruct (fact_where src r pl p); cbn; lia.
Qed.

(** *** Facts about the dimension upserts *)

(** The keys that steps 4 and 5 insert: the distinct staged values that are
    neither NULL nor empty nor already a key of the dimension. *)
Definition new_keys (existing : list string) (staged : list (option string))
  : list string :=
  nodup string_dec
    (filter (fun k => negb (String.eqb k "")
                      && negb (mem string_dec k existing))
            (not_null staged)).

Lemma new_platforms_keys stg dp :
  new_platforms stg dp
  = new_keys (List.map Platform.platform_name dp)
             (List.map Stg.commercePlatform stg).
Proof. reflexivity. Qed.

Lemma new_products_keys stg dp :
  new_products stg dp
  = new_keys (List.map Product.main_sku_code dp)
             (List.map Stg.product_key stg).
Proof. reflexivity. Qed.

Lemma filter_none {A} (f : A -> bool) (l : list A) :
  (forall x, In x l -> f x = false) -> filter f l = [].
Proof.
  induction l as [| a l IH]; intros H; [reflexivity |].
  cbn [filter]. rewrite (H a (or_introl eq_refl)).
  apply IH. intros x Hx. apply H. now right.
Qed.

Lemma new_keys_In existing staged k :
  In k (new_keys existing staged)
  <-> In k (not_null staged) /\ k <> ""%string /\ ~ In k existing.
Proof.
  unfold new_keys.
  rewrite nodup_In, filter_In, andb_true_iff, !negb_true_iff.
  rewrite String.eqb_neq, mem_false. reflexivity.
Qed.

(** Once the new keys are in, no key is new. *)
Lemma new_keys_done existing staged extra :
  (forall k, In k (new_keys existing staged) -> In k extra) ->
  new_keys (existing ++ extra) staged = [].
Proof.
  intros Hex. unfold new_keys. rewrite filter_none; [reflexivity |].
  intros k Hk.
  destruct (String.eqb k "") eqn:Hempty; [reflexivity |].
  cbn [negb andb]. rewrite negb_false_iff, mem_In, in_app_iff.
  destruct (in_dec string_dec k existing) as [Hin | Hout]; [now left |].
  right. apply Hex. apply new_keys_In.
  apply String.eqb_neq in Hempty. auto.
Qed.

(** The new keys never break the UNIQUE constraint. *)
Lemma new_keys_fresh existing staged :
  fresh string_dec existing (new_keys existing staged) = true.
Proof.
  unfold fresh. rewrite andb_true_iff, forallb_forall, distinct_NoDup.
  split.
  - intros k Hk. apply new_keys_In in Hk.
    rewrite negb_true_iff, mem_false. tauto.
  - unfold new_keys. apply NoDup_nodup.
Qed.

Lemma with_identity_map {A R} (mk : Z -> A -> R) (f : R -> A) :
  (forall i a, f (mk i a) = a) ->
  forall next l, List.map f (with_identity mk next l) = l.
Proof.
  intros Hf next l. revert next.
  induction l as [| a l IH]; intros next; [reflexivity |].
  cbn. now rewrite Hf, IH.
Qed.

Lemma set_dim_platform_same d :
  set_dim_platform d (dim_platform d) (platform_identity d + 0) = d.
Proof. destruct d. unfold set_dim_platform. cbn. now rewrite Z.add_0_r. Qed.

Lemma set_dim_product_same d :
  set_dim_product d (dim_product d) (product_identity d + 0) = d.
Proof. destruct d. unfold set_dim_product. cbn. now rewrite Z.add_0_r. Qed.

(** Step 4 always commits, and leaves no platform of the batch to insert. *)
Lemma upsert_dim_platform_commits d :
  exists t n,
    upsert_dim_platform d = Committed (set_dim_platform d t n) /\
    new_platforms (stg_order_export_raw d) t = [] /\
    (NoDup (List.map Platform.platform_name (dim_platform d)) ->
     NoDup (List.map Platform.platform_name t)).
Proof.
  unfold upsert_dim_platform; cbv zeta.
  set (names := new_platforms (stg_order_export_raw d) (dim_platform d)).
  set (rows := with_identity Platform.mk (platform_identity d) names).
  assert (Hrows : List.map Platform.platform_name rows = names)
    by (apply with_identity_map; reflexivity).
  unfold insert_checked. rewrite Hrows.
  unfold names at 1. rewrite new_platforms_keys, new_keys_fresh.
  eexists _, _. split; [reflexivity |]. split.
  - rewrite new_platforms_keys, map_app, Hrows.
    apply new_keys_done. intros k Hk. exact Hk.
  - intros Hnd. rewrite map_app, Hrows.
    apply fresh_NoDup with (dec := string_dec); [exact Hnd |].
    unfold names. rewrite new_platforms_keys. apply new_keys_fresh.
Qed.

Lemma upsert_dim_platform_noop d :
  new_platforms (stg_order_export_raw d) (dim_platform d) = [] ->
  upsert_dim_platform d = Committed d.
Proof.
  intros H. unfold upsert_dim_platform; cbv zeta. rewrite H.
  cbn [with_identity List.length Z.of_nat].
  rewrite insert_checked_nil, set_dim_platform_same. reflexivity.
Qed.

(** Step 5 always commits, and leaves no product of the batch to insert. *)
Lemma upsert_dim_product_commits d :
  exists t n,
    upsert_dim_product d = Committed (set_dim_product d t n) /\
    new_products (stg_order_export_raw d) t = [] /\
    (NoDup (List.map Product.main_sku_code (dim_product d)) ->
     NoDup (List.map Product.main_sku_code t)).
Proof.
  unfold upsert_dim_product; cbv zeta.
  set (keys := new_products (stg_order_export_raw d) (dim_product d)).
  set (rows := with_identity (fun id k => Product.mk id k None None None None)
                             (product_identity d) keys).
  assert (Hrows : List.map Product.main_sku_code rows = keys)
    by (apply with_identity_map; reflexivity).
  unfold insert_checked. rewrite Hrows.
  unfold keys at 1. rewrite new_products_keys, new_keys_fresh.
  eexists _, _. split; [reflexivity |]. split.
  - rewrite new_products_keys, map_app, Hrows.
    apply new_keys_done. intros k Hk. exact Hk.
  - intros Hnd. rewrite map_app, Hrows.
    apply fresh_NoDup with (dec := string_dec); [exact Hnd |].
    unfold keys. rewrite new_products_keys. apply new_keys_fresh.
Qed.

Lemma upsert_dim_product_noop d :
  new_products (stg_order_export_raw d) (dim_product d) = [] ->
  upsert_dim_product d = Committed d.
Proof.
  intros H. unfold upsert_dim_product; cbv zeta. rewrite H.
  cbn [with_identity List.length Z.of_nat].
  rewrite insert_checked_nil, set_dim_product_same. reflexivity.
Qed.

Lemma update_customer_id ch src c :
  Customer.customer_id (update_customer ch src c) = Customer.customer_id c.
Proof.
  unfold update_customer.
  destruct (is_null _ || is_null _); [| reflexivity].
  destruct (choose ch _) as [[[? ?] ?] |]; reflexivity.
Qed.

Lemma update_dim_customer_ids ch stg dc :
  List.map Customer.customer_id (update_dim_customer ch stg dc)
  = List.map Customer.customer_id dc.
Proof.
  unfold update_dim_customer. rewrite map_map.
  apply map_ext. intros c. apply update_customer_id.
Qed.

Lemma update_dim_customer_length ch stg dc :
  List.length (update_dim_customer ch stg dc) = List.length dc.
Proof. unfold update_dim_customer. apply length_map. Qed.

(** What the INSERT of step 6 selects depends on the keys of the table. *)
Lemma new_customers_ids stg dc dc' :
  List.map Customer.customer_id dc = List.map Customer.customer_id dc' ->
  new_customers stg dc = new_customers stg dc'.
Proof. intros H. unfold new_customers. now rewrite H. Qed.

Lemma new_customers_In stg dc c :
  In c (List.map Customer.customer_id (new_customers stg dc))
  <-> (exists st po, In (c, st, po) (customer_columns stg))
      /\ ~ In c (List.map Customer.customer_id dc).
Proof.
  unfold new_customers. rewrite map_map, in_map_iff. split.
  - intros ([[c' st] po] & <- & Hin).
    apply nodup_In, filter_In in Hin. destruct Hin as [Hin Hout].
    cbn [fst] in Hout. rewrite negb_true_iff, mem_false in Hout.
    cbn [Customer.customer_id]. split; [now exists st, po | exact Hout].
  - intros [(st & po & Hin) Hout]. exists (c, st, po).
    split; [reflexivity |].
    apply nodup_In, filter_In. split; [exact Hin |].
    cbn [fst]. now rewrite negb_true_iff, mem_false.
Qed.

(** Once the staged customers are in, none is new. *)
Lemma new_customers_done stg dc :
  new_customers stg (dc ++ new_customers stg dc) = [].
Proof.
  unfold new_customers at 1. rewrite filter_none; [reflexivity |].
  intros [[c st] po] Hin. cbn [fst].
  rewrite negb_false_iff, mem_In, map_app, in_app_iff.
  destruct (in_dec Z.eq_dec c (List.map Customer.customer_id dc))
    as [Hc | Hc]; [now left | right].
  apply new_customers_In. split; [now exists st, po | exact Hc].
Qed.

(** Step 6: the INSERT raises (and does so whatever the UPDATE would have
    chosen), or the step commits and leaves no customer to insert. *)
Lemma upsert_dim_customer_cases ch d :
  (forall ch', upsert_dim_customer ch' d = RolledBack d) \/
  (exists t,
      upsert_dim_customer ch d
      = Committed (set_dim_customer d
                     (update_dim_customer ch (stg_order_export_raw d) t)) /\
      new_customers (stg_order_export_raw d) t = [] /\
      (NoDup (List.map Customer.customer_id (dim_customer d)) ->
       NoDup (List.map Customer.customer_id t))).
Proof.
  unfold upsert_dim_customer; cbv zeta.
  destruct (insert_checked Z.eq_dec Customer.customer_id (dim_customer d)
              (new_customers (stg_order_export_raw d) (dim_customer d)))
    as [t |] eqn:E.
  - right. exists t. split; [reflexivity |].
    assert (Ht : t = dim_customer d
                     ++ new_customers (stg_order_export_raw d) (dim_customer d)).
    { unfold insert_checked in E. destruct (fresh _ _ _); congruence. }
    split.
    + rewrite Ht. apply new_customers_done.
    + intros Hnd. now destruct (insert_checked_NoDup _ _ _ _ _ Hnd E).
  - left. reflexivity.
Qed.

Lemma upsert_dim_customer_noop ch d :
  new_customers (stg_order_export_raw d) (dim_customer d) = [] ->
  upsert_dim_customer ch d
  = Committed (set_dim_customer d
                 (update_dim_customer ch (stg_order_export_raw d)
                                      (dim_customer d))).
Proof.
  intros H. unfold upsert_dim_customer; cbv zeta.
  now rewrite H, insert_checked_nil.
Qed.

(** The number of rows of the three dimensions. *)
Definition row_counts (d : db) : nat * nat * nat :=
  (List.length (dim_platform d), List.length (dim_product d),
   List.length (dim_customer d)).

(** The key constraints of the three dimensions. *)
Definition keys_unique (d : db) : Prop :=
  NoDup (List.map Platform.platform_name (dim_platform d)) /\
  NoDup (List.map Product.main_sku_code (dim_product d)) /\
  NoDup (List.map Customer.customer_id (dim_customer d)).

(** Nothing of the batch is left to insert. *)
Definition batch_absorbed (d : db) : Prop :=
  new_platforms (stg_order_export_raw d) (dim_platform d) = [] /\
  new_products (stg_order_export_raw d) (dim_product d) = [].

(** A run of steps 4 to 6: the two first steps commit, and the state left by
    the run is the one step 6 leaves. *)
Lemma upsert_dimensions_run ch d :
  exists d0,
    upsert_dimensions ch d = upsert_dim_customer ch d0 /\
    batch_absorbed d0 /\
    stg_order_export_raw d0 = stg_order_export_raw d /\
    dim_customer d0 = dim_customer d /\
    (keys_unique d -> keys_unique d0).
Proof.
  destruct (upsert_dim_platform_commits d) as (tA & nA & HA & HdoneA & HndA).
  destruct (upsert_dim_product_commits (set_dim_platform d tA nA))
    as (tB & nB & HB & HdoneB & HndB).
  exists (set_dim_product (set_dim_platform d tA nA) tB nB).
  split; [| split; [| split; [| split]]].
  - unfold upsert_dimensions. rewrite HA. cbn [and_then]. rewrite HB.
    reflexivity.
  - split; [exact HdoneA | exact HdoneB].
  - reflexivity.
  - reflexivity.
  - intros (H1 & H2 & H3). split; [| split].
    + apply HndA, H1.
    + apply HndB, H2.
    + exact H3.
Qed.

Lemma upsert_dimensions_absorbed ch d :
  batch_absorbed d -> upsert_dimensions ch d = upsert_dim_customer ch d.
Proof.
  intros [HP HQ]. unfold upsert_dimensions.
  rewrite (upsert_dim_platform_noop d HP). cbn [and_then].
  rewrite (upsert_dim_product_noop d HQ). reflexivity.
Qed.

(** C8. Steps 4 to 6 are idempotent on the row counts. Whatever the first
    application leaves (also when its customer INSERT raised on the primary
    key and was rolled back), a second application to the same staged batch
    leaves the number of rows of [dim_platform], [dim_product] and
    [dim_customer] as it is; and the key of each dimension (platform name,
    main SKU code, customer_id), unique before, is unique after each
    application. *)
Theorem upsert_dimensions_idempotent (ch ch' : chooser staged_customer)
        (d : db) :
  keys_unique d ->
  let d1 := final (upsert_dimensions ch d) in
  let d2 := final (upsert_dimensions ch' d1) in
  stg_order_export_raw d1 = stg_order_export_raw d /\
  row_counts d2 = row_counts d1 /\
  keys_unique d1 /\
  keys_unique d2.
Proof.
  intros Hk. cbv zeta.
  destruct (upsert_dimensions_run ch d)
    as (d0 & Hrun & Habs & Hstg & _ & Hk0).
  specialize (Hk0 Hk). rewrite Hrun.
  destruct (upsert_dim_customer_cases ch d0) as [Hfail | (t & Hok & Hdone & Hnd)].
  - (* the customer INSERT raised: the state is [d0], and it raises again *)
    rewrite Hfail. cbn [final].
    rewrite (upsert_dimensions_absorbed ch' d0 Habs), Hfail. cbn [final].
    repeat split; try assumption; apply Hk0.
  - rewrite Hok. cbn [final].
    set (d1 := set_dim_customer d0
                 (update_dim_customer ch (stg_order_export_raw d0) t)).
    assert (Habs1 : batch_absorbed d1) by exact Habs.
    assert (Hk1 : keys_unique d1).
    { destruct Hk0 as (H1 & H2 & H3). split; [exact H1 |]. split; [exact H2 |].
      unfold d1. cbn [dim_customer set_dim_customer].
      rewrite update_dim_customer_ids. apply Hnd, H3. }
    assert (Hdone1 : new_customers (stg_order_export_raw d1) (dim_customer d1)
                     = []).
    { unfold d1. cbn [dim_customer set_dim_customer stg_order_export_raw].
      rewrite <- Hdone. apply new_customers_ids, update_dim_customer_ids. }
    rewrite (upsert_dimensions_absorbed ch' d1 Habs1).
    rewrite (upsert_dim_customer_noop ch' d1 Hdone1). cbn [final].
    split; [exact Hstg |]. split; [| split; [exact Hk1 |]].
    + unfold row_counts.
      cbn [dim_platform dim_product dim_customer set_dim_customer].
      now rewrite update_dim_customer_length.
    + destruct Hk1 as (H1 & H2 & H3). split; [exact H1 |]. split; [exact H2 |].
      cbn [dim_customer set_dim_customer].
      rewrite update_dim_customer_ids. exact H3.
Qed.

(** *** The customer UPDATE *)

Lemma choose_singleton {A} (ch : chooser A) (x : A) : choose ch [x] = Some x.
Proof.
  destruct (choose ch [x]) as [a |] eqn:E.
  - apply choose_in in E. destruct E as [-> | []]. reflexivity.
  - exfalso. apply (choose_some ch [x]); [discriminate | exact E].
Qed.

(** A customer with a NULL in one of the two columns and one staged match
    takes both staged values, NULL or not. *)
Lemma update_customer_single ch src c st po :
  is_null (Customer.state_code c) || is_null (Customer.postal_code c) = true ->
  filter (fun s => fst (fst s) =? Customer.customer_id c) src
  = [(Customer.customer_id c, st, po)] ->
  update_customer ch src c
  = Customer.mk (Customer.customer_id c) (Customer.gender c) st po.
Proof.
  intros Hnull Hmatch. unfold update_customer.
  rewrite Hnull, Hmatch, choose_singleton. reflexivity.
Qed.

(** A customer stored by an earlier run with a state and no postal code. *)
Definition stored_customer : Customer.row :=
  Customer.mk 42 (Some "Unknown"%string) (Some "CA"%string) None.

(** The same customer in a later batch, on a row whose state is not a valid
    code (so [state_code] is NULL) and whose postal code is missing. *)
Definition staged_again : Stg.row :=
  Stg.mk (Some "SO-2"%string) (Some "Amazon"%string) None None
         (Some DateDimension.sample_min) (Some 1) (Some 42) None
         (Some "SKU-1"%string).

Definition db_with_stored_customer : db :=
  mk_db [staged_again] [] 1 [] 1 [stored_customer] [] [] 1.

(** C1, what the code does. The UPDATE of step 6 assigns both columns from
    the staged row, with no COALESCE: on a stored customer with state "CA"
    and no postal code, a staged row of that customer with a NULL state
    erases the state. *)
Theorem upsert_dim_customer_erases_state (ch : chooser staged_customer) :
  upsert_dim_customer ch db_with_stored_customer
  = Committed
      (set_dim_customer db_with_stored_customer
         [Customer.mk 42 (Some "Unknown"%string) None None]).
Proof.
  rewrite upsert_dim_customer_noop by reflexivity.
  do 2 f_equal.
  unfold update_dim_customer, db_with_stored_customer.
  cbn [stg_order_export_raw dim_customer List.map].
  rewrite (update_customer_single ch _ stored_customer None None);
    reflexivity.
Qed.

(** The sibling statement of [product_info_etl.py], on [dim_product]:
    [UPDATE p SET p.english_name = COALESCE(s.english_name, p.english_name),
     ... FROM dim_product p INNER JOIN stg_product_master s
     ON p.main_sku_code = s.main_sku_code
     WHERE s.english_name IS NOT NULL OR ... OR s.category IS NOT NULL] *)
Module ProductMaster.

Record row := mk {
  main_sku_code : string;
  english_name : option string;
  chinese_name : option string;
  customer_code : option string;
  category : option string
}.

(** [COALESCE(a, b)] *)
Definition coalesce_null {A} (a b : option A) : option A :=
  match a with
  | Some _ => a
  | None => b
  end.

Definition joins (p : Product.row) (s : row) : bool :=
  String.eqb (Product.main_sku_code p) (main_sku_code s)
  && (negb (is_null (english_name s)) || negb (is_null (chinese_name s))
      || negb (is_null (customer_code s)) || negb (is_null (category s))).

Definition update_product (ch : chooser row) (stg : list row)
           (p : Product.row) : Product.row :=
  match choose ch (filter (joins p) stg) with
  | Some s =>
      Product.mk (Product.product_id p) (Product.main_sku_code p)
        (coalesce_null (english_name s) (Product.english_name p))
        (coalesce_null (chinese_name s) (Product.chinese_name p))
        (coalesce_null (customer_code s) (Product.customer_code p))
        (coalesce_null (category s) (Product.category p))
  | None => p
  end.

Lemma coalesce_null_keeps {A} (a b : option A) :
  b <> None -> coalesce_null a b <> None.
Proof. destruct a; [discriminate | trivial]. Qed.

(** The product UPDATE never erases a stored attribute. *)
Lemma update_product_keeps ch stg p :
  (Product.english_name p <> None ->
   Product.english_name (update_product ch stg p) <> None) /\
  (Product.chinese_name p <> None ->
   Product.chinese_name (update_product ch stg p) <> None) /\
  (Product.customer_code p <> None ->
   Product.customer_code (update_product ch stg p) <> None) /\
  (Product.category p <> None ->
   Product.category (update_product ch stg p) <> None).
Proof.
  unfold update_product.
  destruct (choose ch (filter (joins p) stg)) as [s |]; cbn;
    repeat split; auto using coalesce_null_keeps.
Qed.

End ProductMaster.

(** *** A run on a small batch *)

Definition sample_batch : list Stg.row :=
  [ Stg.mk (Some "SO-1"%string) (Some "Amazon"%string) (Some "90001"%string)
           None (Some DateDimension.sample_min) (Some 2) (Some 42)
           (Some "CA"%string) (Some "SKU-1"%string);
    Stg.mk (Some "SO-2"%string) (Some "Amazon"%string) (Some "90001"%string)
           None (Some DateDimension.sample_max) (Some 1) (Some 42)
           (Some "CA"%string) (Some "SKU-2"%string);
    Stg.mk (Some "SO-3"%string) None None
           None (Some DateDimension.sample_max) (Some 5) (Some 7)
           None (Some "SKU-1"%string);
    Stg.mk (Some "SO-4"%string) (Some "Amazon"%string) None
           None None (Some 1) (Some 7)
           None (Some "SKU-2"%string) ].

Definition sample_db : db := mk_db sample_batch [] 1 [] 1 [] [] [] 1.

Definition sample_loaded : db := final (main_steps first_match sample_db).

(** Two orders of one customer give one customer row and two fact rows; the
    rows with no platform or no date give no fact, and the date dimension
    covers the four days of the batch. *)
Example sample_run :
  main_steps first_match sample_db = Committed sample_loaded /\
  List.map DateDimension.date_id (dim_date sample_loaded)
    = [ Calendar.mk_date 2024 1 30; Calendar.mk_date 2024 1 31;
        Calendar.mk_date 2024 2 1; Calendar.mk_date 2024 2 2 ] /\
  dim_platform sample_loaded = [Platform.mk 1 "Amazon"] /\
  List.map Product.main_sku_code (dim_product sample_loaded)
    = ["SKU-1"; "SKU-2"]%string /\
  dim_customer sample_loaded
    = [ Customer.mk 42 (Some "Unknown") (Some "CA") (Some "90001");
        Customer.mk 7 (Some "Unknown") None None ]%string /\
  List.map Fact.cols (fact_sales sample_loaded)
    = [ Fact.mk_selected (Some "SO-1") (Some (Calendar.mk_date 2024 1 30))
          (Some 1) (Some 42) (Some 1) 2 0 (Some "CA");
        Fact.mk_selected (Some "SO-2") (Some (Calendar.mk_date 2024 2 2))
          (Some 2) (Some 42) (Some 1) 1 0 (Some "CA") ]%string /\
  stg_order_export_raw sample_loaded = sample_batch.
Proof. vm_compute. repeat split; reflexivity. Qed.

(** One customer staged with two different states: the INSERT of step 6
    selects two rows with one key, raises, and is rolled back; the platforms
    and products of the batch stay committed. *)
Definition conflicting_batch : list Stg.row :=
  [ Stg.mk (Some "SO-1"%string) (Some "Amazon"%string) (Some "90001"%string)
           None None (Some 1) (Some 42) (Some "CA"%string)
           (Some "SKU-1"%string);
    Stg.mk (Some "SO-2"%string) (Some "Amazon"%string) (Some "90001"%string)
           None None (Some 1) (Some 42) None (Some "SKU-1"%string) ].

Example conflicting_batch_rolls_back :
  upsert_dimensions first_match (mk_db conflicting_batch [] 1 [] 1 [] [] [] 1)
  = RolledBack
      (mk_db conflicting_batch [Platform.mk 1 "Amazon"] 2
             [Product.mk 1 "SKU-1" None None None None] 2 [] [] [] 1).
Proof. vm_compute. reflexivity. Qed.

Lemma sample_db_keys_unique : keys_unique sample_db.
Proof. repeat split; constructor. Qed.

Lemma upsert_dimensions_idempotent_witness :
  keys_unique sample_db /\
  row_counts (final (upsert_dimensions first_match
                       (final (upsert_dimensions first_match sample_db))))
  = row_counts (final (upsert_dimensions first_match sample_db)).
Proof.
  split; [exact sample_db_keys_unique |].
  exact (proj1 (proj2 (upsert_dimensions_idempotent first_match first_match
                         sample_db sample_db_keys_unique))).
Defined.

End Warehouse.

(* ------------------------------------------------------------------ *)
(** ** Python string methods used on headers and cells *)

Module PyText.

(** [str.isspace] on one code point: the characters [str.strip()] removes. *)
Definition isspace (c : Z) : bool :=
  ((9 <=? c) && (c <=? 13)) || ((28 <=? c) && (c <=? 32))
  || (c =? 133) || (c =? 160) || (c =? 5760)
  || ((8192 <=? c) && (c <=? 8202))
  || (c =? 8232) || (c =? 8233) || (c =? 8239) || (c =? 8287)
  || (c =? 12288).

(** The characters of ['\t\r\n '], the argument of [rstrip] in [main]. *)
Definition is_tab_cr_lf_space (c : Z) : bool :=
  (c =? 9) || (c =? 13) || (c =? 10) || (c =? 32).

Fixpoint lstrip_by (p : Z -> bool) (s : Py.str) : Py.str :=
  match s with
  | c :: s' => if p c then lstrip_by p s' else s
  | [] => []
  end.

Definition rstrip_by (p : Z -> bool) (s : Py.str) : Py.str :=
  rev (lstrip_by p (rev s)).

(** [s.strip()] *)
Definition strip (s : Py.str) : Py.str :=
  rstrip_by isspace (lstrip_by isspace s).

(** [s.replace(old, new)] for a one-character [old]. *)
Definition replace_char (old : Z) (new : Py.str) (s : Py.str) : Py.str :=
  flat_map (fun c => if c =? old then new else [c]) s.

(** [s.split(sep)] for a one-character [sep]: never empty. *)
Fixpoint split_on (sep : Z) (s : Py.str) : list Py.str :=
  match s with
  | [] => [[]]
  | c :: s' =>
      if c =? sep then [] :: split_on sep s'
      else
        match split_on sep s' with
        | h :: t => (c :: h) :: t
        | [] => [[c]]
        end
  end.

(** [sep in s] *)
Definition contains (sep : Z) (s : Py.str) : bool := existsb (Z.eqb sep) s.

(** No blank at either end. *)
Definition trimmed (p : Z -> bool) (s : Py.str) : bool :=
  match s with
  | [] => true
  | c :: _ => negb (p c) && negb (p (last s c))
  end.

Lemma lstrip_by_app p l c m :
  p c = false -> lstrip_by p (l ++ c :: m) = lstrip_by p l ++ c :: m.
Proof.
  intros Hc. induction l as [| a l IH]; cbn [app lstrip_by].
  - now rewrite Hc.
  - destruct (p a); [exact IH | reflexivity].
Qed.

Lemma lstrip_by_head p s :
  match lstrip_by p s with
  | [] => True
  | c :: _ => p c = false
  end.
Proof.
  induction s as [| a s IH]; [exact I |].
  cbn [lstrip_by]. destruct (p a) eqn:E; [exact IH | exact E].
Qed.

Lemma lstrip_by_incl p s x : In x (lstrip_by p s) -> In x s.
Proof.
  induction s as [| a s IH]; [trivial |].
  cbn [lstrip_by]. destruct (p a); [| trivial].
  intros H. right. now apply IH.
Qed.

Lemma rstrip_by_incl p s x : In x (rstrip_by p s) -> In x s.
Proof.
  unfold rstrip_by. intros H. apply in_rev in H.
  apply lstrip_by_incl in H. now apply in_rev in H.
Qed.

Lemma strip_incl s x : In x (strip s) -> In x s.
Proof.
  unfold strip. intros H. apply rstrip_by_incl in H.
  now apply lstrip_by_incl in H.
Qed.

Lemma last_snoc {A} (l : list A) (a d : A) : last (l ++ [a]) d = a.
Proof.
  induction l as [| b l IH]; [reflexivity |].
  cbn [app]. destruct (l ++ [a]) eqn:E.
  - destruct l; discriminate.
  - cbn [last]. exact IH.
Qed.

(** A text with no blank at either end is left as it is. *)
Lemma trimmed_lstrip p s : trimmed p s = true -> lstrip_by p s = s.
Proof.
  destruct s as [| c s]; [reflexivity |].
  cbn [trimmed lstrip_by]. intros H. apply andb_prop in H.
  destruct H as [H _]. apply negb_true_iff in H. now rewrite H.
Qed.

Lemma trimmed_rstrip p s : trimmed p s = true -> rstrip_by p s = s.
Proof.
  intros H. unfold rstrip_by.
  destruct s as [| c s]; [reflexivity |].
  destruct (exists_last (l := c :: s)) as (l & a & E); [discriminate |].
  cbn [trimmed] in H. apply andb_prop in H. destruct H as [_ H].
  rewrite E in *. rewrite last_snoc in H. apply negb_true_iff in H.
  rewrite rev_app_distr. cbn [rev app]. cbn [lstrip_by]. rewrite H.
  change (a :: rev l) with ([a] ++ rev l).
  rewrite rev_app_distr, rev_involutive. reflexivity.
Qed.

Lemma rstrip_by_last p s :
  match rstrip_by p s with
  | [] => True
  | c :: t => p (last (c :: t) c) = false
  end.
Proof.
  unfold rstrip_by. pose proof (lstrip_by_head p (rev s)) as H.
  destruct (lstrip_by p (rev s)) as [| a l]; [exact I |].
  cbn [rev]. destruct (rev l ++ [a]) as [| c t] eqn:E; [exact I |].
  rewrite <- E. now rewrite last_snoc.
Qed.

(** [rstrip] keeps the head of a text that starts with a non-blank. *)
Lemma rstrip_by_keeps_head p c s :
  p c = false -> exists t, rstrip_by p (c :: s) = c :: t.
Proof.
  intros Hc. unfold rstrip_by. cbn [rev].
  rewrite lstrip_by_app by exact Hc.
  rewrite rev_app_distr. cbn [rev app]. eauto.
Qed.

Lemma strip_trimmed s : trimmed isspace (strip s) = true.
Proof.
  unfold strip. pose proof (lstrip_by_head isspace s) as Hh.
  destruct (lstrip_by isspace s) as [| c t]; [reflexivity |].
  destruct (rstrip_by_keeps_head isspace c t Hh) as (u & E).
  pose proof (rstrip_by_last isspace (c :: t)) as Hl.
  rewrite E in *. cbn [trimmed]. now rewrite Hh, Hl.
Qed.

Lemma strip_idempotent s : strip (strip s) = strip s.
Proof.
  pose proof (strip_trimmed s) as H. unfold strip at 1.
  rewrite (trimmed_lstrip _ _ H). now apply trimmed_rstrip.
Qed.

Lemma replace_char_absent old new s :
  ~ In old s -> replace_char old new s = s.
Proof.
  induction s as [| c s IH]; [reflexivity |].
  intros H. cbn [replace_char flat_map]. fold (replace_char old new s).
  destruct (c =? old) eqn:E.
  - exfalso. apply H. left. lia.
  - cbn [app]. rewrite IH; [reflexivity |]. intros Hin. apply H. now right.
Qed.

Lemma replace_char_In old new s x :
  In x (replace_char old new s)
  <-> (In x s /\ x <> old) \/ (In old s /\ In x new).
Proof.
  unfold replace_char. rewrite in_flat_map. split.
  - intros (c & Hc & Hx). destruct (c =? old) eqn:E.
    + right. split; [| exact Hx]. assert (c = old) by lia. now subst.
    + destruct Hx as [<- | []]. left. split; [exact Hc | lia].
  - intros [[Hx Hne] | [Hold Hx]].
    + exists x. split; [exact Hx |].
      assert (E : (x =? old) = false) by lia. rewrite E. now left.
    + exists old. split; [exact Hold |]. now rewrite Z.eqb_refl.
Qed.

(** One character for one: the replacement is a map. *)
Lemma replace_char_map old new s :
  replace_char old [new] s = List.map (fun c => if c =? old then new else c) s.
Proof.
  induction s as [| c s IH]; [reflexivity |].
  cbn [replace_char flat_map List.map]. fold (replace_char old [new] s).
  rewrite IH. now destruct (c =? old).
Qed.

Lemma last_map {A B} (f : A -> B) (l : list A) (d : A) :
  last (List.map f l) (f d) = f (last l d).
Proof.
  induction l as [| a l IH]; [reflexivity |].
  cbn [List.map]. destruct l as [| b l]; [reflexivity |].
  cbn [List.map last] in *. exact IH.
Qed.

Lemma trimmed_map p f s :
  (forall c, p c = false -> p (f c) = false) ->
  trimmed p s = true -> trimmed p (List.map f s) = true.
Proof.
  intros Hf. destruct s as [| c s]; [reflexivity |].
  cbn [trimmed]. intros H. apply andb_prop in H. destruct H as [H1 H2].
  apply negb_true_iff in H1, H2.
  cbn [List.map trimmed].
  replace (last (f c :: List.map f s) (f c)) with (f (last (c :: s) c))
    by (symmetry; apply (last_map f (c :: s) c)).
  rewrite (Hf _ H1), (Hf _ H2). reflexivity.
Qed.

Lemma split_on_nonempty sep s : split_on sep s <> [].
Proof.
  destruct s as [| c s]; [discriminate |].
  cbn [split_on]. destruct (c =? sep); [discriminate |].
  destruct (split_on sep s); discriminate.
Qed.

Lemma split_on_absent sep s : ~ In sep s -> split_on sep s = [s].
Proof.
  induction s as [| c s IH]; [reflexivity |].
  intros H. cbn [split_on].
  assert (E : (c =? sep) = false)
    by (apply Z.eqb_neq; intros ->; apply H; now left).
  rewrite E, IH; [reflexivity |]. intros Hin. apply H. now right.
Qed.

(** The pieces of [a + sep + b] are the pieces of [a], then those of [b]. *)
Lemma split_on_app sep a b :
  split_on sep (a ++ sep :: b) = split_on sep a ++ split_on sep b.
Proof.
  induction a as [| c a IH].
  - cbn [app split_on]. now rewrite Z.eqb_refl.
  - cbn [app split_on]. rewrite IH. destruct (c =? sep); [reflexivity |].
    pose proof (split_on_nonempty sep a) as Hne.
    destruct (split_on sep a) as [| h t]; [congruence | reflexivity].
Qed.

Lemma last_app_nonempty {A} (l l' : list A) d :
  l' <> [] -> last (l ++ l') d = last l' d.
Proof.
  intros Hne. induction l as [| a l IH]; [reflexivity |].
  cbn [app]. destruct (l ++ l') eqn:E.
  - destruct l; [cbn in E; congruence | discriminate].
  - cbn [last]. exact IH.
Qed.

(** The last piece of a split is what follows the last separator. *)
Lemma split_on_last sep stem ext :
  ~ In sep ext -> last (split_on sep (stem ++ sep :: ext)) [] = ext.
Proof.
  intros Hext. rewrite split_on_app, (split_on_absent sep ext Hext).
  now rewrite last_app_nonempty by discriminate.
Qed.

End PyText.

(* ------------------------------------------------------------------ *)
(** ** Reading the input: file kind and headers *)

Module Headers.
Import PyText.

Definition BOM : Z := 0xFEFF.

(** [normalize_colname] *)
Definition normalize_colname (c : Py.str) : Py.str :=
  let c := replace_char BOM [] (strip c) in
  replace_char 45 [95] (replace_char 32 [95] c).

(** The reader [main] picks for the input file; [Unsupported] is the
    [ValueError] it raises. *)
Inductive input_kind := Csv | Excel | Unsupported.

Definition reader_of (ext : Py.str) : input_kind :=
  if Normalizer.str_eqb ext (Py.lit "csv") then Csv
  else if Normalizer.str_eqb ext (Py.lit "xls")
          || Normalizer.str_eqb ext (Py.lit "xlsx") then Excel
  else Unsupported.

(** [str.lower] on ASCII text. *)
Definition ascii_lower (s : Py.str) : Py.str :=
  List.map (fun c => if (65 <=? c) && (c <=? 90) then c + 32 else c) s.

Section InputKind.

(** [str.lower], whatever it does outside ASCII. *)
Variable lower : Py.str -> Py.str.

(** [ext = path.split(".")[-1].lower() if "." in path else ""] *)
Definition extension (path : Py.str) : Py.str :=
  if contains 46 path then lower (last (split_on 46 path) []) else [].

Definition input_kind_of (path : Py.str) : input_kind :=
  reader_of (extension path).

(** X3. The reader is chosen by the text after the last dot of the path,
    lower-cased, and by nothing else of the path; a path with no dot at all
    is refused, also when it is "csv" itself. *)
Theorem input_kind_by_last_extension (stem ext : Py.str) :
  ~ In 46 ext ->
  input_kind_of (stem ++ 46 :: ext) = reader_of (lower ext) /\
  input_kind_of ext = Unsupported.
Proof.
  intros Hext. unfold input_kind_of, extension. split.
  - assert (Hc : contains 46 (stem ++ 46 :: ext) = true).
    { unfold contains. apply existsb_exists. exists 46.
      split; [apply in_or_app; right; now left | apply Z.eqb_refl]. }
    rewrite Hc, split_on_last by exact Hext. reflexivity.
  - assert (Hc : contains 46 ext = false).
    { unfold contains. destruct (existsb (Z.eqb 46) ext) eqn:E; [| reflexivity].
      apply existsb_exists in E. destruct E as (x & Hx & Heq).
      apply Z.eqb_eq in Heq. subst x. contradiction. }
    rewrite Hc. reflexivity.
Qed.

End InputKind.

Lemma input_kind_by_last_extension_witness :
  input_kind_of ascii_lower (Py.lit "exports/orders.2024.CSV") = Csv /\
  input_kind_of ascii_lower (Py.lit "CSV") = Unsupported.
Proof.
  pose proof (input_kind_by_last_extension ascii_lower
                (Py.lit "exports/orders.2024") (Py.lit "CSV")) as H.
  apply H. cbn. intros [H1 | [H1 | [H1 | []]]]; discriminate H1.
Defined.

Lemma replace_bom_absent s : ~ In BOM s -> replace_char BOM [] s = s.
Proof. apply replace_char_absent. Qed.

(** X1. A normalised header holds no space, no hyphen and no byte-order
    mark, and every character of it is an underscore or a character of the
    header it comes from. *)
Theorem normalize_colname_clean (c : Py.str) :
  let r := normalize_colname c in
  ~ In 32 r /\ ~ In 45 r /\ ~ In BOM r /\
  (forall x, In x r -> x = 95 \/ In x c).
Proof.
  cbv zeta. unfold normalize_colname.
  assert (Hall : forall x,
             In x (replace_char 45 [95]
                     (replace_char 32 [95] (replace_char BOM [] (strip c)))) ->
             x <> 32 /\ x <> 45 /\ x <> BOM /\ (x = 95 \/ In x c)).
  { intros x Hx. apply replace_char_In in Hx.
    destruct Hx as [[Hx H45] | [_ [<- | []]]];
      [| repeat split; try discriminate; now left].
    apply replace_char_In in Hx.
    destruct Hx as [[Hx H32] | [_ [<- | []]]];
      [| repeat split; try discriminate; now left].
    apply replace_char_In in Hx.
    destruct Hx as [[Hx Hbom] | [_ []]].
    repeat split; try assumption. right. now apply strip_incl. }
  repeat split.
  - intros H. apply Hall in H. tauto.
  - intros H. apply Hall in H. tauto.
  - intros H. apply Hall in H. tauto.
  - intros x H. apply Hall in H. tauto.
Qed.

(** X2. Normalising twice changes nothing more, for a header that holds no
    byte-order mark (as after a read with [utf-8-sig]). *)
Theorem normalize_colname_idempotent (c : Py.str) :
  ~ In BOM c ->
  normalize_colname (normalize_colname c) = normalize_colname c.
Proof.
  intros Hbom.
  unfold normalize_colname at 2 3.
  assert (Hb : ~ In BOM (strip c))
    by (intros H; apply Hbom; now apply strip_incl).
  rewrite (replace_bom_absent _ Hb), !replace_char_map, map_map.
  set (f := fun x : Z => if (if x =? 32 then 95 else x) =? 45 then 95
                          else if x =? 32 then 95 else x).
  assert (Htrim : trimmed isspace (List.map f (strip c)) = true).
  { apply trimmed_map; [| apply strip_trimmed].
    intros x Hx. unfold f.
    destruct (x =? 32); [reflexivity |].
    destruct (x =? 45); [reflexivity | exact Hx]. }
  assert (Hin : forall x, In x (List.map f (strip c)) ->
                          x <> 32 /\ x <> 45 /\ x <> BOM).
  { intros x Hx. apply in_map_iff in Hx. destruct Hx as (y & <- & Hy).
    assert (y <> BOM) by (intros ->; contradiction).
    unfold f, BOM in *.
    destruct (y =? 32) eqn:E1; [cbn; repeat split; discriminate |].
    destruct (y =? 45) eqn:E2; [repeat split; discriminate |].
    repeat split; lia. }
  revert Htrim Hin. generalize (List.map f (strip c)). intros u Htrim Hin.
  unfold normalize_colname, strip.
  rewrite (trimmed_lstrip _ _ Htrim), (trimmed_rstrip _ _ Htrim).
  rewrite (replace_char_absent BOM [] u), (replace_char_absent 32 [95] u),
    (replace_char_absent 45 [95] u); [reflexivity | | |];
    intros H; apply Hin in H; tauto.
Qed.

Lemma normalize_colname_idempotent_witness :
  normalize_colname (normalize_colname (Py.lit "  Urgent Orders-2 "))
  = normalize_colname (Py.lit "  Urgent Orders-2 ").
Proof.
  apply normalize_colname_idempotent.
  cbn. intros H. repeat (destruct H as [H | H]; [discriminate H |]). exact H.
Defined.

(** With a byte-order mark before a tab, the second pass strips the tab
    that the first one had left behind the mark. *)
Example normalize_colname_after_bom :
  normalize_colname [BOM; 9; 97] = [9; 97] /\
  normalize_colname [9; 97] = [97].
Proof. split; reflexivity. Qed.

End Headers.

(* ------------------------------------------------------------------ *)
(** ** The frame and its columns *)

Module Frame.

(** A DataFrame, as far as [main] looks at it: its columns in order, each
    with its label and its cells. *)
Definition column : Type := list Py.value.
Definition frame : Type := list (Py.str * column).

Definition labelled (c : Py.str) (nc : Py.str * column) : bool :=
  Normalizer.str_eqb (fst nc) c.

(** [c in df.columns] *)
Definition has_column (c : Py.str) (df : frame) : bool :=
  existsb (labelled c) df.

(** [df[c] = None] for a label the frame does not have: a new last column,
    [None] on each of the [rows] rows. *)
Definition add_null_column (rows : nat) (c : Py.str) (df : frame) : frame :=
  df ++ [(c, repeat Py.VNone rows)].

(** [for c in cols: if c not in df.columns: df[c] = None] *)
Definition synthesize (rows : nat) (cols : list Py.str) (df : frame) : frame :=
  fold_left
    (fun df c => if has_column c df then df else add_null_column rows c df)
    cols df.

(** [df[cols]]: the columns that carry each label, in the order of [cols];
    [None] is the [KeyError] raised for a label no column has. *)
Fixpoint select (cols : list Py.str) (df : frame) : option frame :=
  match cols with
  | [] => Some []
  | c :: cols' =>
      let found := filter (labelled c) df in
      match found, select cols' df with
      | _ :: _, Some rest => Some (found ++ rest)
      | _, _ => None
      end
  end.

Lemma str_eqb_refl s : Normalizer.str_eqb s s = true.
Proof.
  unfold Normalizer.str_eqb. destruct (list_eq_dec Z.eq_dec s s); congruence.
Qed.

Lemma str_eqb_eq a b : Normalizer.str_eqb a b = true <-> a = b.
Proof.
  unfold Normalizer.str_eqb. destruct (list_eq_dec Z.eq_dec a b);
    split; congruence.
Qed.

Lemma has_column_app c df extra :
  has_column c (df ++ extra) = has_column c df || has_column c extra.
Proof. unfold has_column. apply existsb_app. Qed.

Lemma synthesize_cons rows c cols df :
  synthesize rows (c :: cols) df
  = synthesize rows cols
      (if has_column c df then df else add_null_column rows c df).
Proof. reflexivity. Qed.

(** What the loop leaves: the frame it got, then the new all-null columns. *)
Lemma synthesize_spec rows cols : forall df,
  exists added,
    synthesize rows cols df = df ++ added /\
    (forall nc, In nc added ->
                snd nc = repeat Py.VNone rows /\ has_column (fst nc) df = false
                /\ In (fst nc) cols) /\
    (forall c, In c cols -> has_column c (df ++ added) = true).
Proof.
  induction cols as [| c cols IH]; intros df.
  - exists []. rewrite app_nil_r. repeat split; contradiction.
  - rewrite synthesize_cons.
    destruct (has_column c df) eqn:Hc.
    + destruct (IH df) as (added & Heq & Hadded & Hall).
      exists added. split; [exact Heq |]. split.
      * intros nc Hnc. destruct (Hadded nc Hnc) as (H1 & H2 & H3).
        repeat split; try assumption. now right.
      * intros x [<- | Hx]; [| now apply Hall].
        rewrite has_column_app, Hc. reflexivity.
    + destruct (IH (add_null_column rows c df)) as (added & Heq & Hadded & Hall).
      unfold add_null_column in *.
      exists ((c, repeat Py.VNone rows) :: added).
      split; [rewrite Heq, <- app_assoc; reflexivity |]. split.
      * intros nc [<- | Hnc].
        -- cbn [fst snd]. repeat split; [exact Hc | now left].
        -- destruct (Hadded nc Hnc) as (H1 & H2 & H3).
           rewrite has_column_app in H2. apply orb_false_elim in H2.
           repeat split; [exact H1 | apply H2 | now right].
      * intros x Hx.
        change (df ++ (c, repeat Py.VNone rows) :: added)
          with (df ++ [(c, repeat Py.VNone rows)] ++ added).
        rewrite app_assoc. destruct Hx as [<- | Hx]; [| now apply Hall].
        assert (Hnew : has_column c [(c, repeat Py.VNone rows)] = true).
        { unfold has_column, labelled. cbn [existsb fst].
          now rewrite str_eqb_refl. }
        rewrite !has_column_app, Hnew, orb_true_r. reflexivity.
Qed.

(** A selection that succeeds is the columns of each label, label after
    label. *)
Lemma select_present cols df :
  (forall c, In c cols -> has_column c df = true) ->
  select cols df = Some (flat_map (fun c => filter (labelled c) df) cols).
Proof.
  induction cols as [| c cols IH]; intros H; [reflexivity |].
  cbn [select flat_map]. cbv zeta.
  assert (Hc : has_column c df = true) by (apply H; now left).
  unfold has_column in Hc. apply existsb_exists in Hc.
  destruct Hc as (nc & Hin & Hl).
  assert (Hf : In nc (filter (labelled c) df)) by (apply filter_In; now split).
  rewrite IH by (intros x Hx; apply H; now right).
  destruct (filter (labelled c) df) as [| m ms]; [contradiction |].
  reflexivity.
Qed.

Lemma filter_labelled_unique c df :
  NoDup (List.map fst df) -> has_column c df = true ->
  exists cells, filter (labelled c) df = [(c, cells)].
Proof.
  induction df as [| [l cells] df IH]; intros Hnd Hc; [discriminate |].
  cbn [List.map fst] in Hnd. inversion Hnd as [| ? ? Hout Hnd']; subst.
  cbn [filter]. unfold labelled at 1. cbn [fst].
  destruct (Normalizer.str_eqb l c) eqn:E.
  - apply str_eqb_eq in E. subst l. exists cells. f_equal.
    apply Warehouse.filter_none. intros nc Hnc. unfold labelled.
    destruct (Normalizer.str_eqb (fst nc) c) eqn:E'; [| reflexivity].
    apply str_eqb_eq in E'. exfalso. apply Hout. rewrite <- E'.
    now apply in_map.
  - apply IH; [assumption |].
    unfold has_column in Hc. cbn [existsb] in Hc. unfold labelled at 1 in Hc.
    cbn [fst] in Hc. now rewrite E in Hc.
Qed.

Lemma select_labels cols df :
  NoDup (List.map fst df) ->
  (forall c, In c cols -> has_column c df = true) ->
  List.map fst (flat_map (fun c => filter (labelled c) df) cols) = cols.
Proof.
  intros Hnd. induction cols as [| c cols IH]; intros Hall; [reflexivity |].
  cbn [flat_map].
  destruct (filter_labelled_unique c df Hnd) as (cells & ->);
    [apply Hall; now left |].
  cbn [app List.map fst]. f_equal.
  apply IH. intros c' Hc'. apply Hall. now right.
Qed.

(** X4. Columns that the input lacks are made up as all-null columns and
    nothing fails: after the loop over a list of labels, the frame is the
    one before it followed by new columns, each all [None], each for a label
    that was missing; the columns that were there keep their cells and
    their places; and selecting the labels of the list raises no
    [KeyError]: it returns, label after label, the columns of the frame
    that carry the label, at least one each, and exactly the labels of the
    list in their order when no label occurs twice in the frame. *)
Theorem synthesize_then_select (rows : nat) (cols : list Py.str) (df : frame) :
  let df' := synthesize rows cols df in
  (exists added,
      df' = df ++ added /\
      forall nc, In nc added ->
                 snd nc = repeat Py.VNone rows /\
                 has_column (fst nc) df = false /\ In (fst nc) cols) /\
  select cols df' = Some (flat_map (fun c => filter (labelled c) df') cols) /\
  (forall c, In c cols -> filter (labelled c) df' <> []) /\
  (NoDup (List.map fst df') ->
   exists sel, select cols df' = Some sel /\ List.map fst sel = cols /\
               incl sel df').
Proof.
  cbv zeta.
  destruct (synthesize_spec rows cols df) as (added & Heq & Hadded & Hall).
  rewrite Heq.
  assert (Hsel := select_present cols (df ++ added) Hall).
  split; [exists added; split; [reflexivity | assumption] |].
  split; [exact Hsel |]. split.
  - intros c Hc. specialize (Hall c Hc).
    unfold has_column in Hall. apply existsb_exists in Hall.
    destruct Hall as (nc & Hin & Hl).
    assert (Hf : In nc (filter (labelled c) (df ++ added)))
      by (apply filter_In; now split).
    intros E. now rewrite E in Hf.
  - intros Hnd. eexists. split; [exact Hsel |]. split.
    + now apply select_labels.
    + intros nc Hnc. apply in_flat_map in Hnc.
      destruct Hnc as (c & _ & Hnc). now apply filter_In in Hnc.
Qed.

(** Without the loop, a label that no column carries is a [KeyError]; a
    label that a column carries selects that column. *)
Example select_missing_label :
  select [Py.lit "sku"] [(Py.lit "masterSku", [Py.VNaN])] = None /\
  select [Py.lit "sku"]
    [(Py.lit "sku", [Py.VNaN]); (Py.lit "masterSku", [Py.VNone])]
  = Some [(Py.lit "sku", [Py.VNaN])].
Proof. split; reflexivity. Qed.

End Frame.

(* ------------------------------------------------------------------ *)
(** ** Cleaning of the key fields *)

Module Cleaning.
Import PyText Regex.

(** *** State code *)

Definition is_AZ (c : Z) : bool := (65 <=? c) && (c <=? 90).
Definition is_az (c : Z) : bool := (97 <=? c) && (c <=? 122).
Definition is_ascii (c : Z) : bool := (0 <=? c) && (c <? 128).

Definition ascii_upper_char (c : Z) : Z := if is_az c then c - 32 else c.

(** [str.upper] on ASCII text. *)
Definition ascii_upper (s : Py.str) : Py.str := List.map ascii_upper_char s.

(** [[A-Z]{2}] *)
Definition state_re : re := Seq (Class is_AZ) (Class is_AZ).

(** Where [$] matches: at the end, or before a newline that ends the text. *)
Definition at_end (rest : Py.str) : bool :=
  match rest with
  | [] => true
  | [c] => c =? 10
  | _ => false
  end.

(** [re.match(r"^[A-Z]{2}$", s)] succeeds. *)
Definition match_state (s : Py.str) : bool := existsb at_end (matches state_re s).

Section StateCode.

(** [str.upper], whatever it does outside ASCII. *)
Variable upper : Py.str -> Py.str.
Hypothesis upper_ascii :
  forall s, forallb is_ascii s = true -> upper s = ascii_upper s.

(** [state_from_houseNo] on one cell, which is also what [main] does to a
    cell of the [State] column: text, stripped, upper-cased, kept if it is
    two capitals and null otherwise. *)
Definition state_from_houseNo (v : Py.value) : option Py.str :=
  let s2 := upper (strip (Py.format v)) in
  if match_state s2 then Some s2 else None.

(** The [state_code] column: from [State] if the frame has it, else from
    [houseNo], else null on each of the [rows] rows. *)
Definition state_code_column (rows : nat)
           (State houseNo : option (list Py.value)) : list (option Py.str) :=
  match State, houseNo with
  | Some col, _ => List.map state_from_houseNo col
  | None, Some col => List.map state_from_houseNo col
  | None, None => repeat None rows
  end.

End StateCode.

Lemma match_state_cases s :
  match_state s =
  match s with
  | a :: b :: rest => is_AZ a && is_AZ b && at_end rest
  | _ => false
  end.
Proof.
  unfold match_state, state_re. cbn [matches].
  destruct s as [| a [| b rest]]; [reflexivity | |].
  - cbn. now destruct (is_AZ a).
  - cbn [flat_map]. destruct (is_AZ a); [| reflexivity].
    cbn [flat_map app matches]. destruct (is_AZ b); [| reflexivity].
    cbn. now rewrite orb_false_r.
Qed.

Lemma upper_char_AZ c :
  is_ascii c = true -> is_AZ (ascii_upper_char c) = is_AZ c || is_az c.
Proof.
  unfold ascii_upper_char. unfold is_ascii, is_AZ, is_az. intros H.
  apply Bool.eq_true_iff_eq.
  destruct ((97 <=? c) && (c <=? 122)) eqn:E;
    rewrite ?orb_true_r, ?orb_false_r;
    split; intros; first [assumption | reflexivity | lia].
Qed.

Lemma upper_char_space c :
  isspace c = false -> (ascii_upper_char c =? 10) = false.
Proof.
  unfold ascii_upper_char. unfold isspace, is_az. intros H.
  apply Z.eqb_neq.
  destruct ((97 <=? c) && (c <=? 122)) eqn:E; lia.
Qed.

Lemma forallb_incl {A} (p : A -> bool) (l l' : list A) :
  (forall x, In x l -> In x l') -> forallb p l' = true -> forallb p l = true.
Proof.
  intros Hincl H. rewrite forallb_forall in *. auto.
Qed.

(** X5. On an ASCII cell, the state code is the stripped text in capitals
    when that text is exactly two letters, and null in every other case:
    a staged state code is null or two capital letters. *)
Theorem state_code_two_letters (upper : Py.str -> Py.str) (t : Py.str) :
  (forall s, forallb is_ascii s = true -> upper s = ascii_upper s) ->
  forallb is_ascii t = true ->
  state_from_houseNo upper (Py.VStr t) =
  match strip t with
  | [a; b] =>
      if (is_AZ a || is_az a) && (is_AZ b || is_az b)
      then Some [ascii_upper_char a; ascii_upper_char b]
      else None
  | _ => None
  end.
Proof.
  intros Hupper Hascii. unfold state_from_houseNo. cbn [Py.format].
  assert (Hs : forallb is_ascii (strip t) = true)
    by (apply (forallb_incl _ _ t); [apply strip_incl | exact Hascii]).
  rewrite (Hupper _ Hs), match_state_cases.
  pose proof (strip_trimmed t) as Htrim.
  destruct (strip t) as [| a [| b [| c rest]]]; try reflexivity.
  - cbn [ascii_upper List.map at_end forallb] in *.
    apply andb_prop in Hs. destruct Hs as [Ha Hs].
    apply andb_prop in Hs. destruct Hs as [Hb _].
    rewrite (upper_char_AZ a Ha), (upper_char_AZ b Hb), andb_true_r.
    reflexivity.
  - cbn [ascii_upper List.map at_end].
    destruct (List.map ascii_upper_char rest) as [| d rest'] eqn:E.
    + destruct rest; [| discriminate].
      cbn [trimmed] in Htrim. apply andb_prop in Htrim.
      destruct Htrim as [_ Hlast]. cbn [last] in Hlast.
      apply negb_true_iff in Hlast.
      rewrite (upper_char_space c Hlast), andb_false_r. reflexivity.
    + now rewrite andb_false_r.
Qed.

Lemma state_code_two_letters_witness :
  state_from_houseNo ascii_upper (Py.VStr (Py.lit "  tx ")) = Some (Py.lit "TX").
Proof.
  apply (state_code_two_letters ascii_upper (Py.lit "  tx ")).
  - intros s _. reflexivity.
  - reflexivity.
Defined.

Example state_from_houseNo_samples :
  state_from_houseNo ascii_upper (Py.VStr (Py.lit "ca")) = Some (Py.lit "CA") /\
  state_from_houseNo ascii_upper (Py.VStr (Py.lit "California")) = None /\
  state_from_houseNo ascii_upper (Py.VStr (Py.lit "C1")) = None /\
  state_from_houseNo ascii_upper Py.VNaN = None /\
  state_from_houseNo ascii_upper Py.VNone = None.
Proof. repeat split; reflexivity. Qed.

(** *** Product key *)

(** [.fillna("").astype(str)] on a cell of a column of strings. *)
Definition fillna_empty (v : Py.value) : Py.str :=
  match v with
  | Py.VStr s => s
  | _ => []
  end.

(** [product_key], lines 240-242 of [main]: the stripped [masterSku], or
    the stripped [sku] where that is empty, or null where both are. *)
Definition product_key (masterSku sku : Py.value) : option Py.str :=
  let k := strip (fillna_empty masterSku) in
  let k := match k with
           | [] => strip (fillna_empty sku)
           | _ => k
           end in
  match k with
  | [] => None
  | _ => Some k
  end.

(** X6. A product key is never the empty text and never starts or ends
    with a blank: it is the stripped [masterSku] when that is not empty,
    else the stripped [sku] when that is not empty, and null only when both
    are missing or blank. *)
Theorem product_key_trimmed_or_null (masterSku sku : Py.value) :
  match product_key masterSku sku with
  | Some k =>
      k <> [] /\ strip k = k /\
      (k = strip (fillna_empty masterSku)
       \/ (strip (fillna_empty masterSku) = []
           /\ k = strip (fillna_empty sku)))
  | None =>
      strip (fillna_empty masterSku) = [] /\ strip (fillna_empty sku) = []
  end.
Proof.
  unfold product_key; cbv zeta.
  destruct (strip (fillna_empty masterSku)) as [| a m] eqn:Em.
  - destruct (strip (fillna_empty sku)) as [| b s] eqn:Es.
    + split; reflexivity.
    + split; [discriminate |]. split.
      * rewrite <- Es. apply strip_idempotent.
      * right. split; reflexivity.
  - split; [discriminate |]. split.
    + rewrite <- Em. apply strip_idempotent.
    + now left.
Qed.

Example product_key_samples :
  product_key (Py.VStr (Py.lit " A-1 ")) (Py.VStr (Py.lit "B-2"))
    = Some (Py.lit "A-1") /\
  product_key (Py.VStr (Py.lit "   ")) (Py.VStr (Py.lit "B-2 "))
    = Some (Py.lit "B-2") /\
  product_key Py.VNaN (Py.VStr (Py.lit "B-2")) = Some (Py.lit "B-2") /\
  product_key Py.VNaN Py.VNone = None /\
  product_key (Py.VStr (Py.lit " ")) (Py.VStr []) = None.
Proof. repeat split; reflexivity. Qed.

End Cleaning.

(* ------------------------------------------------------------------ *)
(** ** The staging load *)

Module Staging.

(** The column types of [stg_order_export_raw]. *)
Inductive sql_type :=
| VARCHAR (n : nat)
| CHAR (n : nat)
| DATETIME2
| INT
| BIGINT
| FLOAT.
Arguments VARCHAR n%_nat.
Arguments CHAR n%_nat.

(** The table as [main] creates it. *)
Definition stg_order_export_raw_columns : list (string * sql_type) :=
  [
   ("orderNo", VARCHAR 100); ("orderType", VARCHAR 100); ("orderRealStatus", VARCHAR 50);
   ("platformOrderNo", VARCHAR 100); ("commercePlatform", VARCHAR 50); ("name", VARCHAR 255);
   ("country", VARCHAR 50); ("city", VARCHAR 120); ("postalCode", VARCHAR 20);
   ("contactNo", VARCHAR 60); ("urgent_orders", VARCHAR 50); ("oneReference", VARCHAR 120);
   ("twoReference", VARCHAR 120); ("oneAddress", VARCHAR 255); ("twoAddress", VARCHAR 255);
   ("houseNo", VARCHAR 50); ("masterSku", VARCHAR 100); ("email", VARCHAR 255);
   ("companyName", VARCHAR 255); ("volume", VARCHAR 50); ("actualWeight", VARCHAR 50);
   ("serviceProvider", VARCHAR 50); ("trackNo", VARCHAR 60); ("expressDeliveryService", VARCHAR 100);
   ("outBoundSource", VARCHAR 100); ("logisticsStatus", VARCHAR 120); ("trackNoReason", VARCHAR 255);
   ("createTime", DATETIME2); ("submitTime", DATETIME2); ("deliveryTime", DATETIME2);
   ("pickingTime", DATETIME2); ("sku", VARCHAR 120); ("batch_number", VARCHAR 120);
   ("serial_number", VARCHAR 120); ("goodsNumber", INT); ("inventory_type", VARCHAR 120);
   ("length", VARCHAR 50); ("width", VARCHAR 50); ("high", VARCHAR 50);
   ("remarks", VARCHAR 255); ("customer_id", BIGINT); ("state_code", CHAR 2);
   ("volume_num", FLOAT); ("actualWeight_num", FLOAT); ("product_key", VARCHAR 120);
   ("load_ts", DATETIME2)
  ]%string.

(** The columns [main] writes, in the order of the INSERT. *)
Definition staging_cols : list string :=
  [
   "orderNo"; "orderType"; "orderRealStatus";
   "platformOrderNo"; "commercePlatform"; "name";
   "country"; "city"; "postalCode";
   "contactNo"; "urgent_orders"; "oneReference";
   "twoReference"; "oneAddress"; "twoAddress";
   "houseNo"; "masterSku"; "email";
   "companyName"; "volume"; "actualWeight";
   "serviceProvider"; "trackNo"; "expressDeliveryService";
   "outBoundSource"; "logisticsStatus"; "trackNoReason";
   "createTime"; "submitTime"; "deliveryTime";
   "pickingTime"; "sku"; "batch_number";
   "serial_number"; "goodsNumber"; "inventory_type";
   "length"; "width"; "high";
   "remarks"; "customer_id"; "state_code";
   "volume_num"; "actualWeight_num"; "product_key"
  ]%string.

(** The widths [main] cuts the text columns to. *)
Definition col_max_map : list (string * nat) :=
  [
   ("orderNo", 100%nat); ("orderType", 100%nat); ("orderRealStatus", 50%nat);
   ("platformOrderNo", 100%nat); ("commercePlatform", 50%nat); ("name", 255%nat);
   ("country", 50%nat); ("city", 120%nat); ("postalCode", 20%nat);
   ("contactNo", 60%nat); ("urgent_orders", 50%nat); ("oneReference", 120%nat);
   ("twoReference", 120%nat); ("oneAddress", 255%nat); ("twoAddress", 255%nat);
   ("houseNo", 50%nat); ("masterSku", 100%nat); ("email", 255%nat);
   ("companyName", 255%nat); ("volume", 50%nat); ("actualWeight", 50%nat);
   ("serviceProvider", 50%nat); ("trackNo", 60%nat); ("expressDeliveryService", 100%nat);
   ("outBoundSource", 100%nat); ("logisticsStatus", 120%nat); ("trackNoReason", 255%nat);
   ("sku", 120%nat); ("batch_number", 120%nat); ("serial_number", 120%nat);
   ("inventory_type", 120%nat); ("length", 50%nat); ("width", 50%nat);
   ("high", 50%nat); ("remarks", 255%nat); ("state_code", 2%nat);
   ("product_key", 120%nat)
  ]%string.

Fixpoint lookup {V} (k : string) (m : list (string * V)) : option V :=
  match m with
  | [] => None
  | (k', v) :: m' => if String.eqb k' k then Some v else lookup k m'
  end.

(** The width of a text column in the table. *)
Definition char_width (ty : sql_type) : option nat :=
  match ty with
  | VARCHAR n => Some n
  | CHAR n => Some n
  | _ => None
  end.

(** [.astype(str).str.slice(0, max_len)] on the cells that are not null. *)
Definition slice (max_len : nat) (v : Py.value) : Py.value :=
  match v with
  | Py.VStr s => Py.VStr (firstn max_len s)
  | _ => v
  end.

(** The cell of column [col] after the truncation loop. *)
Definition truncate_cell (col : string) (v : Py.value) : Py.value :=
  match lookup col col_max_map with
  | Some max_len => slice max_len v
  | None => v
  end.

(** Length, in characters, of what the cell holds; a null has none. *)
Definition fits (n : nat) (v : Py.value) : Prop :=
  match v with
  | Py.VStr s => (List.length s <= n)%nat
  | _ => True
  end.

(** Every text column of the table has its declared width in the map. *)
Lemma col_max_map_agrees col ty n :
  In (col, ty) stg_order_export_raw_columns ->
  char_width ty = Some n ->
  lookup col col_max_map = Some n.
Proof.
  intros Hin Hw. cbn in Hin.
  repeat (destruct Hin as [Hin | Hin];
          [injection Hin as <- <-; first [discriminate Hw
             | injection Hw as <-; reflexivity] |]).
  contradiction.
Qed.

(** X7. The truncation loop makes every text cell fit the declared width of
    its column of [stg_order_export_raw] (the map of widths agrees with the
    table on every VARCHAR and CHAR column): a longer text is cut to its
    first characters, a text within the width and a null are left as they
    are. The columns written are the columns of the table, in order, the
    defaulted [load_ts] apart. *)
Theorem truncate_cell_fits (col : string) (ty : sql_type) (n : nat)
        (v : Py.value) :
  In (col, ty) stg_order_export_raw_columns ->
  char_width ty = Some n ->
  fits n (truncate_cell col v) /\
  truncate_cell col v = slice n v /\
  (fits n v -> truncate_cell col v = v) /\
  List.map fst stg_order_export_raw_columns = staging_cols ++ ["load_ts"%string].
Proof.
  intros Hin Hw. unfold truncate_cell.
  rewrite (col_max_map_agrees col ty n Hin Hw).
  split; [| split; [reflexivity | split; [| reflexivity]]].
  - destruct v; cbn; auto. rewrite length_firstn. lia.
  - destruct v; cbn; auto. intros H. now rewrite firstn_all2.
Qed.

Lemma truncate_cell_fits_witness :
  fits 20 (truncate_cell "postalCode"
             (Py.VStr (Py.lit "90001-1234 and then some more text"))).
Proof.
  apply (truncate_cell_fits "postalCode" (VARCHAR 20) 20).
  - cbn. tauto.
  - reflexivity.
Defined.

End Staging.

(* ------------------------------------------------------------------ *)
(** ** More on the extracted numbers and on the hashed key *)

Module Units.
Import Regex Normalizer.

Lemma span_digits_fst s : forallb is_digit (fst (span_digits s)) = true.
Proof.
  induction s as [| c s IH]; [reflexivity |].
  cbn [span_digits]. destruct (is_digit c) eqn:E; [| reflexivity].
  destruct (span_digits s) as [ds r]. cbn [fst forallb] in *.
  now rewrite E, IH.
Qed.

(** A run of digits stops at a character that is no digit. *)
Lemma span_digits_stop i c r :
  forallb is_digit i = true -> is_digit c = false ->
  span_digits (i ++ c :: r) = (i, c :: r).
Proof.
  intros Hi Hc. induction i as [| d i IH].
  - cbn [app span_digits]. now rewrite Hc.
  - cbn [forallb] in Hi. apply andb_prop in Hi. destruct Hi as [Hd Hi].
    cbn [app span_digits]. now rewrite Hd, (IH Hi).
Qed.

Lemma digits_value_from acc ds :
  0 <= acc -> forallb is_digit ds = true ->
  0 <= fold_left (fun a c => 10 * a + (c - 48)) ds acc.
Proof.
  revert acc. induction ds as [| d ds IH]; intros acc Hacc Hds; [exact Hacc |].
  cbn [forallb] in Hds. apply andb_prop in Hds. destruct Hds as [Hd Hds].
  cbn [fold_left]. apply IH; [| exact Hds]. unfold is_digit in Hd. lia.
Qed.

Lemma digits_value_nonneg ds : forallb is_digit ds = true -> 0 <= digits_value ds.
Proof. apply digits_value_from. lia. Qed.

(** The shape of a numeral: digits, or digits, a dot and digits. *)
Definition well_formed (n : Py.str) : Prop :=
  exists i, i <> [] /\ forallb is_digit i = true /\
    (n = i \/
     exists f, f <> [] /\ forallb is_digit f = true /\ n = i ++ 46 :: f).

Lemma numeral_at_well_formed s n : numeral_at s = Some n -> well_formed n.
Proof.
  unfold numeral_at. pose proof (span_digits_fst s) as Hi.
  destruct (span_digits s) as [i r]. cbn [fst] in Hi.
  destruct i as [| d i]; [discriminate |].
  assert (Hne : d :: i <> []) by discriminate.
  destruct r as [| c r'].
  - intros [= <-]. exists (d :: i). repeat split; auto.
  - destruct (is_dot c) eqn:Hc.
    + pose proof (span_digits_fst r') as Hf.
      destruct (fst (span_digits r')) as [| e f].
      * intros [= <-]. exists (d :: i). repeat split; auto.
      * intros [= <-]. exists (d :: i). split; [exact Hne |].
        split; [exact Hi |]. right. exists (e :: f).
        unfold is_dot in Hc. apply Z.eqb_eq in Hc. subst c.
        repeat split; [discriminate | exact Hf].
    + intros [= <-]. exists (d :: i). repeat split; auto.
Qed.

Lemma leading_numeral_well_formed s n :
  leading_numeral s = Some n -> well_formed n.
Proof.
  induction s as [| c s IH]; cbn [leading_numeral].
  - destruct (numeral_at []) eqn:E; [| discriminate].
    intros [= <-]. now apply numeral_at_well_formed in E.
  - destruct (numeral_at (c :: s)) eqn:E; [| exact IH].
    intros [= <-]. now apply numeral_at_well_formed in E.
Qed.

Lemma to_float_nonneg n : well_formed n -> 0 <= Qnum (to_float n).
Proof.
  intros (i & Hne & Hi & [-> | (f & Hfne & Hf & ->)]); unfold to_float.
  - rewrite span_digits_all by exact Hi. cbn [Qnum].
    now apply digits_value_nonneg.
  - rewrite span_digits_stop by (auto; reflexivity). cbn [Qnum].
    apply digits_value_nonneg. rewrite forallb_app. now rewrite Hi, Hf.
Qed.

(** X8. What [strip_units_to_float] extracts is always a plain numeral
    (digits, or digits, a dot and digits: no sign, no exponent, no leading
    or trailing dot), so a volume or weight read from a cell is never
    negative, whatever the cell holds. *)
Theorem strip_units_to_float_nonneg (v : Py.value) :
  match leading_numeral (Py.format v), strip_units_to_float v with
  | Some n, Some q => well_formed n /\ q = to_float n /\ (0 <= q)%Q
  | None, None => True
  | _, _ => False
  end.
Proof.
  unfold strip_units_to_float. rewrite search_numeral.
  destruct (leading_numeral (Py.format v)) as [n |] eqn:E; cbn [option_map];
    [| exact I].
  apply leading_numeral_well_formed in E.
  split; [exact E |]. split; [reflexivity |].
  unfold Qle. cbn [Qnum Qden]. pose proof (to_float_nonneg n E). lia.
Qed.

End Units.

Module KeyText.

Definition is_ascii (c : Z) : bool := c <? 128.

Lemma encode_ascii s :
  forallb is_ascii s = true -> Py.encode_utf8_ignore s = s.
Proof.
  induction s as [| c s IH]; [reflexivity |].
  cbn [forallb]. intros H. apply andb_prop in H. destruct H as [Hc Hs].
  unfold Py.encode_utf8_ignore in *. cbn [flat_map]. rewrite (IH Hs).
  unfold Py.utf8_char. unfold is_ascii in Hc.
  assert (E : (c <? 0x80) = true) by lia. now rewrite E.
Qed.

(** Two texts cut at their first bar are equal piece by piece. *)
Lemma app_bar_inj (x : Z) (a a' b b' : Py.str) :
  ~ In x a -> ~ In x a' -> a ++ x :: b = a' ++ x :: b' -> a = a' /\ b = b'.
Proof.
  revert a'. induction a as [| c a IH]; intros a' Ha Ha' E.
  - destruct a' as [| c' a'].
    + cbn in E. injection E as ->. now split.
    + cbn in E. injection E as <- _. exfalso. apply Ha'. now left.
  - destruct a' as [| c' a'].
    + cbn in E. injection E as -> _. exfalso. apply Ha. now left.
    + cbn in E. injection E as <- E.
      destruct (IH a') as [-> ->]; auto.
      * intros H. apply Ha. now right.
      * intros H. apply Ha'. now right.
Qed.

Lemma raw_key_fields (name addr postal name' addr' postal' : Py.str) :
  forallb is_ascii (name ++ addr ++ postal) = true ->
  forallb is_ascii (name' ++ addr' ++ postal') = true ->
  ~ In 124 name -> ~ In 124 addr -> ~ In 124 name' -> ~ In 124 addr' ->
  Identity.raw_key (Py.VStr name) (Py.VStr addr) (Py.VStr postal)
  = Identity.raw_key (Py.VStr name') (Py.VStr addr') (Py.VStr postal') ->
  name = name' /\ addr = addr' /\ postal = postal'.
Proof.
  intros Hasc Hasc' Hn Ha Hn' Ha' E.
  unfold Identity.raw_key in E. cbn [Py.format] in E.
  rewrite !forallb_app in Hasc, Hasc'.
  apply andb_prop in Hasc. destruct Hasc as [H1 H23].
  apply andb_prop in H23. destruct H23 as [H2 H3].
  apply andb_prop in Hasc'. destruct Hasc' as [H1' H23'].
  apply andb_prop in H23'. destruct H23' as [H2' H3'].
  rewrite !encode_ascii in E
    by (rewrite !forallb_app; cbn; now rewrite ?H1, ?H2, ?H3, ?H1', ?H2', ?H3').
  change (Py.lit "|") with [124] in E. cbn [app] in E.
  apply app_bar_inj in E; [| assumption | assumption].
  destruct E as [-> E]. apply app_bar_inj in E; [| assumption | assumption].
  destruct E as [-> ->]. repeat split.
Qed.

(** X9. On ASCII fields with no bar in the name and in the address, the
    text that is hashed determines the three fields: two different triples
    are hashed from different bytes, and only a collision of the digest
    can give them one customer_id. *)
Theorem raw_key_injective (name addr postal name' addr' postal' : Py.str) :
  forallb is_ascii (name ++ addr ++ postal) = true ->
  forallb is_ascii (name' ++ addr' ++ postal') = true ->
  ~ In 124 name -> ~ In 124 addr -> ~ In 124 name' -> ~ In 124 addr' ->
  (name, addr, postal) <> (name', addr', postal') ->
  Identity.raw_key (Py.VStr name) (Py.VStr addr) (Py.VStr postal)
  <> Identity.raw_key (Py.VStr name') (Py.VStr addr') (Py.VStr postal').
Proof.
  intros Hasc Hasc' Hn Ha Hn' Ha' Hdiff E. apply Hdiff.
  destruct (raw_key_fields _ _ _ _ _ _ Hasc Hasc' Hn Ha Hn' Ha' E)
    as (-> & -> & ->).
  reflexivity.
Qed.

Lemma raw_key_injective_witness :
  Identity.raw_key (Py.VStr (Py.lit "Ann Lee")) (Py.VStr (Py.lit "1 Main St"))
                   (Py.VStr (Py.lit "90001"))
  <> Identity.raw_key (Py.VStr (Py.lit "Ann")) (Py.VStr (Py.lit "Lee 1 Main St"))
                      (Py.VStr (Py.lit "90001")).
Proof.
  apply raw_key_injective; try reflexivity; try discriminate;
    cbn; intros H; repeat (destruct H as [H | H]; [discriminate H |]); exact H.
Defined.

End KeyText.

(* ------------------------------------------------------------------ *)
(** ** The steps of [main] together *)

Module Pipeline.
Import Sql Warehouse.

(** *** Steps 4 and 5 only append *)

Lemma upsert_dim_platform_appends d :
  exists rows n,
    upsert_dim_platform d
    = Committed (set_dim_platform d (dim_platform d ++ rows) n) /\
    List.map Platform.platform_name rows
    = new_platforms (stg_order_export_raw d) (dim_platform d).
Proof.
  unfold upsert_dim_platform; cbv zeta.
  set (names := new_platforms (stg_order_export_raw d) (dim_platform d)).
  set (rows := with_identity Platform.mk (platform_identity d) names).
  assert (Hrows : List.map Platform.platform_name rows = names)
    by (apply with_identity_map; reflexivity).
  unfold insert_checked. rewrite Hrows.
  unfold names at 1. rewrite new_platforms_keys, new_keys_fresh.
  exists rows, (platform_identity d + Z.of_nat (List.length names)).
  split; [reflexivity | exact Hrows].
Qed.

Definition no_attributes (p : Product.row) : Prop :=
  Product.english_name p = None /\ Product.chinese_name p = None /\
  Product.customer_code p = None /\ Product.category p = None.

Lemma with_identity_Forall {A R} (mk : Z -> A -> R) (P : R -> Prop) :
  (forall i a, P (mk i a)) -> forall next l, Forall P (with_identity mk next l).
Proof.
  intros H next l. revert next.
  induction l as [| a l IH]; intros next; cbn; constructor; auto.
Qed.

Lemma upsert_dim_product_appends d :
  exists rows n,
    upsert_dim_product d
    = Committed (set_dim_product d (dim_product d ++ rows) n) /\
    List.map Product.main_sku_code rows
    = new_products (stg_order_export_raw d) (dim_product d) /\
    Forall no_attributes rows.
Proof.
  unfold upsert_dim_product; cbv zeta.
  set (keys := new_products (stg_order_export_raw d) (dim_product d)).
  set (rows := with_identity (fun id k => Product.mk id k None None None None)
                             (product_identity d) keys).
  assert (Hrows : List.map Product.main_sku_code rows = keys)
    by (apply with_identity_map; reflexivity).
  unfold insert_checked. rewrite Hrows.
  unfold keys at 1. rewrite new_products_keys, new_keys_fresh.
  exists rows, (product_identity d + Z.of_nat (List.length keys)).
  split; [reflexivity |]. split; [exact Hrows |].
  apply with_identity_Forall. intros i a. repeat split.
Qed.

(** What step 6 leaves of the rest of the database. *)
Lemma upsert_dim_customer_frame ch d :
  let d' := final (upsert_dim_customer ch d) in
  stg_order_export_raw d' = stg_order_export_raw d /\
  dim_platform d' = dim_platform d /\ dim_product d' = dim_product d /\
  dim_date d' = dim_date d /\ fact_sales d' = fact_sales d.
Proof.
  cbv zeta. unfold upsert_dim_customer; cbv zeta.
  destruct (insert_checked _ _ _ _); cbn; repeat split.
Qed.

(** X10. Steps 4 and 5 never raise and only append: after steps 4 to 6,
    however step 6 ends, [dim_platform] is what it was followed by one row
    per new platform name of the batch, and [dim_product] is what it was
    followed by one row per new product key, with every attribute null;
    no stored platform or product row is changed or removed, and staging,
    dates and facts are left alone. *)
Theorem upsert_dimensions_appends (ch : chooser staged_customer) (d : db) :
  let d1 := final (upsert_dimensions ch d) in
  exists ps qs,
    dim_platform d1 = dim_platform d ++ ps /\
    List.map Platform.platform_name ps
    = new_platforms (stg_order_export_raw d) (dim_platform d) /\
    dim_product d1 = dim_product d ++ qs /\
    List.map Product.main_sku_code qs
    = new_products (stg_order_export_raw d) (dim_product d) /\
    Forall no_attributes qs /\
    stg_order_export_raw d1 = stg_order_export_raw d /\
    dim_date d1 = dim_date d /\ fact_sales d1 = fact_sales d.
Proof.
  cbv zeta.
  destruct (upsert_dim_platform_appends d) as (ps & nA & HA & Hps).
  destruct (upsert_dim_product_appends (set_dim_platform d (dim_platform d ++ ps) nA))
    as (qs & nB & HB & Hqs & Hnull).
  exists ps, qs. unfold upsert_dimensions. rewrite HA. cbn [and_then].
  rewrite HB. cbn [and_then].
  destruct (upsert_dim_customer_frame ch
              (set_dim_product
                 (set_dim_platform d (dim_platform d ++ ps) nA)
                 (dim_product (set_dim_platform d (dim_platform d ++ ps) nA) ++ qs)
                 nB)) as (H1 & H2 & H3 & H4 & H5).
  rewrite H1, H2, H3, H4, H5. cbn in *.
  repeat split; assumption.
Qed.

(** *** Step 6 *)

Lemma update_customer_complete ch src c :
  Customer.state_code c <> None -> Customer.postal_code c <> None ->
  update_customer ch src c = c.
Proof.
  intros Hs Hp. unfold update_customer.
  destruct (Customer.state_code c); [| congruence].
  destruct (Customer.postal_code c); [| congruence].
  reflexivity.
Qed.

(** X11. The UPDATE of step 6 leaves alone a customer whose state and postal
    code are both set: after the step, however it ends, that row is in
    [dim_customer] as it was. *)
Theorem upsert_dim_customer_keeps_complete (ch : chooser staged_customer)
        (d : db) (c : Customer.row) :
  In c (dim_customer d) ->
  Customer.state_code c <> None -> Customer.postal_code c <> None ->
  In c (dim_customer (final (upsert_dim_customer ch d))).
Proof.
  intros Hin Hs Hp. unfold upsert_dim_customer; cbv zeta.
  destruct (insert_checked Z.eq_dec Customer.customer_id (dim_customer d)
              (new_customers (stg_order_export_raw d) (dim_customer d)))
    as [t |] eqn:E; cbn [final]; [| exact Hin].
  cbn [dim_customer set_dim_customer]. unfold update_dim_customer.
  apply in_map_iff. exists c. split.
  - now apply update_customer_complete.
  - unfold insert_checked in E. destruct (fresh _ _ _); [| discriminate].
    injection E as <-. apply in_or_app. now left.
Qed.

Lemma upsert_dim_customer_keeps_complete_witness :
  In (Customer.mk 42 (Some "Unknown") (Some "CA") (Some "90001"))%string
     (dim_customer
        (final (upsert_dim_customer first_match
                  (mk_db [staged_again] [] 1 [] 1
                     [Customer.mk 42 (Some "Unknown") (Some "CA")
                                  (Some "90001")]%string [] [] 1)))).
Proof.
  apply upsert_dim_customer_keeps_complete.
  - now left.
  - discriminate.
  - discriminate.
Defined.

(** Two elements with one key, in a list with no repetition. *)
Lemma distinct_false_pair {A K} (dec : forall a b : K, {a = b} + {a <> b})
      (f : A -> K) (l : list A) :
  NoDup l -> distinct dec (List.map f l) = false ->
  exists x y, In x l /\ In y l /\ x <> y /\ f x = f y.
Proof.
  induction l as [| a l IH]; intros Hnd H; [discriminate |].
  inversion Hnd as [| ? ? Hnotin Hnd']; subst.
  cbn [List.map distinct] in H. apply andb_false_iff in H.
  destruct H as [H | H].
  - apply negb_false_iff, mem_In, in_map_iff in H.
    destruct H as (y & Hy & Hin). exists a, y.
    repeat split; [now left | now right | | now symmetry].
    intros ->. contradiction.
  - destruct (IH Hnd' H) as (x & y & Hx & Hy & Hne & Hf).
    exists x, y. repeat split; auto; now right.
Qed.

Lemma NoDup_map_inj_on {A K} (f : A -> K) (l : list A) x y :
  NoDup (List.map f l) -> In x l -> In y l -> f x = f y -> x = y.
Proof.
  induction l as [| a l IH]; intros Hnd Hx Hy Hf; [contradiction |].
  cbn [List.map] in Hnd. inversion Hnd as [| ? ? Hnotin Hnd']; subst.
  destruct Hx as [-> | Hx], Hy as [-> | Hy]; auto.
  - exfalso. apply Hnotin. rewrite Hf. now apply in_map.
  - exfalso. apply Hnotin. rewrite <- Hf. now apply in_map.
Qed.

(** The rows that the INSERT of step 6 selects, before the constant gender
    is added. *)
Definition new_staged_customers (d : db) : list staged_customer :=
  nodup staged_customer_dec
    (filter
       (fun x => negb (mem Z.eq_dec (fst (fst x))
                           (List.map Customer.customer_id (dim_customer d))))
       (customer_columns (stg_order_export_raw d))).

Lemma new_customers_keys d :
  List.map Customer.customer_id
    (new_customers (stg_order_export_raw d) (dim_customer d))
  = List.map (fun x => fst (fst x)) (new_staged_customers d).
Proof.
  unfold new_customers, new_staged_customers. rewrite map_map.
  apply map_ext. intros [[c st] po]. reflexivity.
Qed.

Lemma new_staged_customers_In d x :
  In x (new_staged_customers d)
  <-> In x (customer_columns (stg_order_export_raw d))
      /\ ~ In (fst (fst x)) (List.map Customer.customer_id (dim_customer d)).
Proof.
  unfold new_staged_customers.
  rewrite nodup_In, filter_In, negb_true_iff, mem_false. reflexivity.
Qed.

(** X12. Step 6 raises, and is rolled back, exactly when the batch stages a
    customer_id that [dim_customer] does not have yet with two different
    (state_code, postalCode) pairs: the SELECT DISTINCT then yields two rows
    for one primary key. *)
Theorem upsert_dim_customer_rolls_back_iff (ch : chooser staged_customer)
        (d : db) :
  upsert_dim_customer ch d = RolledBack d
  <-> exists x y,
      In x (customer_columns (stg_order_export_raw d)) /\
      In y (customer_columns (stg_order_export_raw d)) /\
      x <> y /\ fst (fst x) = fst (fst y) /\
      ~ In (fst (fst x)) (List.map Customer.customer_id (dim_customer d)).
Proof.
  unfold upsert_dim_customer; cbv zeta. unfold insert_checked.
  rewrite new_customers_keys.
  assert (Hout : forallb
                   (fun k => negb (mem Z.eq_dec k
                                 (List.map Customer.customer_id (dim_customer d))))
                   (List.map (fun x => fst (fst x)) (new_staged_customers d))
                 = true).
  { apply forallb_forall. intros k Hk. apply in_map_iff in Hk.
    destruct Hk as (x & <- & Hx). apply new_staged_customers_In in Hx.
    now rewrite negb_true_iff, mem_false. }
  unfold fresh. rewrite Hout. cbn [andb].
  assert (Hnd : NoDup (new_staged_customers d))
    by (unfold new_staged_customers; apply NoDup_nodup).
  destruct (distinct Z.eq_dec
              (List.map (fun x => fst (fst x)) (new_staged_customers d)))
    eqn:E.
  - split; [discriminate |].
    intros (x & y & Hx & Hy & Hne & Hk & Hnew). exfalso. apply Hne.
    apply distinct_NoDup in E.
    apply (NoDup_map_inj_on (fun x => fst (fst x)) (new_staged_customers d));
      auto; apply new_staged_customers_In; split; auto.
    now rewrite <- Hk.
  - split; [intros _ | reflexivity].
    destruct (distinct_false_pair Z.eq_dec _ _ Hnd E)
      as (x & y & Hx & Hy & Hne & Hk).
    apply new_staged_customers_In in Hx, Hy.
    exists x, y. tauto.
Qed.

(** *** The date dimension in the run *)

Lemma not_matched_NoDup target src :
  NoDup (List.map DateDimension.date_id src) ->
  NoDup (List.map DateDimension.date_id (DateDimension.not_matched target src)).
Proof.
  induction src as [| a src IH]; intros Hn; [constructor |].
  cbn [List.map] in Hn. inversion Hn as [| ? ? Hnotin Hn']; subst.
  unfold DateDimension.not_matched. cbn [filter].
  fold (DateDimension.not_matched target src).
  destruct (negb _); [| now apply IH].
  cbn [List.map]. constructor; [| now apply IH].
  rewrite in_map_iff. intros (b & Hb & Hin).
  apply DateDimension.not_matched_spec in Hin. destruct Hin as [Hin _].
  apply Hnotin. rewrite <- Hb. now apply in_map.
Qed.

(** The MERGE of a frame never raises: the rows it inserts have keys that
    are new to the table and differ from one another. *)
Lemma ensure_dim_date_commits t lo hi :
  DateDimension.ensure_dim_date t (Some lo) (Some hi)
  = Committed (t ++ DateDimension.not_matched t (DateDimension.date_frame lo hi)).
Proof.
  cbn [DateDimension.ensure_dim_date].
  unfold DateDimension.merge_dim_date, insert_checked.
  assert (Hf : fresh Calendar.date_eq_dec (List.map DateDimension.date_id t)
                 (List.map DateDimension.date_id
                    (DateDimension.not_matched t (DateDimension.date_frame lo hi)))
               = true).
  { unfold fresh. rewrite andb_true_iff, forallb_forall, distinct_NoDup.
    split.
    - intros k Hk. rewrite negb_true_iff, mem_false.
      apply in_map_iff in Hk. destruct Hk as (a & <- & Ha).
      apply DateDimension.not_matched_spec in Ha. exact (proj2 Ha).
    - apply not_matched_NoDup, DateDimension.date_frame_NoDup. }
  rewrite Hf. reflexivity.
Qed.

(** After the MERGE every date of the frame is a key of the table. *)
Lemma merged_covers t src a :
  In a src ->
  In (DateDimension.date_id a)
     (List.map DateDimension.date_id (t ++ DateDimension.not_matched t src)).
Proof.
  intros Ha. rewrite map_app, in_app_iff.
  destruct (in_dec Calendar.date_eq_dec (DateDimension.date_id a)
                   (List.map DateDimension.date_id t)) as [Hin | Hout];
    [now left | right].
  apply in_map. apply DateDimension.not_matched_spec. now split.
Qed.

Lemma not_matched_all_present t src :
  (forall a, In a src ->
             In (DateDimension.date_id a) (List.map DateDimension.date_id t)) ->
  DateDimension.not_matched t src = [].
Proof.
  intros H. unfold DateDimension.not_matched. apply filter_none.
  intros a Ha. rewrite negb_false_iff. apply mem_In. now apply H.
Qed.

Lemma ensure_dim_date_again (t : list DateDimension.DatePoint)
      (min_date max_date : option Calendar.timestamp) :
  DateDimension.ensure_dim_date
    (final (DateDimension.ensure_dim_date t min_date max_date))
    min_date max_date
  = Committed (final (DateDimension.ensure_dim_date t min_date max_date)).
Proof.
  destruct min_date as [lo |], max_date as [hi |]; try reflexivity.
  rewrite (ensure_dim_date_commits t lo hi). cbn [final].
  rewrite ensure_dim_date_commits.
  set (src := DateDimension.date_frame lo hi).
  rewrite (not_matched_all_present (t ++ DateDimension.not_matched t src) src).
  - now rewrite app_nil_r.
  - intros a Ha. apply merged_covers. exact Ha.
Qed.

(** X13. [ensure_dim_date] never raises on a frame and is idempotent: the
    call commits, every day of the range is then a key of [dim_date], and a
    second call with the same bounds commits and leaves the table exactly
    as the first call left it. *)
Theorem ensure_dim_date_idempotent (t : list DateDimension.DatePoint)
        (min_date max_date : option Calendar.timestamp) :
  let t1 := final (DateDimension.ensure_dim_date t min_date max_date) in
  DateDimension.ensure_dim_date t min_date max_date = Committed t1 /\
  DateDimension.ensure_dim_date t1 min_date max_date = Committed t1 /\
  (forall lo hi a,
      min_date = Some lo -> max_date = Some hi ->
      In a (DateDimension.date_frame lo hi) ->
      In (DateDimension.date_id a) (List.map DateDimension.date_id t1)).
Proof.
  cbv zeta. split; [| split; [apply ensure_dim_date_again |]].
  - destruct min_date as [lo |], max_date as [hi |]; try reflexivity.
    now rewrite ensure_dim_date_commits.
  - intros lo hi a -> -> Ha. rewrite ensure_dim_date_commits. cbn [final].
    apply merged_covers. exact Ha.
Qed.

Lemma fold_min_le l : forall a,
  fold_left Z.min l a <= a /\ forall x, In x l -> fold_left Z.min l a <= x.
Proof.
  induction l as [| b l IH]; intros a; cbn [fold_left].
  - split; [lia | contradiction].
  - destruct (IH (Z.min a b)) as [H1 H2]. split; [lia |].
    intros x [<- | Hx]; [lia | now apply H2].
Qed.

Lemma fold_max_ge l : forall a,
  a <= fold_left Z.max l a /\ forall x, In x l -> x <= fold_left Z.max l a.
Proof.
  induction l as [| b l IH]; intros a; cbn [fold_left].
  - split; [lia | contradiction].
  - destruct (IH (Z.max a b)) as [H1 H2]. split; [lia |].
    intros x [<- | Hx]; [lia | now apply H2].
Qed.

Lemma not_null_In {A} (col : list (option A)) a :
  In (Some a) col <-> In a (not_null col).
Proof.
  unfold not_null. rewrite in_flat_map. split.
  - intros H. exists (Some a). split; [exact H | now left].
  - intros ([x |] & Hx & Hin); [| contradiction].
    destruct Hin as [<- | []]. exact Hx.
Qed.

(** A date of the column lies between its minimum and its maximum. *)
Lemma column_bounds col ts :
  In (Some ts) col ->
  exists lo hi, column_min col = Some lo /\ column_max col = Some hi /\
                lo <= ts <= hi.
Proof.
  intros H. apply not_null_In in H. unfold column_min, column_max.
  destruct (not_null col) as [| a l]; [contradiction |].
  exists (fold_left Z.min l a), (fold_left Z.max l a).
  split; [reflexivity |]. split; [reflexivity |].
  destruct (fold_min_le l a) as [Hm1 Hm2], (fold_max_ge l a) as [HM1 HM2].
  destruct H as [<- | H]; [lia |].
  split; [now apply Hm2 | now apply HM2].
Qed.

Lemma epoch_day_mono a b : a <= b -> Calendar.epoch_day a <= Calendar.epoch_day b.
Proof.
  intros H. unfold Calendar.epoch_day.
  apply Z.div_le_mono; [reflexivity | exact H].
Qed.

(** Step 7 commits, touches [dim_date] only, and leaves the date of every
    staged row in it. *)
Lemma ensure_dim_date_step_commits src d :
  exists t,
    ensure_dim_date_step src d = Committed (set_dim_date d t) /\
    (exists added, t = dim_date d ++ added) /\
    forall r ts, In r (stg_order_export_raw d) -> dt_col src r = Some ts ->
                 In (Calendar.date_of ts) (List.map DateDimension.date_id t).
Proof.
  unfold ensure_dim_date_step; cbv zeta.
  set (col := List.map (dt_col src) (stg_order_export_raw d)).
  destruct (column_min col) as [lo |] eqn:Emin.
  - destruct (column_max col) as [hi |] eqn:Emax.
    + rewrite ensure_dim_date_commits. eexists. split; [reflexivity |].
      split; [eauto |].
      intros r ts Hr Hts.
      assert (Hin : In (Some ts) col)
        by (unfold col; rewrite <- Hts; now apply in_map).
      destruct (column_bounds col ts Hin) as (lo' & hi' & H1 & H2 & Hb).
      rewrite Emin in H1. rewrite Emax in H2.
      injection H1 as <-. injection H2 as <-.
      assert (Hz : In (Calendar.epoch_day ts)
                      (DateDimension.days (Calendar.epoch_day lo)
                                          (Calendar.epoch_day hi))).
      { apply DateDimension.days_In.
        split; apply epoch_day_mono; lia. }
      assert (Hf : In (Calendar.date_of ts)
                      (List.map DateDimension.date_id
                                (DateDimension.date_frame lo hi))).
      { rewrite DateDimension.date_frame_ids. unfold Calendar.date_of.
        now apply in_map. }
      apply in_map_iff in Hf. destruct Hf as (a & Ha & Hina).
      rewrite <- Ha. apply merged_covers. exact Hina.
    + exfalso. unfold column_min, column_max in *.
      destruct (not_null col); discriminate.
  - cbn [DateDimension.ensure_dim_date].
    exists (dim_date d). split; [reflexivity |].
    split; [exists []; now rewrite app_nil_r |].
    intros r ts Hr Hts. exfalso.
    assert (Hin : In (Some ts) col)
      by (unfold col; rewrite <- Hts; now apply in_map).
    destruct (column_bounds col ts Hin) as (lo' & hi' & H1 & _).
    congruence.
Qed.

Lemma set_dim_date_same d : set_dim_date d (dim_date d) = d.
Proof. now destruct d. Qed.

Lemma ensure_dim_date_step_final src d :
  ensure_dim_date_step src d
  = Committed
      (set_dim_date d
         (final (DateDimension.ensure_dim_date (dim_date d)
                   (column_min (List.map (dt_col src) (stg_order_export_raw d)))
                   (column_max (List.map (dt_col src) (stg_order_export_raw d)))))).
Proof.
  unfold ensure_dim_date_step; cbv zeta.
  destruct (column_min _) as [lo |]; [| reflexivity].
  destruct (column_max _) as [hi |]; [| reflexivity].
  now rewrite ensure_dim_date_commits.
Qed.

(** *** Facts after the upserts *)

Lemma select_facts_dims src d d' r :
  dim_platform d = dim_platform d' -> dim_product d = dim_product d' ->
  select_facts src d r = select_facts src d' r.
Proof. intros H1 H2. unfold select_facts. now rewrite H1, H2. Qed.

(** Steps 4 to 6 as one step 6 on a database that has absorbed the
    platforms and products of the batch. *)
Lemma upsert_dimensions_as_customer_step ch d :
  exists d0,
    upsert_dimensions ch d = upsert_dim_customer ch d0 /\
    batch_absorbed d0 /\
    stg_order_export_raw d0 = stg_order_export_raw d /\
    dim_customer d0 = dim_customer d /\
    dim_date d0 = dim_date d /\ fact_sales d0 = fact_sales d /\
    fact_identity d0 = fact_identity d /\
    (keys_unique d -> keys_unique d0).
Proof.
  destruct (upsert_dim_platform_commits d) as (tA & nA & HA & HdoneA & HndA).
  destruct (upsert_dim_product_commits (set_dim_platform d tA nA))
    as (tB & nB & HB & HdoneB & HndB).
  exists (set_dim_product (set_dim_platform d tA nA) tB nB).
  split.
  { unfold upsert_dimensions. rewrite HA. cbn [and_then]. now rewrite HB. }
  split; [split; [exact HdoneA | exact HdoneB] |].
  repeat (split; [reflexivity |]).
  intros (H1 & H2 & H3). split; [apply HndA, H1 |].
  split; [apply HndB, H2 | exact H3].
Qed.

Lemma new_keys_absorbed existing staged n :
  new_keys existing staged = [] -> In (Some n) staged -> n <> ""%string ->
  In n existing.
Proof.
  intros Hnil Hin Hne.
  destruct (in_dec string_dec n existing) as [H | H]; [exact H |].
  exfalso. assert (Hnew : In n (new_keys existing staged)).
  { apply new_keys_In. split; [now apply not_null_In | split; assumption]. }
  rewrite Hnil in Hnew. contradiction.
Qed.

(** A staged row with the three keys set. *)
Definition has_keys (src : date_source) (r : Stg.row) : Prop :=
  dt_col src r <> None /\
  (exists n, Stg.commercePlatform r = Some n /\ n <> ""%string) /\
  (exists k, Stg.product_key r = Some k /\ k <> ""%string).

(** A staged row with a NULL in one of the three. *)
Definition lacks_key (src : date_source) (r : Stg.row) : Prop :=
  dt_col src r = None \/ Stg.commercePlatform r = None
  \/ Stg.product_key r = None.

(** X14. After steps 4 to 6, however step 6 ends, the join of step 8 gives
    exactly one fact row for every staged row that has a date, a platform
    name and a product key (the step-4 and step-5 inserts have made the
    names resolve), and none for a row with a NULL in one of the three. *)
Theorem one_fact_per_keyed_row (ch : chooser staged_customer)
        (src : date_source) (d : db) (r : Stg.row) :
  keys_unique d -> In r (stg_order_export_raw d) ->
  let d1 := final (upsert_dimensions ch d) in
  (has_keys src r -> List.length (select_facts src d1 r) = 1%nat) /\
  (lacks_key src r -> select_facts src d1 r = []).
Proof.
  intros Hk Hr. cbv zeta.
  destruct (upsert_dimensions_as_customer_step ch d)
    as (d0 & Hrun & [HP HQ] & Hstg & _ & _ & _ & _ & Hk0).
  specialize (Hk0 Hk). rewrite Hrun.
  destruct (upsert_dim_customer_frame ch d0) as (_ & Hpl & Hp & _ & _).
  rewrite (select_facts_dims src _ d0 r Hpl Hp).
  split.
  - intros (Hdt & (n & Hn & Hne) & (k & Hkey & Hkne)).
    rewrite <- Hstg in Hr.
    assert (Hin_n : In n (List.map Platform.platform_name (dim_platform d0))).
    { apply (new_keys_absorbed _ (List.map Stg.commercePlatform
                                          (stg_order_export_raw d0)));
        [exact HP | | exact Hne].
      rewrite <- Hn. now apply in_map. }
    assert (Hin_k : In k (List.map Product.main_sku_code (dim_product d0))).
    { apply (new_keys_absorbed _ (List.map Stg.product_key
                                          (stg_order_export_raw d0)));
        [exact HQ | | exact Hkne].
      rewrite <- Hkey. now apply in_map. }
    apply in_map_iff in Hin_n. destruct Hin_n as (pl & Hpln & Hplin).
    apply in_map_iff in Hin_k. destruct Hin_k as (p & Hpk & Hpin).
    assert (Hf : In (fact_of src r pl p) (select_facts src d0 r)).
    { apply select_facts_In. exists pl, p.
      split; [exact Hplin |]. split; [apply on_platform_true; congruence |].
      split; [exact Hpin |]. split; [apply on_product_true; congruence |].
      split; [exact Hdt | reflexivity]. }
    destruct Hk0 as (Hu1 & Hu2 & _).
    pose proof (select_facts_at_most_one src d0 r Hu1 Hu2) as Hle.
    destruct (select_facts src d0 r) as [| f [| f' fs]];
      [contradiction | reflexivity | cbn in Hle; lia].
  - intros Hlack.
    destruct (select_facts src d0 r) as [| f fs] eqn:E; [reflexivity |].
    assert (Hf : In f (select_facts src d0 r)) by (rewrite E; now left).
    apply select_facts_In in Hf.
    destruct Hf as (pl & p & _ & Hon & _ & Honp & Hdt & _).
    apply on_platform_true in Hon. apply on_product_true in Honp.
    destruct Hlack as [H | [H | H]]; congruence.
Qed.

Lemma one_fact_per_keyed_row_witness :
  List.length
    (select_facts FACT_DATE_SOURCE
       (final (upsert_dimensions first_match sample_db))
       (Stg.mk (Some "SO-1") (Some "Amazon") (Some "90001") None
               (Some DateDimension.sample_min) (Some 2) (Some 42)
               (Some "CA") (Some "SKU-1"))%string)
  = 1%nat.
Proof.
  apply (one_fact_per_keyed_row first_match FACT_DATE_SOURCE sample_db).
  - exact sample_db_keys_unique.
  - now left.
  - split; [discriminate |]. split.
    + exists "Amazon"%string. split; [reflexivity | discriminate].
    + exists "SKU-1"%string. split; [reflexivity | discriminate].
Defined.

(** *** A whole run *)

(** After a committed step 6 every staged customer_id is a key. *)
Lemma upsert_dim_customer_covers ch d a r c :
  upsert_dim_customer ch d = Committed a ->
  In r (stg_order_export_raw d) -> Stg.customer_id r = Some c ->
  In c (List.map Customer.customer_id (dim_customer a)).
Proof.
  unfold upsert_dim_customer; cbv zeta. unfold insert_checked.
  destruct (fresh _ _ _); [| discriminate].
  intros [= <-] Hr Hc. cbn [dim_customer set_dim_customer].
  rewrite update_dim_customer_ids, map_app, in_app_iff.
  destruct (in_dec Z.eq_dec c (List.map Customer.customer_id (dim_customer d)))
    as [Hin | Hout]; [now left | right].
  apply new_customers_In. split; [| exact Hout].
  exists (Stg.state_code r), (Stg.postalCode r).
  unfold customer_columns. apply in_flat_map. exists r.
  split; [exact Hr |]. rewrite Hc. now left.
Qed.

(** What a committed step 6 leaves: nothing of the batch to insert. *)
Lemma upsert_dim_customer_committed ch d a :
  upsert_dim_customer ch d = Committed a ->
  new_customers (stg_order_export_raw a) (dim_customer a) = [] /\
  stg_order_export_raw a = stg_order_export_raw d /\
  dim_platform a = dim_platform d /\ dim_product a = dim_product d /\
  dim_date a = dim_date d /\ fact_sales a = fact_sales d /\
  fact_identity a = fact_identity d.
Proof.
  intros H.
  destruct (upsert_dim_customer_cases ch d) as [Hfail | (t & Hok & Hdone & _)].
  - rewrite Hfail in H. discriminate.
  - rewrite Hok in H. injection H as <-.
    cbn [stg_order_export_raw dim_customer dim_platform dim_product dim_date
         fact_sales fact_identity set_dim_customer].
    split; [| repeat split].
    rewrite <- Hdone. apply new_customers_ids, update_dim_customer_ids.
Qed.

(** The steps of a run that committed. *)
Lemma main_steps_committed ch d d' :
  main_steps ch d = Committed d' ->
  exists a,
    upsert_dimensions ch d = Committed a /\
    let b := set_dim_date a
               (final (DateDimension.ensure_dim_date (dim_date a)
                  (column_min (List.map (dt_col FACT_DATE_SOURCE)
                                        (stg_order_export_raw a)))
                  (column_max (List.map (dt_col FACT_DATE_SOURCE)
                                        (stg_order_export_raw a))))) in
    insert_fact_sales FACT_DATE_SOURCE b = Committed d'.
Proof.
  unfold main_steps. destruct (upsert_dimensions ch d) as [a | a] eqn:E;
    cbn [and_then]; [| discriminate].
  rewrite ensure_dim_date_step_final. cbn [and_then]. intros H.
  exists a. split; [reflexivity | exact H].
Qed.

Lemma with_identity_In_cols next rows f :
  In f (with_identity Fact.mk next rows) -> In (Fact.cols f) rows.
Proof.
  intros H. rewrite <- (with_identity_cols next rows). now apply in_map.
Qed.

(** Every key of a fact row is a key of a dimension row. *)
Definition resolves (d : db) (f : Fact.selected) : Prop :=
  (exists pl, In pl (dim_platform d) /\
              Fact.platform_id f = Some (Platform.platform_id pl)) /\
  (exists p, In p (dim_product d) /\
             Fact.product_id f = Some (Product.product_id p)) /\
  (exists dp, In dp (dim_date d) /\
              Fact.date_id f = Some (DateDimension.date_id dp)) /\
  (forall c, Fact.customer_id f = Some c ->
             exists cu, In cu (dim_customer d) /\ Customer.customer_id cu = c) /\
  Fact.revenue f = 0.

Definition loads_resolved_facts (d d' : db) : Prop :=
  exists added,
    fact_sales d' = fact_sales d ++ added /\
    forall f, In f added -> resolves d' (Fact.cols f).

(** X15. Referential completeness of a run: when steps 4 to 8 commit, the
    facts that were there are kept, and every fact row added has a platform,
    a product and a date that are keys of rows of [dim_platform],
    [dim_product] and [dim_date] as the run leaves them, a customer_id (if
    not NULL) that is a key of [dim_customer], and revenue 0. *)
Theorem main_steps_facts_resolve (ch : chooser staged_customer) (d d' : db) :
  main_steps ch d = Committed d' -> loads_resolved_facts d d'.
Proof.
  intros Hrun.
  destruct (main_steps_committed ch d d' Hrun) as (a & Hups & Hins).
  cbv zeta in Hins.
  destruct (upsert_dimensions_as_customer_step ch d)
    as (d0 & Hcust & _ & Hstg0 & _ & _ & Hfacts0 & _ & _).
  rewrite Hcust in Hups.
  destruct (upsert_dim_customer_committed ch d0 a Hups)
    as (_ & Hstg & _ & _ & _ & Hfacts & _).
  destruct (ensure_dim_date_step_commits FACT_DATE_SOURCE a)
    as (t & Hstep & _ & Hcover).
  rewrite ensure_dim_date_step_final in Hstep. injection Hstep as Ht.
  rewrite Ht in Hins. clear Ht.
  unfold insert_fact_sales in Hins. cbv zeta in Hins. injection Hins as <-.
  cbn [fact_sales set_fact_sales set_dim_date stg_order_export_raw
       dim_platform dim_product dim_customer dim_date].
  eexists. split; [rewrite Hfacts, Hfacts0; reflexivity |].
  intros f Hf. apply with_identity_In_cols in Hf.
  apply in_flat_map in Hf. destruct Hf as (r & Hr & Hf).
  apply select_facts_In in Hf.
  destruct Hf as (pl & p & Hpl & _ & Hp & _ & Hdt & ->).
  cbn [dim_platform dim_product set_dim_date] in Hpl, Hp.
  unfold resolves, fact_of.
  cbn [Fact.platform_id Fact.product_id Fact.date_id Fact.customer_id
       Fact.revenue].
  split; [now exists pl |]. split; [now exists p |]. split.
  - destruct (dt_col FACT_DATE_SOURCE r) as [ts |] eqn:Ets; [| congruence].
    specialize (Hcover r ts Hr Ets).
    apply in_map_iff in Hcover. destruct Hcover as (dp & Hdp & Hin).
    exists dp. split; [exact Hin |]. cbn [option_map]. now rewrite Hdp.
  - split; [| reflexivity].
    intros c Hc.
    assert (Hin : In c (List.map Customer.customer_id (dim_customer a))).
    { apply (upsert_dim_customer_covers ch d0 a r c Hups); [| exact Hc].
      now rewrite <- Hstg. }
    apply in_map_iff in Hin. destruct Hin as (cu & Hcu & Hin).
    now exists cu.
Qed.

Lemma sample_db_runs : main_steps first_match sample_db = Committed sample_loaded.
Proof. vm_compute. reflexivity. Qed.

Lemma main_steps_facts_resolve_witness :
  loads_resolved_facts sample_db sample_loaded.
Proof.
  apply (main_steps_facts_resolve first_match sample_db sample_loaded).
  exact sample_db_runs.
Defined.

(** The rows that step 8 selects on a database. *)
Definition selected_rows (d : db) : list Fact.selected :=
  flat_map (select_facts FACT_DATE_SOURCE d) (stg_order_export_raw d).

Definition reruns_with_duplicates (ch' : chooser staged_customer)
           (d d1 : db) : Prop :=
  exists d2,
    main_steps ch' d1 = Committed d2 /\
    List.map Fact.cols (fact_sales d1)
    = List.map Fact.cols (fact_sales d) ++ selected_rows d1 /\
    List.map Fact.cols (fact_sales d2)
    = List.map Fact.cols (fact_sales d1) ++ selected_rows d1 /\
    dim_date d2 = dim_date d1 /\
    row_counts d2 = row_counts d1.

(** X16. The fact load has no key to deduplicate on: running steps 4 to 8
    again on the database a committed run has left, with the same staged
    batch, commits again, leaves the dimensions with the same row counts
    and [dim_date] as it is, and appends the same fact rows a second
    time. *)
Theorem main_steps_rerun_duplicates (ch ch' : chooser staged_customer)
        (d d1 : db) :
  main_steps ch d = Committed d1 -> reruns_with_duplicates ch' d d1.
Proof.
  intros Hrun.
  destruct (main_steps_committed ch d d1 Hrun) as (a & Hups & Hins).
  cbv zeta in Hins.
  destruct (upsert_dimensions_as_customer_step ch d)
    as (d0 & Hcust & Habs0 & _ & _ & _ & Hfacts0 & _ & _).
  rewrite Hcust in Hups.
  destruct (upsert_dim_customer_committed ch d0 a Hups)
    as (Hdone & Hstg & Hpl & Hp & _ & Hfacts & _).
  set (col := List.map (dt_col FACT_DATE_SOURCE) (stg_order_export_raw a))
    in *.
  set (t := final (DateDimension.ensure_dim_date (dim_date a)
                     (column_min col) (column_max col))) in *.
  unfold insert_fact_sales in Hins. cbv zeta in Hins. injection Hins as <-.
  set (b := set_dim_date a t).
  set (d1 := set_fact_sales b _ _).
  assert (Habs1 : batch_absorbed d1).
  { destruct Habs0 as [HP HQ]. split.
    - change (new_platforms (stg_order_export_raw a) (dim_platform a) = []).
      now rewrite Hstg, Hpl.
    - change (new_products (stg_order_export_raw a) (dim_product a) = []).
      now rewrite Hstg, Hp. }
  assert (Hdone1 : new_customers (stg_order_export_raw d1) (dim_customer d1)
                   = []) by exact Hdone.
  assert (Hfirst : List.map Fact.cols (fact_sales d1)
                   = List.map Fact.cols (fact_sales d) ++ selected_rows d1).
  { unfold d1. cbn [fact_sales set_fact_sales].
    rewrite map_app, with_identity_cols.
    change (fact_sales b) with (fact_sales a). rewrite Hfacts, Hfacts0.
    reflexivity. }
  unfold reruns_with_duplicates, main_steps.
  rewrite (upsert_dimensions_absorbed ch' d1 Habs1).
  rewrite (upsert_dim_customer_noop ch' d1 Hdone1). cbn [and_then].
  set (a2 := set_dim_customer d1 _).
  rewrite ensure_dim_date_step_final.
  change (stg_order_export_raw a2) with (stg_order_export_raw a).
  change (dim_date a2) with t. fold col.
  unfold t at 1. rewrite ensure_dim_date_again. cbn [final]. fold t.
  change t with (dim_date a2) at 1. rewrite set_dim_date_same.
  cbn [and_then]. unfold insert_fact_sales; cbv zeta.
  eexists. split; [reflexivity |]. split; [exact Hfirst |].
  cbn [fact_sales set_fact_sales dim_date].
  rewrite map_app, with_identity_cols.
  split; [| split; [reflexivity |]].
  - reflexivity.
  - unfold row_counts.
    cbn [dim_platform dim_product dim_customer set_fact_sales].
    unfold a2. cbn [dim_platform dim_product dim_customer set_dim_customer].
    now rewrite update_dim_customer_length.
Qed.

Lemma main_steps_rerun_duplicates_witness :
  reruns_with_duplicates first_match sample_db sample_loaded.
Proof.
  apply (main_steps_rerun_duplicates first_match first_match sample_db
                                     sample_loaded).
  exact sample_db_runs.
Defined.

(** X17. A run that does not commit has written no fact and no date: it can
    only have stopped at step 6, and the state it leaves has the facts, the
    dates and the customers it started with (the platforms and products of
    steps 4 and 5 stay committed). *)
Theorem main_steps_rolled_back (ch : chooser staged_customer) (d d' : db) :
  main_steps ch d = RolledBack d' ->
  d' = final (upsert_dimensions ch d) /\
  fact_sales d' = fact_sales d /\ dim_date d' = dim_date d /\
  dim_customer d' = dim_customer d /\
  stg_order_export_raw d' = stg_order_export_raw d.
Proof.
  unfold main_steps.
  destruct (upsert_dimensions_as_customer_step ch d)
    as (d0 & Hcust & _ & Hstg & Hc & Hdate & Hfacts & _ & _).
  rewrite Hcust.
  destruct (upsert_dim_customer ch d0) as [a | a] eqn:E; cbn [and_then final].
  - rewrite ensure_dim_date_step_final. cbn [and_then].
    unfold insert_fact_sales. discriminate.
  - intros [= <-].
    assert (Ha : a = d0).
    { unfold upsert_dim_customer in E; cbv zeta in E.
      destruct (insert_checked _ _ _ _); [discriminate |].
      now injection E as <-. }
    subst a. repeat split; assumption.
Qed.

Definition conflicting_db : db := mk_db conflicting_batch [] 1 [] 1 [] [] [] 1.

Lemma main_steps_rolled_back_witness :
  fact_sales (final (upsert_dimensions first_match conflicting_db))
  = fact_sales conflicting_db.
Proof.
  apply (main_steps_rolled_back first_match conflicting_db
           (final (upsert_dimensions first_match conflicting_db))).
  vm_compute. reflexivity.
Defined.

End Pipeline.

(* ------------------------------------------------------------------ *)
(** ** The product master load of [product_info_etl.py] *)

Module ProductInfo.
Import Sql Warehouse PyText.

(** *** The staging frame *)

(** [col.notna().any()] *)
Definition has_value (col : list Py.value) : bool :=
  existsb (fun v => negb (Py.isna v)) col.

(** [.str.rstrip('\t\r\n ').str.lstrip()] on one cell: the string
    accessor passes a missing cell through. *)
Definition clean_cell (v : Py.value) : Py.value :=
  match v with
  | Py.VStr s => Py.VStr (lstrip_by isspace (rstrip_by is_tab_cr_lf_space s))
  | _ => v
  end.

(** The cleaning loop on one column of strings. *)
Definition clean_column (col : list Py.value) : list Py.value :=
  if has_value col then List.map clean_cell col else col.

(** The truncation loop on one column:
    [col.astype(str).str.slice(0, max_len)] on the whole column, nulls
    included, when the column has a value. *)
Definition truncate_column (max_len : nat) (col : list Py.value)
  : list Py.value :=
  if has_value col
  then List.map (fun v => Py.VStr (firstn max_len (Py.format v))) col
  else col.

(** A column of [product_staging] as it is written to the staging table. *)
Definition stage_column (max_len : nat) (col : list Py.value)
  : list Py.value :=
  truncate_column max_len (clean_column col).

(** What one cell of a column that has a value becomes. *)
Definition staged_cell (max_len : nat) (v : Py.value) : Py.value :=
  match v with
  | Py.VStr s =>
      Py.VStr (firstn max_len
                 (lstrip_by isspace (rstrip_by is_tab_cr_lf_space s)))
  | _ => Py.VStr (Py.format v)
  end.

Lemma has_value_clean col :
  has_value (List.map clean_cell col) = has_value col.
Proof.
  unfold has_value. induction col as [| v col IH]; [reflexivity |].
  cbn [List.map existsb]. rewrite IH. now destruct v.
Qed.

(** X18. In the product staging frame a column that holds at least one
    value holds no null once it is staged: the truncation converts the whole
    column to text, so every missing cell is written as the text Python
    prints for it, "nan" for NaN (the width being at least 4), and a text
    cell is written trimmed and cut to the width. A column with no value at
    all is left all null. *)
Theorem stage_column_no_nulls (max_len : nat) (col : list Py.value) :
  (4 <= max_len)%nat ->
  stage_column max_len col
  = if has_value col then List.map (staged_cell max_len) col else col.
Proof.
  intros Hlen. unfold stage_column, truncate_column, clean_column.
  destruct (has_value col) eqn:E; [| now rewrite E].
  rewrite has_value_clean, E, map_map. apply map_ext.
  intros [s | |]; cbn [clean_cell staged_cell Py.format]; try reflexivity;
    f_equal; apply firstn_all2; vm_compute; lia.
Qed.

Lemma stage_column_no_nulls_witness :
  stage_column 255 [Py.VStr (Py.lit " Widget	"); Py.VNaN]
  = [Py.VStr (Py.lit "Widget"); Py.VStr (Py.lit "nan")].
Proof.
  rewrite stage_column_no_nulls by lia. reflexivity.
Defined.

(** *** The upsert of [dim_product] *)

Definition master_dec (a b : ProductMaster.row) : {a = b} + {a <> b}.
Proof. repeat decide equality. Defined.

(** [SELECT DISTINCT s.main_sku_code, s.english_name, s.chinese_name,
     s.customer_code, s.category FROM stg_product_master s
     WHERE s.main_sku_code IS NOT NULL AND s.main_sku_code <> ''
       AND NOT EXISTS (SELECT 1 FROM dim_product p
                       WHERE p.main_sku_code = s.main_sku_code)] *)
Definition new_products (stg : list ProductMaster.row) (dp : list Product.row)
  : list ProductMaster.row :=
  nodup master_dec
    (filter
       (fun s => negb (String.eqb (ProductMaster.main_sku_code s) "")
                 && negb (mem string_dec (ProductMaster.main_sku_code s)
                              (List.map Product.main_sku_code dp)))
       stg).

Definition product_of (id : Z) (s : ProductMaster.row) : Product.row :=
  Product.mk id (ProductMaster.main_sku_code s) (ProductMaster.english_name s)
             (ProductMaster.chinese_name s) (ProductMaster.customer_code s)
             (ProductMaster.category s).

(** Step 5 of [product_info_etl.py]: the INSERT and the UPDATE, in one
    transaction, on [dim_product] and its identity. *)
Definition upsert_products (ch : chooser ProductMaster.row)
           (stg : list ProductMaster.row) (st : list Product.row * Z)
  : txn (list Product.row * Z) :=
  let '(t, next) := st in
  let news := new_products stg t in
  match insert_checked string_dec Product.main_sku_code t
          (with_identity product_of next news) with
  | Some t' =>
      Committed (List.map (ProductMaster.update_product ch stg) t',
                 next + Z.of_nat (List.length news))
  | None => RolledBack st
  end.

Lemma update_product_key ch stg p :
  Product.product_id (ProductMaster.update_product ch stg p)
  = Product.product_id p /\
  Product.main_sku_code (ProductMaster.update_product ch stg p)
  = Product.main_sku_code p.
Proof.
  unfold ProductMaster.update_product.
  destruct (choose ch _); split; reflexivity.
Qed.

Lemma update_products_skus ch stg t :
  List.map Product.main_sku_code
           (List.map (ProductMaster.update_product ch stg) t)
  = List.map Product.main_sku_code t.
Proof.
  rewrite map_map. apply map_ext. intros p. apply update_product_key.
Qed.

Lemma with_identity_skus next news :
  List.map Product.main_sku_code (with_identity product_of next news)
  = List.map ProductMaster.main_sku_code news.
Proof.
  revert next. induction news as [| s news IH]; intros next; [reflexivity |].
  cbn. now rewrite IH.
Qed.

Lemma new_products_skus stg dp dp' :
  List.map Product.main_sku_code dp = List.map Product.main_sku_code dp' ->
  new_products stg dp = new_products stg dp'.
Proof. intros H. unfold new_products. now rewrite H. Qed.

Lemma new_products_done stg t next :
  new_products stg (t ++ with_identity product_of next (new_products stg t))
  = [].
Proof.
  unfold new_products at 1. rewrite filter_none; [reflexivity |].
  intros s Hs.
  destruct (String.eqb (ProductMaster.main_sku_code s) "") eqn:Hempty;
    [reflexivity |].
  cbn [negb andb]. rewrite negb_false_iff, mem_In, map_app, in_app_iff.
  destruct (in_dec string_dec (ProductMaster.main_sku_code s)
                   (List.map Product.main_sku_code t)) as [Hin | Hout];
    [now left | right].
  rewrite with_identity_skus. apply in_map.
  unfold new_products. apply nodup_In, filter_In. split; [exact Hs |].
  rewrite Hempty. cbn [negb andb]. now rewrite negb_true_iff, mem_false.
Qed.

(** X19. The product upsert is idempotent on the row count: whatever a
    first application to a staged batch leaves (also when its INSERT raised
    on the UNIQUE key, one SKU being staged with two different sets of
    attributes), a second application to the same batch leaves the number of
    rows of [dim_product] as it is; and no application removes a row or
    changes the product_id or SKU of one. *)
Theorem upsert_products_idempotent (ch ch' : chooser ProductMaster.row)
        (stg : list ProductMaster.row) (st : list Product.row * Z) :
  let st1 := final (upsert_products ch stg st) in
  let st2 := final (upsert_products ch' stg st1) in
  List.length (fst st2) = List.length (fst st1) /\
  (exists added,
      List.map (fun p => (Product.product_id p, Product.main_sku_code p))
               (fst st1)
      = List.map (fun p => (Product.product_id p, Product.main_sku_code p))
                 (fst st) ++ added).
Proof.
  cbv zeta. destruct st as [t next]. unfold upsert_products at 2 3 4.
  unfold insert_checked.
  destruct (fresh string_dec (List.map Product.main_sku_code t)
              (List.map Product.main_sku_code
                 (with_identity product_of next (new_products stg t))))
    eqn:E; cbn [final fst].
  - split.
    + unfold upsert_products.
      set (t1 := t ++ with_identity product_of next (new_products stg t)).
      rewrite (new_products_skus stg
                 (List.map (ProductMaster.update_product ch stg) t1) t1)
        by apply update_products_skus.
      replace (new_products stg t1) with (@nil ProductMaster.row)
        by (symmetry; apply new_products_done).
      cbn [with_identity]. rewrite insert_checked_nil. cbn [final fst].
      now rewrite !length_map.
    + exists (List.map (fun p => (Product.product_id p, Product.main_sku_code p))
                       (with_identity product_of next (new_products stg t))).
      rewrite map_map, <- map_app. apply map_ext.
      intros p. destruct (update_product_key ch stg p) as [-> ->].
      reflexivity.
  - split.
    + unfold upsert_products, insert_checked. rewrite E. reflexivity.
    + exists []. now rewrite app_nil_r.
Qed.

(** X20. The product UPDATE has coalesce semantics: on a product that joins
    exactly one staged row, each attribute takes the staged value when that
    is not NULL and keeps the stored value when it is; whatever the staged
    rows are, an attribute that is stored is never turned into NULL. A
    staged text replaces the stored one also when it is the text "nan". *)
Theorem update_product_coalesce (ch : chooser ProductMaster.row)
        (stg : list ProductMaster.row) (p : Product.row)
        (s : ProductMaster.row) :
  filter (ProductMaster.joins p) stg = [s] ->
  let p' := ProductMaster.update_product ch stg p in
  Product.english_name p'
  = ProductMaster.coalesce_null (ProductMaster.english_name s)
                                (Product.english_name p) /\
  Product.chinese_name p'
  = ProductMaster.coalesce_null (ProductMaster.chinese_name s)
                                (Product.chinese_name p) /\
  Product.customer_code p'
  = ProductMaster.coalesce_null (ProductMaster.customer_code s)
                                (Product.customer_code p) /\
  Product.category p'
  = ProductMaster.coalesce_null (ProductMaster.category s)
                                (Product.category p) /\
  (forall ch2 stg2,
      let q := ProductMaster.update_product ch2 stg2 p in
      (Product.english_name p <> None -> Product.english_name q <> None) /\
      (Product.chinese_name p <> None -> Product.chinese_name q <> None) /\
      (Product.customer_code p <> None -> Product.customer_code q <> None) /\
      (Product.category p <> None -> Product.category q <> None)).
Proof.
  intros Hjoin. cbv zeta.
  unfold ProductMaster.update_product at 1 2 3 4.
  rewrite Hjoin, choose_singleton. cbn.
  repeat (split; [reflexivity |]).
  intros ch2 stg2. apply ProductMaster.update_product_keeps.
Qed.

Lemma update_product_coalesce_witness :
  Product.english_name
    (ProductMaster.update_product first_match
       [ProductMaster.mk "SKU-1" (Some "nan") None None None]%string
       (Product.mk 1 "SKU-1" (Some "Widget") (Some "X") None None)%string)
  = Some "nan"%string.
Proof.
  apply (update_product_coalesce first_match
           [ProductMaster.mk "SKU-1" (Some "nan") None None None]%string
           (Product.mk 1 "SKU-1" (Some "Widget") (Some "X") None None)%string
           (ProductMaster.mk "SKU-1" (Some "nan") None None None)%string).
  reflexivity.
Defined.

(** *** The attribute columns of the input *)

(** [w in s] for two strings. *)
Fixpoint starts_with (w s : Py.str) : bool :=
  match w, s with
  | [], _ => true
  | _ :: _, [] => false
  | a :: w', b :: s' => (a =? b) && starts_with w' s'
  end.

Fixpoint substring (w s : Py.str) : bool :=
  starts_with w s
  || match s with
     | [] => false
     | _ :: s' => substring w s'
     end.

(** The keys of [product_cols_map]. *)
Inductive attribute := english_name | chinese_name | customer_code.

Definition attribute_eqb (a b : attribute) : bool :=
  match a, b with
  | english_name, english_name => true
  | chinese_name, chinese_name => true
  | customer_code, customer_code => true
  | _, _ => false
  end.

(** The branch of the [if] / [elif] chain a lower-cased header takes. *)
Definition attribute_of (col_lower : Py.str) : option attribute :=
  if substring (Py.lit "english") col_lower
     && substring (Py.lit "name") col_lower then Some english_name
  else if substring (Py.lit "chinese") col_lower
          && substring (Py.lit "name") col_lower then Some chinese_name
  else if substring (Py.lit "customer") col_lower
          && substring (Py.lit "code") col_lower then Some customer_code
  else None.

Section ColumnMapping.

(** [str.lower] *)
Variable lower : Py.str -> Py.str.

Definition assign (m : attribute -> option Py.str) (col : Py.str)
  : attribute -> option Py.str :=
  match attribute_of (lower col) with
  | Some a => fun b => if attribute_eqb a b then Some col else m b
  | None => m
  end.

(** The loop over [df.columns] that fills [product_cols_map]. *)
Definition product_cols_map (columns : list Py.str)
  : attribute -> option Py.str :=
  fold_left assign columns (fun _ => None).

Lemma attribute_eqb_eq a b : attribute_eqb a b = true <-> a = b.
Proof. destruct a, b; cbn; split; congruence. Qed.

Lemma fold_assign_other a m columns :
  (forall c, In c columns -> attribute_of (lower c) <> Some a) ->
  fold_left assign columns m a = m a.
Proof.
  revert m. induction columns as [| c columns IH]; intros m Hno;
    [reflexivity |].
  cbn [fold_left]. rewrite IH by (intros c' Hc'; apply Hno; now right).
  unfold assign. specialize (Hno c (or_introl eq_refl)).
  destruct (attribute_of (lower c)) as [a' |]; [| reflexivity].
  destruct (attribute_eqb a' a) eqn:E; [| reflexivity].
  apply attribute_eqb_eq in E. congruence.
Qed.

End ColumnMapping.

(** X21. The attribute columns are found by words in the lower-cased
    header, and the last column that matches wins: an attribute of the
    product is read from the last column of the input whose lower-cased
    header takes that attribute's branch, whatever matched before it, and
    from no column when none does. *)
Theorem product_cols_map_last_match (lower : Py.str -> Py.str)
        (a : attribute) (before after : list Py.str) (c : Py.str) :
  attribute_of (lower c) = Some a ->
  (forall c', In c' after -> attribute_of (lower c') <> Some a) ->
  product_cols_map lower (before ++ c :: after) a = Some c /\
  product_cols_map lower after a = None.
Proof.
  intros Hc Hafter. unfold product_cols_map. split.
  - rewrite fold_left_app. cbn [fold_left].
    rewrite fold_assign_other by exact Hafter.
    unfold assign. rewrite Hc.
    destruct (attribute_eqb a a) eqn:E; [reflexivity |].
    assert (attribute_eqb a a = true) by now apply attribute_eqb_eq.
    congruence.
  - now rewrite fold_assign_other.
Qed.

Lemma product_cols_map_last_match_witness :
  product_cols_map (fun s => s)
    ([Py.lit "english_name"] ++ Py.lit "product_name_english"
                             :: [Py.lit "sku"])
    english_name
  = Some (Py.lit "product_name_english").
Proof.
  apply (product_cols_map_last_match (fun s => s) english_name
           [Py.lit "english_name"] [Py.lit "sku"]
           (Py.lit "product_name_english")).
  - reflexivity.
  - intros c' [<- | []]. vm_compute. discriminate.
Defined.

End ProductInfo.
